(** * CCNA tutor: retrieval-augmented prompting pipeline and its HTTP front end

    A shallow embedding of the Python sources under [scripts/]:
    [AI_model_gemini.py], [AI_model_qwen2.py], [AI_model_phi3.py],
    [AI_model_llama.py] and [fastapi_server.py].

    Conventions of the embedding.
    - A Python [str] is a [string]; case mapping and whitespace are those of
      the ASCII range, which is what every literal of the sources lies in.
    - A Python [int] is a [Z]; a list is a [list]; a dict whose iteration
      order matters is an association list, another dict is a [gmap].
    - Code that may raise returns a [result]; [try]/[except] is [try_except].
    - Everything outside the repository (the sentence encoder, the FAISS
      index, the Gemini client, the Ollama daemon, the clock) is a parameter
      of the function that calls it.
    - Writing to standard output is not part of the model. *)

From Stdlib Require Import ZArith QArith Ascii String List Lia Bool.
From stdpp Require Import base list strings gmap pretty sorting.

Close Scope Q_scope.
Local Open Scope Z_scope.

(** stdpp freezes string concatenation under [simpl]; the proofs below
    compute with it. *)
#[local] Arguments String.append : simpl nomatch.

(** ** Python strings *)

Module PyStr.

(** The line feed of the sources' [\n] escapes and triple-quoted literals. *)
Definition nl : string := String "010"%char "".

(** [str.lower] on one character: [A]-[Z] go to [a]-[z]. *)
Definition lower_char (c : ascii) : ascii :=
  let n := nat_of_ascii c in
  if ((65 <=? n)%nat && (n <=? 90)%nat)%bool then ascii_of_nat (n + 32) else c.

(** [s.lower()] *)
Fixpoint lower (s : string) : string :=
  match s with
  | EmptyString => EmptyString
  | String c rest => String (lower_char c) (lower rest)
  end.

(** [s.startswith(p)], the test behind every position of [p in s]. *)
Fixpoint startswith (p s : string) : bool :=
  match p, s with
  | EmptyString, _ => true
  | String _ _, EmptyString => false
  | String a p', String b s' => if Ascii.eqb a b then startswith p' s' else false
  end.

(** [needle in hay] for two strings. *)
Fixpoint contains (needle hay : string) : bool :=
  startswith needle hay ||
  match hay with
  | EmptyString => false
  | String _ rest => contains needle rest
  end.

(** [sep.join(parts)] *)
Definition join (sep : string) (parts : list string) : string :=
  String.concat sep parts.

(** The joined text of a multi-line literal. *)
Definition unlines (ls : list string) : string := join nl ls.

(** [str.isspace] on an ASCII character. *)
Definition is_space (c : ascii) : bool :=
  let n := nat_of_ascii c in
  ((9 <=? n)%nat && (n <=? 13)%nat) || ((28 <=? n)%nat && (n <=? 32)%nat).

(** [s.lstrip()] *)
Fixpoint lstrip (s : string) : string :=
  match s with
  | EmptyString => EmptyString
  | String c rest => if is_space c then lstrip rest else s
  end.

(** [s.rstrip()] *)
Fixpoint rstrip (s : string) : string :=
  match s with
  | EmptyString => EmptyString
  | String c rest =>
      match rstrip rest with
      | EmptyString => if is_space c then EmptyString else String c EmptyString
      | r => String c r
      end
  end.

(** [s.strip()] *)
Definition strip (s : string) : string := rstrip (lstrip s).

(** [s[:n]] for a non-negative literal [n]. *)
Fixpoint slice_to (n : nat) (s : string) : string :=
  match n, s with
  | O, _ => EmptyString
  | S _, EmptyString => EmptyString
  | S n', String c rest => String c (slice_to n' rest)
  end.

(** [c * n] for a one-character string. *)
Fixpoint replicate_char (n : nat) (c : ascii) : string :=
  match n with
  | O => EmptyString
  | S n' => String c (replicate_char n' c)
  end.

End PyStr.

(** ** Python values, exceptions and containers *)

Module Py.

(** The classes of [Exception] the sources can meet. [ConnectTimeout] is the
    class of [requests] that derives from both [ConnectionError] and
    [Timeout]. Every value of the type is an instance of [Exception], which
    is what a clause [except Exception] catches; signals of the interpreter
    that are no [Exception] ([KeyboardInterrupt], [SystemExit]) are not
    failures of a called service and are not modelled. *)
Inductive exn_class :=
  | ConnectionError | ConnectTimeout | Timeout
  | NameError | IndexError | KeyError | TypeError | AttributeError
  | ValueError | OtherException.

(** An instance of [Exception]: its class and [str(e)]. *)
Record exn := Exn { class_of : exn_class; str_of : string }.

(** [isinstance(e, requests.exceptions.ConnectionError)] *)
Definition is_ConnectionError (e : exn) : bool :=
  match class_of e with ConnectionError | ConnectTimeout => true | _ => false end.

(** [isinstance(e, requests.exceptions.Timeout)] *)
Definition is_Timeout (e : exn) : bool :=
  match class_of e with Timeout | ConnectTimeout => true | _ => false end.

(** The outcome of running a piece of Python: a value, or a raised
    exception on its way to the caller. *)
Inductive result (A : Type) :=
  | Return (a : A)
  | Raise (e : exn).
Global Arguments Return {A} a.
Global Arguments Raise {A} e.

Global Instance result_ret : MRet result := λ A a, Return a.
Global Instance result_bind : MBind result := λ A B f m,
  match m with
  | Return a => f a
  | Raise e => Raise e
  end.

(** [try: body / except Exception as e: handler(e)] *)
Definition try_except {A} (body : result A) (handler : exn → result A) : result A :=
  match body with
  | Return a => Return a
  | Raise e => handler e
  end.

(** A value as the Ollama client and [response.json()] hand it over. *)
#[local] Unset Elimination Schemes.
Inductive pyval :=
  | PNone
  | PBool (b : bool)
  | PInt (z : Z)
  | PStr (s : string)
  | PList (l : list pyval)
  | PDict (d : list (string * pyval)).
#[local] Set Elimination Schemes.

(** Lookup in a dict literal: the first binding of the key. *)
Fixpoint assoc {V : Type} (key : string) (d : list (string * V)) : option V :=
  match d with
  | [] => None
  | (k, v) :: rest => if String.eqb k key then Some v else assoc key rest
  end.

(** [v[key]] with a string key. *)
Definition subscript (v : pyval) (key : string) : result pyval :=
  match v with
  | PDict d =>
      match assoc key d with
      | Some x => Return x
      | None => Raise (Exn KeyError key)
      end
  | _ => Raise (Exn TypeError "object is not subscriptable by a string key")
  end.

(** [v.get(key, default)] *)
Definition get (v : pyval) (key : string) (dflt : pyval) : result pyval :=
  match v with
  | PDict d => Return (default dflt (assoc key d))
  | _ => Raise (Exn AttributeError "object has no attribute 'get'")
  end.

(** [v.strip()] *)
Definition strip (v : pyval) : result string :=
  match v with
  | PStr s => Return (PyStr.strip s)
  | _ => Raise (Exn AttributeError "object has no attribute 'strip'")
  end.

(** [l[i]] for a list and an integer: a negative index counts from the end,
    an index outside [-len(l) .. len(l)-1] raises [IndexError]. *)
Definition getitem {A : Type} (l : list A) (i : Z) : result A :=
  let n := Z.of_nat (length l) in
  let j := if i <? 0 then i + n else i in
  if (0 <=? j) && (j <? n) then
    match l !! Z.to_nat j with
    | Some x => Return x
    | None => Raise (Exn IndexError "list index out of range")
    end
  else Raise (Exn IndexError "list index out of range").

(** [l[start:]]: a negative start counts from the end and is clamped to the
    front of the list, a start past the end gives the empty list. *)
Definition slice_from {A : Type} (start : Z) (l : list A) : list A :=
  let n := Z.of_nat (length l) in
  let lo := if start <? 0 then Z.max 0 (n + start) else Z.min start n in
  drop (Z.to_nat lo) l.

(** The truth value of a name bound to [None] or to an object that defines
    neither [__bool__] nor [__len__]. *)
Definition truthy {A : Type} (o : option A) : bool :=
  match o with
  | Some _ => true
  | None => false
  end.

(** [f"{z}"] for an integer. *)
Definition str_of_int (z : Z) : string := pretty z.

End Py.

(** ** Topic classification shared by the two Ollama tutors *)

Module Topics.

(** [any(keyword in query_lower for keyword in keywords)] *)
Definition any_keyword (keywords : list string) (query_lower : string) : bool :=
  existsb (λ keyword, PyStr.contains keyword query_lower) keywords.

(** The loop [for topic, keywords in topics.items(): if any(...): return topic]
    followed by [return 'general']; a dict literal is visited in the order
    it is written. *)
Fixpoint first_topic (topics : list (string * list string)) (query_lower : string)
    : string :=
  match topics with
  | [] => "general"
  | (topic, keywords) :: rest =>
      if any_keyword keywords query_lower then topic
      else first_topic rest query_lower
  end.

End Topics.

(** ** The Ollama chat call *)

Module Ollama.

(** A value of an options dict. *)
Inductive optval :=
  | OInt (z : Z)
  | OFloat (q : Q)
  | OBool (b : bool).

(** The arguments of one [ollama.chat(model=..., messages=..., options=...)];
    a message is its role and its content. *)
Record ChatCall := {
  chat_model : string;
  messages : list (string * string);
  options : list (string * optval) }.

(** What the daemon does with a call: the response object, or an exception
    of the client. *)
Definition chat_service : Type := ChatCall → Py.result Py.pyval.

End Ollama.

(** ** [AI_model_phi3.py] *)

Module Phi3.
Import Py.

Record StudentProfile := {
  learning_style : string;
  experience_level : string;
  weak_areas : list string;
  strong_areas : list string;
  exam_date : option string;
  study_goals : list string;
  preferred_explanation_style : string }.

(** One entry of [stats['topic_performance']]. *)
Record TopicStats := {
  questions_asked : Z;
  avg_response_time : Q;
  complexity_level : string }.

Record Stats := {
  questions_answered : Z;
  correct_answers : Z;
  total_response_time : Q;
  topic_performance : gmap string TopicStats;
  difficulty_progression : list string;
  study_sessions : Z }.

Record Phi3CCNATutor := {
  model : string;
  dataset : list (list (string * pyval));
  conversation_history : list string;
  student_profile : StudentProfile;
  stats : Stats;
  chat_options : list (string * Ollama.optval) }.

(** [Phi3CCNATutor.__init__] *)
Definition __init__ (model_name : string) : Phi3CCNATutor :=
  {| model := model_name;
     dataset := [];
     conversation_history := [];
     student_profile :=
       {| learning_style := "adaptive";
          experience_level := "beginner";
          weak_areas := [];
          strong_areas := [];
          exam_date := None;
          study_goals := [];
          preferred_explanation_style := "detailed" |};
     stats :=
       {| questions_answered := 0;
          correct_answers := 0;
          total_response_time := 0%Q;
          topic_performance := ∅;
          difficulty_progression := [];
          study_sessions := 0 |};
     chat_options :=
       [ ("num_gpu", Ollama.OInt (-1));
         ("num_thread", Ollama.OInt 6);
         ("num_ctx", Ollama.OInt 1024);
         ("num_predict", Ollama.OInt 200);
         ("temperature", Ollama.OFloat (1 # 10));
         ("top_k", Ollama.OInt 15);
         ("top_p", Ollama.OFloat (8 # 10));
         ("repeat_penalty", Ollama.OFloat (11 # 10));
         ("seed", Ollama.OInt (-1));
         ("tfs_z", Ollama.OFloat 1);
         ("typical_p", Ollama.OFloat 1);
         ("repeat_last_n", Ollama.OInt 64);
         ("penalize_newline", Ollama.OBool false);
         ("numa", Ollama.OBool false);
         ("mirostat", Ollama.OInt 0);
         ("mirostat_tau", Ollama.OFloat 5);
         ("mirostat_eta", Ollama.OFloat (1 # 10)) ] |}.

Definition _build_expert_system_prompt (self : Phi3CCNATutor) : string :=
  let experience := experience_level (student_profile self) in
  let base_prompt :=
    PyStr.unlines
      [ "You are a highly knowledgeable and conversational AI assistant with deep expertise in networking and Cisco technologies. You communicate in a natural, engaging way that feels like talking to a knowledgeable colleague or mentor.";
        "";
        "Your communication style:";
        "- Natural, flowing conversation without rigid structure";
        "- Thoughtful explanations that build understanding progressively";
        "- Genuine enthusiasm for helping people learn networking";
        "- Ability to adapt complexity based on the person's background";
        "- Mix of technical precision with relatable explanations";
        "- Conversational transitions that connect ideas smoothly";
        "";
        "Your networking knowledge covers:";
        "- Routing protocols, switching technologies, and network security";
        "- Practical troubleshooting and real-world implementation";
        "- Cisco device configuration and best practices";
        "- Network design principles and optimization";
        "- Modern networking trends and technologies";
        "";
        "You naturally weave together theory and practice, always aiming to help people truly understand concepts rather than just memorize facts." ] in
  let base_prompt :=
    if String.eqb experience "beginner" then
      base_prompt +:+
      PyStr.unlines
        [ "";
          "";
          "When helping newcomers to networking, you naturally:";
          "- Use everyday analogies to make complex concepts click";
          "- Build understanding step by step, connecting new ideas to familiar ones";
          "- Share practical examples that show why concepts matter";
          "- Encourage questions and create a comfortable learning environment";
          "- Break down intimidating topics into manageable pieces" ]
    else if String.eqb experience "intermediate" then
      base_prompt +:+
      PyStr.unlines
        [ "";
          "";
          "With people who have some networking background, you:";
          "- Connect dots between different concepts they've learned";
          "- Dive deeper into the 'why' behind networking decisions";
          "- Share insights about real-world challenges and solutions";
          "- Help them see patterns and relationships across technologies";
          "- Bridge the gap between theory and practical application" ]
    else
      base_prompt +:+
      PyStr.unlines
        [ "";
          "";
          "For experienced network professionals, you:";
          "- Engage in technical discussions with appropriate depth";
          "- Explore edge cases and advanced scenarios";
          "- Share insights about enterprise-scale considerations";
          "- Discuss emerging technologies and industry trends";
          "- Provide strategic perspectives on network design and optimization" ] in
  base_prompt +:+
    PyStr.unlines
      [ "";
        "";
        "Your approach to helping people:";
        "- Explain concepts in a way that builds genuine understanding";
        "- Share practical examples and real-world context naturally";
        "- Adapt your explanations based on what seems to resonate";
        "- Include relevant commands and configurations when helpful";
        "- Anticipate follow-up questions and address them proactively";
        "- Make complex topics feel approachable and interesting";
        "";
        "You respond like someone who genuinely enjoys networking and wants to share that enthusiasm while helping others succeed. Your explanations flow naturally and feel conversational rather than formal or robotic." ].

Definition _build_enhanced_prompt (query : string) : string :=
  PyStr.unlines
    [ "Here's a networking question I'd like your help with:";
      "";
      "" ]
  +:+ query
  +:+ PyStr.unlines
    [ "";
      "";
      "I'm looking for a thoughtful explanation that helps me really understand this topic. Feel free to include practical examples, relevant commands, or real-world context that would be helpful. If there are common misconceptions or important details people often miss, I'd appreciate you mentioning those too." ].


Definition _enhance_response (answer : pyval) (query : string) : result string :=
  enhanced_answer ← Py.strip answer;
  let enhanced_answer :=
    if PyStr.contains "configure" (PyStr.lower query)
       || PyStr.contains "configuration" (PyStr.lower query) then
      if negb (PyStr.contains "verify" (PyStr.lower enhanced_answer))
         && negb (PyStr.contains "show" (PyStr.lower enhanced_answer)) then
        enhanced_answer +:+
        PyStr.unlines
          [ "";
            "";
            "By the way, don't forget to verify your configuration works as expected - the 'show' commands are your best friend for confirming everything is set up correctly." ]
      else enhanced_answer
    else enhanced_answer in
  let enhanced_answer :=
    if PyStr.contains "troubleshoot" (PyStr.lower query)
       || PyStr.contains "problem" (PyStr.lower query) then
      if negb (PyStr.contains "approach" (PyStr.lower enhanced_answer))
         && negb (PyStr.contains "method" (PyStr.lower enhanced_answer)) then
        enhanced_answer +:+
        PyStr.unlines
          [ "";
            "";
            "When troubleshooting, I find it helpful to work systematically through the layers - start with the physical connections, then data link, network, and so on. It saves time in the long run." ]
      else enhanced_answer
    else enhanced_answer in
  mret enhanced_answer.


(** The [topics] dict of [_extract_topic], in the order it is written. *)
Definition topics : list (string * list string) :=
  [ ("routing", ["ospf"; "eigrp"; "rip"; "bgp"; "route"; "routing"]);
    ("switching", ["vlan"; "stp"; "switch"; "trunk"; "etherchannel"]);
    ("security", ["acl"; "security"; "firewall"; "vpn"; "802.1x"]);
    ("wireless", ["wifi"; "wireless"; "wlan"; "ap"; "controller"]);
    ("troubleshooting", ["troubleshoot"; "debug"; "problem"; "issue"; "fix"]);
    ("subnetting", ["subnet"; "vlsm"; "cidr"; "ip address"; "network"]);
    ("protocols", ["tcp"; "udp"; "http"; "dns"; "dhcp"; "snmp"]) ].

Definition _extract_topic (query : string) : string :=
  let query_lower := PyStr.lower query in
  Topics.first_topic topics query_lower.

Definition _update_learning_analytics (self : Phi3CCNATutor) (query : string)
    (response_time : Q) : Phi3CCNATutor :=
  let topic := _extract_topic query in
  let st := stats self in
  let performance :=
    match topic_performance st !! topic with
    | None =>
        <[topic := {| questions_asked := 0;
                      avg_response_time := 0%Q;
                      complexity_level := "basic" |}]> (topic_performance st)
    | Some _ => topic_performance st
    end in
  let performance :=
    alter (λ t, {| questions_asked := questions_asked t + 1;
                   avg_response_time := avg_response_time t;
                   complexity_level := complexity_level t |}) topic performance in
  {| model := model self;
     dataset := dataset self;
     conversation_history := conversation_history self;
     student_profile := student_profile self;
     stats :=
       {| questions_answered := questions_answered st;
          correct_answers := correct_answers st;
          total_response_time := (total_response_time st + response_time)%Q;
          topic_performance := performance;
          difficulty_progression := difficulty_progression st;
          study_sessions := study_sessions st |};
     chat_options := chat_options self |}.

(** [ask_question]: the text handed back and the tutor object afterwards.
    [ollama_chat] is the daemon's answer to the call and [response_time] the
    clock difference [time.time() - start_time]. *)
Definition ask_question (ollama_chat : Ollama.chat_service) (response_time : Q)
    (self : Phi3CCNATutor) (query : string) : result (string * Phi3CCNATutor) :=
  try_except
    (let system_prompt := _build_expert_system_prompt self in
     let enhanced_query := _build_enhanced_prompt query in
     response ← ollama_chat
       {| Ollama.chat_model := model self;
          Ollama.messages := [("system", system_prompt); ("user", enhanced_query)];
          Ollama.options := chat_options self |};
     message ← subscript response "message";
     answer ← subscript message "content";
     enhanced_answer ← _enhance_response answer query;
     let self := _update_learning_analytics self query response_time in
     mret (enhanced_answer, self))
    (λ e,
     mret ("I apologize, but I encountered an issue. Please ensure Ollama is running with the "
           +:+ model self
           +:+ " model loaded.",
           self)).

(** [chat]: the alias of [ask_question]. *)
Definition chat := ask_question.

End Phi3.


(** ** [AI_model_llama.py] *)

Module Llama.
Import Py.

Record StudentProfile := {
  learning_style : string;
  experience_level : string;
  weak_areas : list string;
  strong_areas : list string;
  exam_date : option string;
  study_goals : list string;
  preferred_explanation_style : string }.

(** One entry of [stats['topic_performance']]. *)
Record TopicStats := {
  questions_asked : Z;
  avg_response_time : Q;
  complexity_level : string;
  last_accessed : Q }.

Record Stats := {
  questions_answered : Z;
  correct_answers : Z;
  total_response_time : Q;
  topic_performance : gmap string TopicStats;
  difficulty_progression : list string;
  study_sessions : Z }.

Record LlamaCCNATutor := {
  model : string;
  dataset : list (list (string * pyval));
  conversation_history : list string;
  student_profile : StudentProfile;
  stats : Stats;
  chat_options : list (string * Ollama.optval) }.

(** [LlamaCCNATutor.__init__] *)
Definition __init__ (model_name : string) : LlamaCCNATutor :=
  {| model := model_name;
     dataset := [];
     conversation_history := [];
     student_profile :=
       {| learning_style := "adaptive";
          experience_level := "intermediate";
          weak_areas := [];
          strong_areas := [];
          exam_date := None;
          study_goals := [];
          preferred_explanation_style := "comprehensive" |};
     stats :=
       {| questions_answered := 0;
          correct_answers := 0;
          total_response_time := 0%Q;
          topic_performance := ∅;
          difficulty_progression := [];
          study_sessions := 0 |};
     chat_options :=
       [ ("num_gpu", Ollama.OInt (-1));
         ("num_thread", Ollama.OInt 6);
         ("num_ctx", Ollama.OInt 4096);
         ("num_predict", Ollama.OInt (-1));
         ("temperature", Ollama.OFloat (3 # 10));
         ("top_k", Ollama.OInt 40);
         ("top_p", Ollama.OFloat (9 # 10));
         ("repeat_penalty", Ollama.OFloat (115 # 100));
         ("seed", Ollama.OInt (-1));
         ("tfs_z", Ollama.OFloat 1);
         ("typical_p", Ollama.OFloat 1);
         ("repeat_last_n", Ollama.OInt 128);
         ("penalize_newline", Ollama.OBool false);
         ("numa", Ollama.OBool false);
         ("mirostat", Ollama.OInt 2);
         ("mirostat_tau", Ollama.OFloat 8);
         ("mirostat_eta", Ollama.OFloat (1 # 10)) ] |}.

Definition _build_comprehensive_system_prompt (self : LlamaCCNATutor) : string :=
  let experience := experience_level (student_profile self) in
  let base_prompt :=
    PyStr.unlines
      [ "You are an exceptionally knowledgeable and engaging AI assistant with comprehensive expertise in networking and Cisco technologies. You communicate in a natural, thoughtful way that feels like having an in-depth conversation with a highly experienced and patient mentor.";
        "";
        "Your communication approach:";
        "- Natural, flowing explanations that build understanding layer by layer";
        "- Thoughtful depth without overwhelming complexity";
        "- Genuine enthusiasm for helping people master networking concepts";
        "- Ability to provide comprehensive coverage while maintaining clarity";
        "- Seamless integration of theory, practice, and real-world insights";
        "- Conversational tone that makes complex topics accessible and interesting";
        "";
        "Your comprehensive networking knowledge includes:";
        "- Deep understanding of routing protocols, switching technologies, and network security";
        "- Extensive practical experience with troubleshooting and implementation";
        "- Thorough knowledge of Cisco device configuration and optimization";
        "- Comprehensive grasp of network design principles and best practices";
        "- Understanding of modern networking trends and emerging technologies";
        "- Practical insights about real-world networking challenges and solutions";
        "";
        "You naturally provide thorough, well-rounded explanations that help people develop both theoretical understanding and practical skills." ] in
  let base_prompt :=
    if String.eqb experience "beginner" then
      base_prompt +:+
      PyStr.unlines
        [ "";
          "";
          "When helping people new to networking, you naturally:";
          "- Build understanding step by step, ensuring each concept is solid before moving forward";
          "- Use relatable analogies and examples that make abstract concepts concrete";
          "- Provide detailed explanations of commands and configurations";
          "- Share the reasoning behind different approaches and design choices";
          "- Anticipate common questions and address potential confusion points";
          "- Create a supportive learning environment that encourages exploration" ]
    else if String.eqb experience "intermediate" then
      base_prompt +:+
      PyStr.unlines
        [ "";
          "";
          "With people who have networking experience, you:";
          "- Connect concepts across different areas to build comprehensive understanding";
          "- Explore the nuances and trade-offs in different technical approaches";
          "- Share insights about real-world implementation challenges and solutions";
          "- Discuss how different technologies work together in practice";
          "- Provide multiple perspectives on solving networking problems";
          "- Help bridge the gap between theoretical knowledge and practical expertise" ]
    else
      base_prompt +:+
      PyStr.unlines
        [ "";
          "";
          "For experienced networking professionals, you:";
          "- Engage in sophisticated technical discussions with appropriate depth";
          "- Explore advanced scenarios, edge cases, and optimization strategies";
          "- Discuss architectural considerations and design trade-offs";
          "- Share insights about industry trends and emerging technologies";
          "- Provide strategic perspectives on network planning and implementation";
          "- Offer comprehensive analysis of complex networking challenges" ] in
  base_prompt +:+
    PyStr.unlines
      [ "";
        "";
        "Your approach to comprehensive explanations:";
        "- Provide thorough coverage while maintaining clarity and flow";
        "- Include practical examples, configurations, and real-world context";
        "- Explain not just what to do, but why it works and when to use it";
        "- Anticipate follow-up questions and provide comprehensive coverage";
        "- Share multiple approaches when relevant, with clear explanations of trade-offs";
        "- Include verification steps and troubleshooting guidance naturally";
        "- Connect concepts to broader networking principles and best practices";
        "";
        "You respond like someone who genuinely loves networking technology and enjoys sharing comprehensive knowledge in a way that's both thorough and accessible. Your explanations are detailed yet conversational, comprehensive yet clear." ].

Definition _build_detailed_prompt (query : string) : string :=
  PyStr.unlines
    [ "I'd like a comprehensive explanation of this networking topic:";
      "";
      "" ]
  +:+ query
  +:+ PyStr.unlines
    [ "";
      "";
      "I'm looking for a thorough understanding that covers the important aspects - the technical details, practical implementation, real-world considerations, and any nuances or best practices I should know about. Feel free to include relevant commands, configurations, troubleshooting approaches, or examples that would help me really grasp this topic comprehensively.";
      "";
      "If there are related concepts or common misconceptions worth addressing, I'd appreciate you covering those as well." ].

Definition _enhance_comprehensive_response (answer : pyval) (query : string)
    : result string :=
  enhanced_answer ← Py.strip answer;
  let enhanced_answer :=
    if PyStr.contains "configure" (PyStr.lower query)
       || PyStr.contains "configuration" (PyStr.lower query) then
      if negb (PyStr.contains "verify" (PyStr.lower enhanced_answer))
         && negb (PyStr.contains "show" (PyStr.lower enhanced_answer)) then
        enhanced_answer +:+
        PyStr.unlines
          [ "";
            "";
            "Just to round this out - once you've got the configuration in place, you'll want to verify it's working as expected. The key commands for this are usually 'show running-config' to see what's actually configured, 'show ip route' for routing verification, and 'show ip interface brief' for a quick interface status overview. Testing connectivity with ping is always a good final check." ]
      else enhanced_answer
    else enhanced_answer in
  let enhanced_answer :=
    if PyStr.contains "troubleshoot" (PyStr.lower query)
       || PyStr.contains "problem" (PyStr.lower query) then
      if negb (PyStr.contains "approach" (PyStr.lower enhanced_answer))
         && negb (PyStr.contains "method" (PyStr.lower enhanced_answer)) then
        enhanced_answer +:+
        PyStr.unlines
          [ "";
            "";
            "For troubleshooting, I find it really helps to work systematically through the network layers. Start with the physical stuff - cables, port status, hardware indicators. Then move up through data link (VLANs, switching), network layer (routing, IP connectivity), transport (port accessibility), and finally application layer testing. This methodical approach saves a lot of time and prevents you from missing obvious issues." ]
      else enhanced_answer
    else enhanced_answer in
  let enhanced_answer :=
    if PyStr.contains "security" (PyStr.lower query)
       || PyStr.contains "acl" (PyStr.lower query) then
      if negb (PyStr.contains "best practice" (PyStr.lower enhanced_answer)) then
        enhanced_answer +:+
        PyStr.unlines
          [ "";
            "";
            "From a security perspective, it's worth keeping in mind the principle of least privilege - only allow what's specifically needed. Named ACLs are generally better than numbered ones for management and readability. And don't forget about logging - it's incredibly valuable for monitoring and troubleshooting security issues." ]
      else enhanced_answer
    else enhanced_answer in
  mret enhanced_answer.

(** The [topics] dict of [_extract_topic], in the order it is written. *)
Definition topics : list (string * list string) :=
  [ ("routing", ["ospf"; "eigrp"; "rip"; "bgp"; "route"; "routing"; "static route"; "dynamic routing"]);
    ("switching", ["vlan"; "stp"; "switch"; "trunk"; "etherchannel"; "port-channel"; "spanning-tree"]);
    ("security", ["acl"; "security"; "firewall"; "vpn"; "802.1x"; "authentication"; "authorization"]);
    ("wireless", ["wifi"; "wireless"; "wlan"; "ap"; "controller"; "802.11"; "ssid"]);
    ("troubleshooting", ["troubleshoot"; "debug"; "problem"; "issue"; "fix"; "diagnose"]);
    ("subnetting", ["subnet"; "vlsm"; "cidr"; "ip address"; "network"; "supernet"]);
    ("protocols", ["tcp"; "udp"; "http"; "dns"; "dhcp"; "snmp"; "ntp"; "syslog"]);
    ("wan", ["wan"; "frame relay"; "ppp"; "hdlc"; "serial"; "leased line"]);
    ("ipv6", ["ipv6"; "ipng"; "dual stack"; "tunneling"; "migration"]);
    ("qos", ["qos"; "quality of service"; "traffic shaping"; "policing"; "marking"]) ].

Definition _extract_topic (query : string) : string :=
  let query_lower := PyStr.lower query in
  Topics.first_topic topics query_lower.

Definition _assess_complexity (query : string) : string :=
  let complex_indicators :=
    [ "design"; "architect"; "implement"; "troubleshoot"; "optimize";
      "compare"; "analyze"; "evaluate"; "integrate"; "configure" ] in
  let advanced_terms :=
    [ "enterprise"; "scalability"; "redundancy"; "convergence";
      "interoperability"; "automation"; "programmability" ] in
  let query_lower := PyStr.lower query in
  if Topics.any_keyword advanced_terms query_lower then "advanced"
  else if Topics.any_keyword complex_indicators query_lower then "intermediate"
  else "basic".

(** [now] is the reading of [time.time()] that ends up in [last_accessed]. *)
Definition _update_learning_analytics (self : LlamaCCNATutor) (query : string)
    (response_time now : Q) : LlamaCCNATutor :=
  let topic := _extract_topic query in
  let complexity := _assess_complexity query in
  let st := stats self in
  let performance :=
    match topic_performance st !! topic with
    | None =>
        <[topic := {| questions_asked := 0;
                      avg_response_time := 0%Q;
                      complexity_level := "basic";
                      last_accessed := now |}]> (topic_performance st)
    | Some _ => topic_performance st
    end in
  let performance :=
    alter (λ t, {| questions_asked := questions_asked t + 1;
                   avg_response_time := avg_response_time t;
                   complexity_level := complexity;
                   last_accessed := now |}) topic performance in
  {| model := model self;
     dataset := dataset self;
     conversation_history := conversation_history self;
     student_profile := student_profile self;
     stats :=
       {| questions_answered := questions_answered st;
          correct_answers := correct_answers st;
          total_response_time := (total_response_time st + response_time)%Q;
          topic_performance := performance;
          difficulty_progression := difficulty_progression st;
          study_sessions := study_sessions st |};
     chat_options := chat_options self |}.

(** [ask_question], with the daemon and the two clock readings as for the
    other Ollama tutor. *)
Definition ask_question (ollama_chat : Ollama.chat_service) (response_time now : Q)
    (self : LlamaCCNATutor) (query : string) : result (string * LlamaCCNATutor) :=
  try_except
    (let system_prompt := _build_comprehensive_system_prompt self in
     let enhanced_query := _build_detailed_prompt query in
     response ← ollama_chat
       {| Ollama.chat_model := model self;
          Ollama.messages := [("system", system_prompt); ("user", enhanced_query)];
          Ollama.options := chat_options self |};
     message ← subscript response "message";
     answer ← subscript message "content";
     enhanced_answer ← _enhance_comprehensive_response answer query;
     let self := _update_learning_analytics self query response_time now in
     mret (enhanced_answer, self))
    (λ e,
     mret ("I apologize, but I encountered an issue. Please ensure Ollama is running with the "
           +:+ model self
           +:+ " model loaded.",
           self)).

(** [chat]: the alias of [ask_question]. *)
Definition chat := ask_question.

End Llama.


(** ** Retrieval shared by the two retrieval-augmented tutors *)

Module Retrieval.
Import Py.

(** An embedding: the encoder's 32-bit floats are taken as exact rationals. *)
Definition EmbeddingVector : Type := list Q.

(** [embedding_model.encode([query], convert_to_numpy=True)]: the one row of
    the result. *)
Definition encoder : Type := string → EmbeddingVector.

(** [index.search(query_vec, top_k)]: the rows [D[0]] and [I[0]] of the two
    arrays the library hands back, or the library's own failure. *)
Definition search_service : Type :=
  EmbeddingVector → Z → result (list Q * list Z).

(** [f"Q: {questions[i]}\nA: {correct_texts[i]}"] *)
Definition qa_pair (questions correct_texts : list string) (i : Z) : result string :=
  q ← getitem questions i;
  a ← getitem correct_texts i;
  mret ("Q: " +:+ q +:+ PyStr.nl +:+ "A: " +:+ a).

(** The list comprehension
    [[f"Q: ..." for i in I[0] if i < len(questions)]]. *)
Definition qa_pairs (questions correct_texts : list string) (I0 : list Z)
    : result (list string) :=
  mapM (qa_pair questions correct_texts)
       (filter (λ i, i < Z.of_nat (length questions)) I0).

(** [context = "\n".join([...])] *)
Definition context_of (questions correct_texts : list string) (I0 : list Z)
    : result string :=
  pairs ← qa_pairs questions correct_texts I0;
  mret (PyStr.join PyStr.nl pairs).

End Retrieval.

(** ** [AI_model_gemini.py] *)

Module Gemini.
Import Py.

(** The response object of [model.generate_content]: its [text] property
    either is the generated text or raises. *)
Record GenerateContentResponse := { text : result string }.

Definition generation_service : Type := string → result GenerateContentResponse.

(** The module-level names the tutor reads and writes. *)
Record Globals := {
  questions : list string;
  correct_texts : list string;
  conversation_history : list string }.

Definition generate_answer (generate_content : generation_service)
    (prompt : string) : result string :=
  try_except
    (response ← generate_content prompt;
     t ← text response;
     mret (PyStr.strip t))
    (λ e, mret ("[Error from Gemini API] " +:+ str_of e)).

(** The [# Conversation memory] block of [personalized_tutor]. *)
Definition history_text (conversation_history : list string) : string :=
  match conversation_history with
  | [] => ""
  | _ =>
      PyStr.nl +:+ "Previous tutor interactions:" +:+ PyStr.nl
      +:+ PyStr.join PyStr.nl (slice_from (-5) conversation_history)
  end.

(** The f-string bound to [prompt]. *)
Definition prompt (context history_text query : string) : string :=
  PyStr.unlines
    [ "";
      "You are an expert Cisco network engineer specializing in IOS configurations and CLI commands.";
      "";
      "Your expertise:";
      "- **Cisco IOS Command Syntax**: Provide exact, copy-pasteable commands";
      "- **Router & Switch Configuration**: Step-by-step configuration workflows";
      "- **VLAN Setup**: Trunking, access ports, inter-VLAN routing";
      "- **Routing Protocols**: OSPF, EIGRP, BGP configuration";
      "- **ACLs & Security**: Access control lists, port security";
      "- **NAT/PAT**: Network address translation setup";
      "- **Verification Commands**: Show commands to verify configs work";
      "";
      "Your response format:";
      "1. Brief explanation of what we're configuring";
      "2. Exact CLI commands (copy-pasteable)";
      "3. Explanation of what each command does";
      "4. Verification steps with show commands";
      "5. Common mistakes to avoid";
      "";
      "Context/reference:";
      "" ]
  +:+ context
  +:+ PyStr.unlines
    [ "";
      "";
      "" ]
  +:+ history_text
  +:+ PyStr.unlines
    [ "";
      "";
      "Configuration request: " ]
  +:+ query
  +:+ PyStr.unlines
    [ "";
      "";
      "Provide clear CLI commands with syntax and verification steps.";
      "" ].

(** The prompt [personalized_tutor] assembles for a query. *)
Definition assemble (encode : Retrieval.encoder) (index_search : Retrieval.search_service)
    (g : Globals) (query : string) (top_k : Z) : result string :=
  let query_vec := encode query in
  '(D, I0) ← index_search query_vec top_k;
  context ← Retrieval.context_of (questions g) (correct_texts g) I0;
  mret (prompt context (history_text (conversation_history g)) query).

(** [personalized_tutor(query, top_k)]: the answer and the module's names
    afterwards. *)
Definition personalized_tutor (encode : Retrieval.encoder)
    (index_search : Retrieval.search_service)
    (generate_content : generation_service)
    (g : Globals) (query : string) (top_k : Z) : result (string * Globals) :=
  prompt ← assemble encode index_search g query top_k;
  response_text ← generate_answer generate_content prompt;
  let entry := "Q: " +:+ query +:+ PyStr.nl +:+ "A: " +:+ response_text in
  mret (response_text,
        {| questions := questions g;
           correct_texts := correct_texts g;
           conversation_history := conversation_history g ++ [entry] |}).

(** The default [top_k = 3]. *)
Definition default_top_k : Z := 3.

End Gemini.

(** ** [AI_model_qwen2.py] *)

Module Qwen2.
Import Py.

Definition OLLAMA_API_URL : string := "http://localhost:11434/api/generate".
Definition MODEL_NAME : string := "qwen2:0.5b".

(** The JSON body of the request. *)
Record Payload := {
  payload_model : string;
  payload_prompt : string;
  payload_stream : bool;
  payload_options : list (string * Ollama.optval) }.

(** A [requests.Response]: its status code and what [response.json()] does. *)
Record Response := {
  status_code : Z;
  json : result pyval }.

(** [requests.post(url, json=payload, timeout=seconds)] *)
Definition post_service : Type := string → Payload → Z → result Response.

(** The module-level names the tutor reads and writes. *)
Record Globals := {
  questions : list string;
  correct_texts : list string;
  conversation_history : list string }.

Definition generate_answer (requests_post : post_service) (prompt : string)
    : result string :=
  try_except
    (let payload :=
       {| payload_model := MODEL_NAME;
          payload_prompt := prompt;
          payload_stream := false;
          payload_options :=
            [ ("temperature", Ollama.OFloat (6 # 10));
              ("num_predict", Ollama.OInt 256);
              ("top_p", Ollama.OFloat (85 # 100)) ] |} in
     response ← requests_post OLLAMA_API_URL payload 30;
     if status_code response =? 200 then
       result ← json response;
       r ← get result "response" (PStr "");
       Py.strip r
     else
       mret ("[Error] Ollama returned status "
             +:+ str_of_int (status_code response)
             +:+ ". Is Ollama running?"))
    (λ e,
     if is_ConnectionError e then
       mret "[Error] Cannot connect to Ollama. Please start Ollama service."
     else if is_Timeout e then
       mret "[Error] Request timed out. Try again."
     else
       mret ("[Error] " +:+ str_of e)).

(** The [# Conversation memory] block of [personalized_tutor]. *)
Definition history_text (conversation_history : list string) : string :=
  match conversation_history with
  | [] => ""
  | _ =>
      PyStr.nl +:+ "Previous:" +:+ PyStr.nl
      +:+ PyStr.join PyStr.nl (slice_from (-2) conversation_history)
  end.

Definition instruction : string :=
  PyStr.unlines
    [ "You are a CCNA exam practice coach. Provide INSTANT, CONCISE answers.";
      "";
      "Your focus:";
      "- Quick, direct answers";
      "- Practice questions when asked";
      "- Brief explanations (2-3 sentences max)";
      "- Perfect for rapid Q&A and flash cards";
      "- No lengthy details - speed is priority" ].

(** The f-string bound to [prompt]. *)
Definition prompt (context query : string) : string :=
  instruction
  +:+ PyStr.unlines [""; ""; "Context: "]
  +:+ PyStr.slice_to 400 context
  +:+ PyStr.unlines [""; ""; "Question: "]
  +:+ query
  +:+ PyStr.unlines [""; ""; "Quick answer:"].

(** The prompt [personalized_tutor] assembles for a query. [history_text] is
    computed and then left out of the f-string. *)
Definition assemble (encode : Retrieval.encoder) (index_search : Retrieval.search_service)
    (g : Globals) (query mode : string) (top_k : Z) : result string :=
  let query_vec := encode query in
  '(D, I0) ← index_search query_vec top_k;
  context ← Retrieval.context_of (questions g) (correct_texts g) I0;
  let history_text := history_text (conversation_history g) in
  mret (prompt context query).

(** [personalized_tutor(query, mode, top_k)]: the answer and the module's
    names afterwards. *)
Definition personalized_tutor (encode : Retrieval.encoder)
    (index_search : Retrieval.search_service)
    (requests_post : post_service)
    (g : Globals) (query mode : string) (top_k : Z) : result (string * Globals) :=
  prompt ← assemble encode index_search g query mode top_k;
  response_text ← generate_answer requests_post prompt;
  let entry := "Q: " +:+ query +:+ PyStr.nl +:+ "A: " +:+ response_text in
  mret (response_text,
        {| questions := questions g;
           correct_texts := correct_texts g;
           conversation_history := conversation_history g ++ [entry] |}).

(** The defaults [mode = "practice"] and [top_k = 3]. *)
Definition default_mode : string := "practice".
Definition default_top_k : Z := 3.

End Qwen2.


(** ** [fastapi_server.py] *)

Module Server.
Import Py.

(** The object [current_tutor] is bound to: one of the two tutor objects the
    module created, so a call through it changes that object. *)
Inductive tutor_ref := RefPhi3 | RefLlama.

(** The module-level names that vary. [gemini_tutor] and [qwen2_tutor] are
    the imported functions, present with the names of their own modules, or
    [None] after a failed import. *)
Record Globals := {
  gemini_tutor : option Gemini.Globals;
  qwen2_tutor : option Qwen2.Globals;
  phi3_tutor : option Phi3.Phi3CCNATutor;
  llama_tutor : option Llama.LlamaCCNATutor;
  current_tutor : option tutor_ref;
  current_model : string }.

(** The module body: which imports succeeded decides the objects created. *)
Definition startup (gemini : option Gemini.Globals) (qwen2 : option Qwen2.Globals)
    (phi3_imported llama_imported : bool) : Globals :=
  let phi3_tutor := if phi3_imported then Some (Phi3.__init__ "phi3:mini") else None in
  let llama_tutor := if llama_imported then Some (Llama.__init__ "llama3.1:8b") else None in
  {| gemini_tutor := gemini;
     qwen2_tutor := qwen2;
     phi3_tutor := phi3_tutor;
     llama_tutor := llama_tutor;
     current_tutor :=
       if truthy phi3_tutor then Some RefPhi3
       else if truthy llama_tutor then Some RefLlama else None;
     current_model := "phi3" |}.

(** Everything outside the process that one request meets. *)
Record World := {
  ollama_chat : Ollama.chat_service;
  response_time : Q;
  now : Q;
  encode : Retrieval.encoder;
  gemini_index_search : Retrieval.search_service;
  qwen2_index_search : Retrieval.search_service;
  generate_content : Gemini.generation_service;
  requests_post : Qwen2.post_service;
  random_index : nat }.

(** A JSON object of a response body, as the dict literal is written. *)
Definition dict : Type := list (string * pyval).

Record ChatRequest := {
  message : string;
  conversation_history : list pyval;
  model : option string }.

(** The default of [ChatRequest.model]. *)
Definition default_model : option string := Some "phi3".

Definition set_current (r : option tutor_ref) (name : string) (g : Globals) : Globals :=
  {| gemini_tutor := gemini_tutor g;
     qwen2_tutor := qwen2_tutor g;
     phi3_tutor := phi3_tutor g;
     llama_tutor := llama_tutor g;
     current_tutor := r;
     current_model := name |}.

(** [switch_model]: the response and the module's names afterwards. *)
Definition switch_model (request_model : string) (g : Globals)
    : result (dict * Globals) :=
  try_except
    (if String.eqb (PyStr.lower request_model) "phi3" && truthy (phi3_tutor g) then
       mret ([ ("status", PStr "success");
               ("message", PStr "Switched to Phi3:Mini (Ultra-Fast Mode)");
               ("model", PStr "phi3:mini");
               ("response_time", PStr "1-2 seconds");
               ("gpu_accelerated", PBool true) ],
             set_current (Some RefPhi3) "phi3" g)
     else if String.eqb (PyStr.lower request_model) "llama" && truthy (llama_tutor g) then
       mret ([ ("status", PStr "success");
               ("message", PStr "Switched to Llama3.1:8B (Comprehensive Mode)");
               ("model", PStr "llama3.1:8b");
               ("response_time", PStr "3-5 seconds");
               ("gpu_accelerated", PBool true) ],
             set_current (Some RefLlama) "llama" g)
     else if String.eqb (PyStr.lower request_model) "gemini" && truthy (gemini_tutor g) then
       mret ([ ("status", PStr "success");
               ("message", PStr "Switched to Gemini (Code & Config Mode)");
               ("model", PStr "gemini-1.5-flash");
               ("response_time", PStr "2-4 seconds");
               ("gpu_accelerated", PBool false) ],
             set_current (current_tutor g) "gemini" g)
     else
       mret ([ ("status", PStr "error");
               ("message", PStr ("Model '" +:+ request_model +:+ "' not available")) ],
             g))
    (λ e,
     mret ([ ("status", PStr "error");
             ("message", PStr ("Error switching model: " +:+ str_of e)) ],
           g)).

(** The block under [# Switch model if requested] of [chat_endpoint]. *)
Definition chat_select (request : ChatRequest) (g : Globals) : Globals :=
  match model request with
  | Some m =>
      if negb (String.eqb m "") && negb (String.eqb m (current_model g)) then
        if String.eqb (PyStr.lower m) "phi3" && truthy (phi3_tutor g) then
          set_current (Some RefPhi3) "phi3" g
        else if String.eqb (PyStr.lower m) "llama" && truthy (llama_tutor g) then
          set_current (Some RefLlama) "llama" g
        else g
      else g
  | None => g
  end.

(** [current_tutor.ask_question(query)]: the call reaches the object the
    name is bound to and leaves its changes there. *)
Definition current_ask_question (w : World) (r : tutor_ref) (query : string)
    (g : Globals) : option (result (string * Globals)) :=
  match r with
  | RefPhi3 =>
      tutor ← phi3_tutor g;
      Some ('(answer, tutor) ← Phi3.ask_question (ollama_chat w) (response_time w) tutor query;
            mret (answer,
                  {| gemini_tutor := gemini_tutor g;
                     qwen2_tutor := qwen2_tutor g;
                     phi3_tutor := Some tutor;
                     llama_tutor := llama_tutor g;
                     current_tutor := current_tutor g;
                     current_model := current_model g |}))
  | RefLlama =>
      tutor ← llama_tutor g;
      Some ('(answer, tutor) ← Llama.ask_question (ollama_chat w) (response_time w) (now w) tutor query;
            mret (answer,
                  {| gemini_tutor := gemini_tutor g;
                     qwen2_tutor := qwen2_tutor g;
                     phi3_tutor := phi3_tutor g;
                     llama_tutor := Some tutor;
                     current_tutor := current_tutor g;
                     current_model := current_model g |}))
  end.

(** [gemini_tutor(query)] called through the imported name. *)
Definition call_gemini (w : World) (gm : Gemini.Globals) (query : string)
    (g : Globals) : result (string * Globals) :=
  '(answer, gm) ← Gemini.personalized_tutor (encode w) (gemini_index_search w)
                     (generate_content w) gm query Gemini.default_top_k;
  mret (answer,
        {| gemini_tutor := Some gm;
           qwen2_tutor := qwen2_tutor g;
           phi3_tutor := phi3_tutor g;
           llama_tutor := llama_tutor g;
           current_tutor := current_tutor g;
           current_model := current_model g |}).

(** [chat_endpoint]. The assignments of the switching block stay when the
    rest of the handler fails. *)
Definition chat_endpoint (w : World) (request : ChatRequest) (g : Globals)
    : result (dict * Globals) :=
  let g := chat_select request g in
  try_except
    (match current_tutor g ≫= λ r, current_ask_question w r (message request) g with
     | Some call =>
         '(answer, g) ← call;
         let model_name :=
           if String.eqb (current_model g) "phi3" then "phi3:mini" else "llama3.1:8b" in
         mret ([ ("response", PStr answer);
                 ("model_used", PStr model_name);
                 ("model_type", PStr (current_model g));
                 ("subject", PStr "ccna");
                 ("gpu_accelerated", PBool true);
                 ("status", PStr "success") ],
               g)
     | None =>
         match gemini_tutor g with
         | Some gm =>
             '(answer, g) ← call_gemini w gm (message request) g;
             mret ([ ("response", PStr answer);
                     ("model_used", PStr "gemini");
                     ("subject", PStr "networking");
                     ("status", PStr "success") ],
                   g)
         | None =>
             mret ([ ("error", PStr "No AI model available");
                     ("status", PStr "error") ],
                   g)
         end
     end)
    (λ e,
     mret ([ ("error", PStr ("Error generating response: " +:+ str_of e));
             ("status", PStr "error") ],
           g)).

(** [chat_qwen2_endpoint] *)
Definition chat_qwen2_endpoint (w : World) (request : ChatRequest) (g : Globals)
    : result (dict * Globals) :=
  try_except
    (match qwen2_tutor g with
     | Some qw =>
         let message_lower := PyStr.lower (message request) in
         let mode := "practice" in
         let mode :=
           if Topics.any_keyword ["configure"; "setup"; "command"; "cli"] message_lower then
             "configuration"
           else if Topics.any_keyword ["troubleshoot"; "problem"; "issue"; "error"] message_lower then
             "troubleshooting"
           else if Topics.any_keyword ["what"; "explain"; "define"] message_lower then
             "concepts"
           else mode in
         '(answer, qw) ← Qwen2.personalized_tutor (encode w) (qwen2_index_search w)
                            (requests_post w) qw (message request) mode Qwen2.default_top_k;
         mret ([ ("response", PStr answer);
                 ("model_used", PStr "qwen2:0.5b");
                 ("model_type", PStr "practice");
                 ("mode", PStr mode);
                 ("gpu_accelerated", PBool true);
                 ("response_time", PStr "<1s");
                 ("status", PStr "success") ],
               {| gemini_tutor := gemini_tutor g;
                  qwen2_tutor := Some qw;
                  phi3_tutor := phi3_tutor g;
                  llama_tutor := llama_tutor g;
                  current_tutor := current_tutor g;
                  current_model := current_model g |})
     | None =>
         mret ([ ("error", PStr "Qwen2 model not available. Run: ollama pull qwen2:0.5b");
                 ("status", PStr "error") ],
               g)
     end)
    (λ e,
     mret ([ ("error", PStr ("Error generating response: " +:+ str_of e));
             ("status", PStr "error") ],
           g)).

(** *** The module namespace *)

(** What a module-level name can be bound to. *)
Inductive gval :=
  | GNone
  | GPhi3 (t : Phi3.Phi3CCNATutor)
  | GLlama (t : Llama.LlamaCCNATutor)
  | GFunction
  | GClass
  | GModule
  | GApp
  | GStr (s : string).

Definition of_phi3 (o : option Phi3.Phi3CCNATutor) : gval :=
  match o with Some t => GPhi3 t | None => GNone end.
Definition of_llama (o : option Llama.LlamaCCNATutor) : gval :=
  match o with Some t => GLlama t | None => GNone end.
Definition of_function {A : Type} (o : option A) : gval :=
  match o with Some _ => GFunction | None => GNone end.

(** The dict of the module: every name the file binds at module level
    (imports, assignments, classes and handlers), apart from the names every
    module has ([__name__], [__file__] and the like). The two tutor classes
    are bound only when their import succeeded. *)
Definition namespace (g : Globals) : gmap string gval :=
  list_to_map
    ([ ("FastAPI", GClass); ("CORSMiddleware", GClass); ("BaseModel", GClass);
       ("List", GClass); ("Optional", GClass); ("os", GModule);
       ("gemini_tutor", of_function (gemini_tutor g));
       ("qwen2_tutor", of_function (qwen2_tutor g));
       ("phi3_tutor", of_phi3 (phi3_tutor g));
       ("llama_tutor", of_llama (llama_tutor g));
       ("current_tutor",
         match current_tutor g with
         | Some RefPhi3 => of_phi3 (phi3_tutor g)
         | Some RefLlama => of_llama (llama_tutor g)
         | None => GNone
         end);
       ("current_model", GStr (current_model g)) ]
     ++ (if truthy (phi3_tutor g) then [("Phi3CCNATutor", GClass)] else [])
     ++ (if truthy (llama_tutor g) then [("LlamaCCNATutor", GClass)] else [])
     ++ [ ("app", GApp);
          ("ChatRequest", GClass); ("ModelSwitchRequest", GClass); ("Query", GClass);
          ("root", GFunction); ("switch_model", GFunction); ("chat_endpoint", GFunction);
          ("chat_phi3_endpoint", GFunction); ("chat_llama_endpoint", GFunction);
          ("chat_gemini_endpoint", GFunction); ("ask_tutor", GFunction);
          ("MCAnswerRequest", GClass);
          ("get_random_question", GFunction); ("check_answer", GFunction);
          ("get_topics", GFunction); ("get_available_models", GFunction);
          ("health_check", GFunction); ("chat_qwen2_endpoint", GFunction) ]).

(** Reading a global name inside a handler: the module's dict; no builtin
    has any of the names the handlers read. *)
Definition load_global (name : string) (g : Globals) : result gval :=
  match namespace g !! name with
  | Some v => Return v
  | None => Raise (Exn NameError ("name '" +:+ name +:+ "' is not defined"))
  end.

(** The truth value of a module-level value. *)
Definition gval_truthy (v : gval) : bool :=
  match v with
  | GNone => false
  | GStr s => negb (String.eqb s "")
  | _ => true
  end.

(** [v.dataset] *)
Definition getattr_dataset (v : gval) : result (list dict) :=
  match v with
  | GPhi3 t => Return (Phi3.dataset t)
  | GLlama t => Return (Llama.dataset t)
  | _ => Raise (Exn AttributeError "object has no attribute 'dataset'")
  end.

(** [v.generate_explanation(question_data, user_answer)]: no class of the
    repository defines that method. *)
Definition generate_explanation (v : gval) (question_data : dict) (user_answer : string)
    : result string :=
  Raise (Exn AttributeError "object has no attribute 'generate_explanation'").

(** [random.choice(seq)] with the index the generator draws. *)
Definition random_choice {A : Type} (draw : nat) (seq : list A) : result A :=
  match seq with
  | [] => Raise (Exn IndexError "Cannot choose from an empty sequence")
  | _ =>
      match seq !! (draw `mod` length seq)%nat with
      | Some x => Return x
      | None => Raise (Exn IndexError "Cannot choose from an empty sequence")
      end
  end.

(** [get_random_question] *)
Definition get_random_question (w : World) (g : Globals) : result dict :=
  try_except
    (ccna_tutor ← load_global "ccna_tutor" g;
     if gval_truthy ccna_tutor then
       dataset ← getattr_dataset ccna_tutor;
       question ← random_choice (random_index w) dataset;
       mret [ ("question", PDict question); ("status", PStr "success") ]
     else
       mret [ ("error", PStr "CCNA tutor not available"); ("status", PStr "error") ])
    (λ e, mret [ ("error", PStr ("Error: " +:+ str_of e)); ("status", PStr "error") ]).

Record MCAnswerRequest := {
  question_id : option Z;
  user_answer : string;
  question_data : option dict }.

(** [str.upper] on one character and on a string. *)
Definition upper_char (c : ascii) : ascii :=
  let n := nat_of_ascii c in
  if ((97 <=? n)%nat && (n <=? 122)%nat)%bool then ascii_of_nat (n - 32) else c.
Fixpoint upper (s : string) : string :=
  match s with
  | EmptyString => EmptyString
  | String c rest => String (upper_char c) (upper rest)
  end.

(** [check_answer] *)
Definition check_answer (request : MCAnswerRequest) (g : Globals) : result dict :=
  try_except
    (ccna_tutor ← load_global "ccna_tutor" g;
     match (if gval_truthy ccna_tutor then question_data request else None) with
     | Some (_ :: _ as data) =>
         correct_answer ←
           match default (PStr "") (assoc "correct_answer" data) with
           | PStr s => Return (upper s)
           | _ => Raise (Exn AttributeError "object has no attribute 'upper'")
           end;
         let user_answer_upper := upper (user_answer request) in
         let is_correct := String.eqb user_answer_upper correct_answer in
         explanation ← generate_explanation ccna_tutor data (user_answer request);
         mret [ ("correct", PBool is_correct);
                ("correct_answer", PStr correct_answer);
                ("explanation", PStr explanation);
                ("status", PStr "success") ]
     | _ =>
         mret [ ("error", PStr "Invalid request or CCNA tutor not available");
                ("status", PStr "error") ]
     end)
    (λ e, mret [ ("error", PStr ("Error: " +:+ str_of e)); ("status", PStr "error") ]).

(** The loop of [get_topics] over the dataset: the topics in first-seen
    order. A topic that is no string is outside what the model sorts. *)
Fixpoint collect_topics (dataset : list dict) : result (list string) :=
  match dataset with
  | [] => Return []
  | q :: rest =>
      match assoc "topic" q with
      | Some (PStr t) => ts ← collect_topics rest; mret (t :: ts)
      | Some _ => Raise (Exn TypeError "topics of mixed types do not sort")
      | None => collect_topics rest
      end
  end.

(** [get_topics] *)
Definition get_topics (g : Globals) : result dict :=
  try_except
    (ccna_tutor ← load_global "ccna_tutor" g;
     if gval_truthy ccna_tutor then
       dataset ← getattr_dataset ccna_tutor;
       topics ← collect_topics dataset;
       mret [ ("topics", PList (PStr <$> merge_sort String.le (remove_dups topics)));
              ("status", PStr "success") ]
     else
       mret [ ("error", PStr "CCNA tutor not available"); ("status", PStr "error") ])
    (λ e, mret [ ("error", PStr ("Error: " +:+ str_of e)); ("status", PStr "error") ]).

(** *** What a switch of backend may touch *)

(** Everything the module holds besides the selection of the current
    backend: the four tutors with all they store. *)
Definition stores (g : Globals) :
    option Gemini.Globals * option Qwen2.Globals
    * option Phi3.Phi3CCNATutor * option Llama.LlamaCCNATutor :=
  (gemini_tutor g, qwen2_tutor g, phi3_tutor g, llama_tutor g).

Inductive backend := GeminiBackend | Qwen2Backend | Phi3Backend | LlamaBackend.

(** The conversation memory of a backend that is there. *)
Definition memory (b : backend) (g : Globals) : option (list string) :=
  match b with
  | GeminiBackend => Gemini.conversation_history <$> gemini_tutor g
  | Qwen2Backend => Qwen2.conversation_history <$> qwen2_tutor g
  | Phi3Backend => Phi3.conversation_history <$> phi3_tutor g
  | LlamaBackend => Llama.conversation_history <$> llama_tutor g
  end.



End Server.

(** ** The similarity index *)

Module Index.
Import Retrieval.

(** Modelled from the spec: the distance of the similarity index, squared
    Euclidean (L2). The sources only call [faiss.IndexFlatL2], [index.add]
    and [index.search]; the index itself belongs to a library outside the
    repository, so this module follows the contract the specification
    gives for it. *)
Fixpoint squared_l2 (x y : EmbeddingVector) : Q :=
  match x, y with
  | a :: x', b :: y' => ((a - b) * (a - b) + squared_l2 x' y')%Q
  | _, _ => 0%Q
  end.

(** Modelled from the spec: the index, one vector per corpus position, held
    by array position. *)
Record SimilarityIndex := { vectors : list EmbeddingVector }.

(** Modelled from the spec: [build(vectors) -> Index], failing fast on an
    empty corpus. *)
Definition build (vs : list EmbeddingVector) : option SimilarityIndex :=
  match vs with
  | [] => None
  | _ => Some {| vectors := vs |}
  end.

(** Modelled from the spec: each position with its distance to the query. *)
Definition distances (idx : SimilarityIndex) (query_vector : EmbeddingVector)
    : list (nat * Q) :=
  imap (λ i v, (i, squared_l2 query_vector v)) (vectors idx).

(** Modelled from the spec: one result is no farther from the query than
    another. *)
Definition nearer (a b : nat * Q) : Prop := (snd a <= snd b)%Q.

(** Modelled from the spec: ordering by ascending distance, equal distances
    in position order. An entry goes before the first one that is not
    nearer. *)
Fixpoint insert_nearest (e : nat * Q) (l : list (nat * Q)) : list (nat * Q) :=
  match l with
  | [] => [e]
  | h :: t =>
      if Qle_bool (snd e) (snd h) then e :: h :: t
      else h :: insert_nearest e t
  end.

(** Modelled from the spec: the whole corpus in the order of the search. *)
Definition sort_nearest (l : list (nat * Q)) : list (nat * Q) :=
  foldr insert_nearest [] l.

(** Modelled from the spec: [search(query_vector, k)], the ordered sequence
    of [(index_position, distance)], nearest first, cut to the first [k]
    and so to the corpus size when [k] exceeds it. *)
Definition search (idx : SimilarityIndex) (query_vector : EmbeddingVector) (k : nat)
    : list (nat * Q) :=
  take k (sort_nearest (distances idx query_vector)).

End Index.

(** ** Topic classification as the specification words it *)

Module TopicSpec.

(** A keyword occurs in a text regardless of letter case: some stretch of
    the text equals the keyword once both are lower-cased. *)
Definition occurs (keyword text : string) : Prop :=
  ∃ pre mid post,
    text = pre +:+ mid +:+ post ∧ PyStr.lower mid = PyStr.lower keyword.

(** A topic matches a text when one of its keywords occurs in it. *)
Definition matches (keywords : list string) (text : string) : Prop :=
  ∃ keyword, keyword ∈ keywords ∧ occurs keyword text.

(** The tag of a text: the first topic of the table, in its order, that
    matches; [general] when none does. *)
Inductive classifies (topics : list (string * list string)) (text : string)
    : string → Prop :=
  | classifies_first before topic keywords after :
      topics = before ++ (topic, keywords) :: after →
      Forall (λ entry, ¬ matches (snd entry) text) before →
      matches keywords text →
      classifies topics text topic
  | classifies_general :
      Forall (λ entry, ¬ matches (snd entry) text) topics →
      classifies topics text "general".

(** Every keyword of a table is written in lower case. *)
Definition lower_case_table (topics : list (string * list string)) : bool :=
  forallb (λ entry, forallb (λ kw, String.eqb (PyStr.lower kw) kw) (snd entry)) topics.

End TopicSpec.

(** ** A concrete run of the server *)

Module Scenario.
Import Py.

(** A world in which the daemon answers every chat call. *)
Definition world : Server.World :=
  {| Server.ollama_chat := λ _,
       Return (PDict [("message",
                       PDict [("content", PStr " OSPF is a link-state protocol. ")])]);
     Server.response_time := 1%Q;
     Server.now := 2%Q;
     Server.encode := λ _, [0%Q];
     Server.gemini_index_search := λ _ _, Return ([0%Q], [0]);
     Server.qwen2_index_search := λ _ _, Return ([0%Q], [0]);
     Server.generate_content := λ _, Return {| Gemini.text := Return "Use router ospf 1." |};
     Server.requests_post := λ _ _ _, Raise (Exn Timeout "timed out");
     Server.random_index := 0%nat |}.

(** The server after start-up, the Gemini tutor holding one earlier entry. *)
Definition started : Server.Globals :=
  Server.startup
    (Some {| Gemini.questions := ["What is OSPF?"];
             Gemini.correct_texts := ["A link-state protocol"];
             Gemini.conversation_history := ["Q: What is a VLAN?" +:+ PyStr.nl +:+ "A: A broadcast domain."] |})
    None true true.

Definition request : Server.ChatRequest :=
  {| Server.message := "Explain OSPF";
     Server.conversation_history := [];
     Server.model := None |}.

(** What a test reads off a call: the reported model and the Gemini
    tutor's memory afterwards. *)
Definition observe (r : result (Server.dict * Server.Globals))
    : option pyval * option (list string) :=
  match r with
  | Return (resp, g) => (assoc "model_used" resp, Server.memory Server.GeminiBackend g)
  | Raise _ => (None, None)
  end.

Definition after (r : result (Server.dict * Server.Globals)) : Server.Globals :=
  match r with
  | Return (_, g) => g
  | Raise _ => started
  end.

End Scenario.

(** ** Loading the question bank ([AI_model_gemini.py], [AI_model_qwen2.py]) *)

Module Dataset.
Import Py.

(** A record of the JSON file: an object. *)
Definition record : Type := list (string * pyval).

(** [key in item] for an object. *)
Definition has_key (key : string) (item : record) : bool :=
  match assoc key item with
  | Some _ => true
  | None => false
  end.

(** [item[key]] for an object. *)
Definition field (item : record) (key : string) : result pyval :=
  subscript (PDict item) key.

(** The characters of a string, each a string of its own. *)
Fixpoint chars (s : string) : list pyval :=
  match s with
  | EmptyString => []
  | String c rest => PStr (String c EmptyString) :: chars rest
  end.

(** [choices[correct_answer]] for the two values of a record: a list or a
    string takes an integer (a bool counts as 0 or 1), an object takes a
    key. *)
Definition index_value (choices correct_answer : pyval) : result pyval :=
  match choices, correct_answer with
  | PList l, PInt i => getitem l i
  | PList l, PBool b => getitem l (if b then 1 else 0)
  | PStr s, PInt i => getitem (chars s) i
  | PStr s, PBool b => getitem (chars s) (if b then 1 else 0)
  | PDict d, PStr key => subscript (PDict d) key
  | PDict d, (PNone | PBool _ | PInt _) => Raise (Exn KeyError "key not found")
  | PDict d, (PList _ | PDict _) => Raise (Exn TypeError "unhashable type")
  | (PList _ | PStr _), _ => Raise (Exn TypeError "indices must be integers")
  | (PNone | PBool _ | PInt _), _ => Raise (Exn TypeError "object is not subscriptable")
  end.

(** A record the loop keeps: it has the three keys. *)
Definition complete (item : record) : bool :=
  has_key "question" item && has_key "choices" item && has_key "correct_answer" item.

(** The loop [for item in data] over the two lists it appends to. *)
Fixpoint load (data : list record) (questions correct_texts : list pyval)
    : result (list pyval * list pyval) :=
  match data with
  | [] => Return (questions, correct_texts)
  | item :: rest =>
      if complete item then
        question ← field item "question";
        let questions := questions ++ [question] in
        choices ← field item "choices";
        correct_answer ← field item "correct_answer";
        text ← index_value choices correct_answer;
        load rest questions (correct_texts ++ [text])
      else load rest questions correct_texts
  end.

(** The module body from the two empty lists up to the two [print] lines
    that read [questions[0]] and [correct_texts[0]]. *)
Definition load_dataset (data : list record) : result (list pyval * list pyval) :=
  '(questions, correct_texts) ← load data [] [];
  _ ← getitem questions 0;
  _ ← getitem correct_texts 0;
  mret (questions, correct_texts).

(** The question a complete record gives. *)
Definition question_of (item : record) (question : pyval) : Prop :=
  assoc "question" item = Some question.

(** The text a complete record gives: [choices[correct_answer]]. *)
Definition text_of (item : record) (text : pyval) : Prop :=
  ∃ choices correct_answer,
    assoc "choices" item = Some choices
    ∧ assoc "correct_answer" item = Some correct_answer
    ∧ index_value choices correct_answer = Return text.

(** [choices[correct_answer]] of a record raises an exception. *)
Definition fails_with (e : exn) (item : record) : Prop :=
  ∃ choices correct_answer,
    assoc "choices" item = Some choices
    ∧ assoc "correct_answer" item = Some correct_answer
    ∧ index_value choices correct_answer = Raise e.

End Dataset.

(** ** What [get_stats] reports ([AI_model_phi3.py], [AI_model_llama.py]) *)

Module Report.

(** [sum(t['questions_asked'] for t in topic_performance.values())], the
    entry [questions_answered] of the Phi3 tutor's [get_stats]. *)
Definition phi3_questions_answered (self : Phi3.Phi3CCNATutor) : Z :=
  map_fold (λ _ t acc, Phi3.questions_asked t + acc) 0
    (Phi3.topic_performance (Phi3.stats self)).

(** [total_questions] of the Llama tutor's [get_stats]. *)
Definition llama_questions_answered (self : Llama.LlamaCCNATutor) : Z :=
  map_fold (λ _ t acc, Llama.questions_asked t + acc) 0
    (Llama.topic_performance (Llama.stats self)).

(** [len([t for t in topic_performance.values() if t['complexity_level'] == level])],
    one count of [complexity_distribution]. *)
Definition llama_complexity_count (level : string) (self : Llama.LlamaCCNATutor) : nat :=
  length (filter (λ t, Llama.complexity_level t = level)
            (snd <$> map_to_list (Llama.topic_performance (Llama.stats self)))).

(** [len(topic_performance)], the number of [topics_covered]. *)
Definition llama_topics_covered (self : Llama.LlamaCCNATutor) : nat :=
  size (Llama.topic_performance (Llama.stats self)).

(** [len([t for t in topic_performance.values() if t['questions_asked'] > 0])],
    the number the Phi3 tutor's [get_stats] divides the total response time
    by (or 1 when it is 0). *)
Definition phi3_active_topics (self : Phi3.Phi3CCNATutor) : nat :=
  length (filter (λ t, 0 < Phi3.questions_asked t)
            (snd <$> map_to_list (Phi3.topic_performance (Phi3.stats self)))).

(** [len(topic_performance)] for the Phi3 tutor. *)
Definition phi3_topics_covered (self : Phi3.Phi3CCNATutor) : nat :=
  size (Phi3.topic_performance (Phi3.stats self)).

(** The tags a tutor's [_extract_topic] can give: the keys of its table and
    [general]. *)
Definition tags (topics : list (string * list string)) : list string :=
  (fst <$> topics) ++ ["general"].

(** A session: the tutor after a sequence of questions, each with what the
    daemon and the clock did during it. *)
Fixpoint llama_session (asked : list (Ollama.chat_service * Q * Q * string))
    (self : Llama.LlamaCCNATutor) : Llama.LlamaCCNATutor :=
  match asked with
  | [] => self
  | (chat, response_time, now, query) :: rest =>
      match Llama.ask_question chat response_time now self query with
      | Py.Return (_, self') => llama_session rest self'
      | Py.Raise _ => llama_session rest self
      end
  end.

Fixpoint phi3_session (asked : list (Ollama.chat_service * Q * string))
    (self : Phi3.Phi3CCNATutor) : Phi3.Phi3CCNATutor :=
  match asked with
  | [] => self
  | (chat, response_time, query) :: rest =>
      match Phi3.ask_question chat response_time self query with
      | Py.Return (_, self') => phi3_session rest self'
      | Py.Raise _ => phi3_session rest self
      end
  end.

(** What holds of every entry of the Llama tutor's analytics. *)
Definition llama_entry_ok (topic : string) (entry : Llama.TopicStats) : Prop :=
  topic ∈ tags Llama.topics
  ∧ 1 ≤ Llama.questions_asked entry
  ∧ Llama.complexity_level entry ∈ ["basic"; "intermediate"; "advanced"].

(** What holds of every entry of the Phi3 tutor's analytics. *)
Definition phi3_entry_ok (topic : string) (entry : Phi3.TopicStats) : Prop :=
  topic ∈ tags Phi3.topics
  ∧ 1 ≤ Phi3.questions_asked entry
  ∧ Phi3.complexity_level entry = "basic".

(** The text a call hands back. *)
Definition answer {A : Type} (r : Py.result (string * A)) : option string :=
  match r with
  | Py.Return (text, _) => Some text
  | Py.Raise _ => None
  end.

(** The one call [ask_question] makes to the daemon. *)
Definition phi3_call (self : Phi3.Phi3CCNATutor) (query : string) : Ollama.ChatCall :=
  {| Ollama.chat_model := Phi3.model self;
     Ollama.messages := [ ("system", Phi3._build_expert_system_prompt self);
                          ("user", Phi3._build_enhanced_prompt query) ];
     Ollama.options := Phi3.chat_options self |}.

Definition llama_call (self : Llama.LlamaCCNATutor) (query : string) : Ollama.ChatCall :=
  {| Ollama.chat_model := Llama.model self;
     Ollama.messages := [ ("system", Llama._build_comprehensive_system_prompt self);
                          ("user", Llama._build_detailed_prompt query) ];
     Ollama.options := Llama.chat_options self |}.

(** What of a tutor its answers depend on. *)
Definition phi3_same_setup (a b : Phi3.Phi3CCNATutor) : Prop :=
  Phi3.model b = Phi3.model a
  ∧ Phi3.student_profile b = Phi3.student_profile a
  ∧ Phi3.chat_options b = Phi3.chat_options a.

Definition llama_same_setup (a b : Llama.LlamaCCNATutor) : Prop :=
  Llama.model b = Llama.model a
  ∧ Llama.student_profile b = Llama.student_profile a
  ∧ Llama.chat_options b = Llama.chat_options a.

End Report.

(** ** The other handlers of [fastapi_server.py] *)

Module Endpoints.
Import Py Server.

(** [root] *)
Definition root (g : Globals) : dict :=
  [ ("message", PStr "CCNA AI Tutor API");
    ("version", PStr "2.0.0");
    ("docs", PStr "/docs");
    ("models_available",
      PDict [ ("phi3", PBool (truthy (phi3_tutor g)));
              ("llama", PBool (truthy (llama_tutor g)));
              ("gemini", PBool (truthy (gemini_tutor g))) ]);
    ("endpoints",
      PDict [ ("phi3", PStr "/chat-phi3");
              ("llama", PStr "/chat-llama");
              ("gemini", PStr "/chat-gemini");
              ("health", PStr "/health");
              ("models", PStr "/models") ]) ].

(** [chat_phi3_endpoint] *)
Definition chat_phi3_endpoint (w : World) (request : ChatRequest) (g : Globals)
    : result (dict * Globals) :=
  try_except
    (match current_ask_question w RefPhi3 (message request) g with
     | Some call =>
         '(answer, g) ← call;
         mret ([ ("response", PStr answer);
                 ("model_used", PStr "phi3:mini");
                 ("model_type", PStr "logic");
                 ("subject", PStr "ccna");
                 ("gpu_accelerated", PBool true);
                 ("response_time", PStr "1-2s");
                 ("status", PStr "success") ],
               g)
     | None =>
         mret ([ ("error", PStr "Phi3 model not available. Make sure Ollama is running with phi3:mini");
                 ("status", PStr "error") ],
               g)
     end)
    (λ e,
     mret ([ ("error", PStr ("Error generating response: " +:+ str_of e));
             ("status", PStr "error") ],
           g)).

(** [chat_llama_endpoint] *)
Definition chat_llama_endpoint (w : World) (request : ChatRequest) (g : Globals)
    : result (dict * Globals) :=
  try_except
    (match current_ask_question w RefLlama (message request) g with
     | Some call =>
         '(answer, g) ← call;
         mret ([ ("response", PStr answer);
                 ("model_used", PStr "llama3.1:8b");
                 ("model_type", PStr "comprehensive");
                 ("subject", PStr "ccna");
                 ("gpu_accelerated", PBool true);
                 ("response_time", PStr "3-5s");
                 ("status", PStr "success") ],
               g)
     | None =>
         mret ([ ("error", PStr "Llama model not available. Make sure Ollama is running with llama3.1:8b");
                 ("status", PStr "error") ],
               g)
     end)
    (λ e,
     mret ([ ("error", PStr ("Error generating response: " +:+ str_of e));
             ("status", PStr "error") ],
           g)).

(** [chat_gemini_endpoint] *)
Definition chat_gemini_endpoint (w : World) (request : ChatRequest) (g : Globals)
    : result (dict * Globals) :=
  try_except
    (match gemini_tutor g with
     | Some gm =>
         '(answer, g) ← call_gemini w gm (message request) g;
         mret ([ ("response", PStr answer);
                 ("model_used", PStr "gemini-1.5-flash-latest");
                 ("model_type", PStr "code");
                 ("subject", PStr "ccna");
                 ("gpu_accelerated", PBool false);
                 ("response_time", PStr "2-4s");
                 ("status", PStr "success") ],
               g)
     | None =>
         mret ([ ("error", PStr "Gemini API not available. Check API key in AI_model_gemini.py");
                 ("status", PStr "error") ],
               g)
     end)
    (λ e,
     mret ([ ("error", PStr ("Error generating response: " +:+ str_of e));
             ("status", PStr "error") ],
           g)).

(** [ask_tutor], the legacy handler of [/ask]. *)
Definition ask_tutor (w : World) (question : string) (g : Globals)
    : result (dict * Globals) :=
  try_except
    (match current_tutor g ≫= λ r, current_ask_question w r question g with
     | Some call =>
         '(answer, g) ← call;
         mret ([ ("answer", PStr answer) ], g)
     | None =>
         match gemini_tutor g with
         | Some gm =>
             '(answer, g) ← call_gemini w gm question g;
             mret ([ ("answer", PStr answer) ], g)
         | None => mret ([ ("error", PStr "No AI model available") ], g)
         end
     end)
    (λ e, mret ([ ("error", PStr ("Error: " +:+ str_of e)) ], g)).

(** The list [models] that [get_available_models] builds. *)
Definition available_models (g : Globals) : list pyval :=
  (if truthy (phi3_tutor g) then
     [ PDict [ ("id", PStr "phi3");
               ("name", PStr "Phi3:Mini");
               ("description", PStr "Ultra-fast responses (1-2 seconds)");
               ("model", PStr "phi3:mini");
               ("speed", PStr "ultra-fast");
               ("detail_level", PStr "focused");
               ("gpu_accelerated", PBool true);
               ("response_time", PStr "1-2s");
               ("best_for", PStr "Quick answers, concepts, exam prep");
               ("endpoint", PStr "/chat-phi3") ] ]
   else [])
  ++ (if truthy (llama_tutor g) then
        [ PDict [ ("id", PStr "llama");
                  ("name", PStr "Llama3.1:8B");
                  ("description", PStr "Comprehensive responses (3-5 seconds)");
                  ("model", PStr "llama3.1:8b");
                  ("speed", PStr "moderate");
                  ("detail_level", PStr "comprehensive");
                  ("gpu_accelerated", PBool true);
                  ("response_time", PStr "3-5s");
                  ("best_for", PStr "Detailed explanations, complex topics");
                  ("endpoint", PStr "/chat-llama") ] ]
      else [])
  ++ (if truthy (gemini_tutor g) then
        [ PDict [ ("id", PStr "gemini");
                  ("name", PStr "Gemini 1.5 Flash");
                  ("description", PStr "Code & configuration expert (2-4 seconds)");
                  ("model", PStr "gemini-1.5-flash-latest");
                  ("speed", PStr "fast");
                  ("detail_level", PStr "code-focused");
                  ("gpu_accelerated", PBool false);
                  ("response_time", PStr "2-4s");
                  ("best_for", PStr "CLI commands, configurations, scripts");
                  ("endpoint", PStr "/chat-gemini") ] ]
      else []).

(** [current_tutor.__class__.__name__ if current_tutor else "Gemini API"] *)
Definition current_tutor_name (g : Globals) : string :=
  match current_tutor g with
  | Some RefPhi3 => "Phi3CCNATutor"
  | Some RefLlama => "LlamaCCNATutor"
  | None => "Gemini API"
  end.

(** [get_available_models] *)
Definition get_available_models (g : Globals) : dict :=
  let models := available_models g in
  [ ("available_models", PList models);
    ("total_models", PInt (Z.of_nat (length models)));
    ("current_model", PStr (current_model g));
    ("current_tutor", PStr (current_tutor_name g));
    ("status", PStr "success") ].

(** The mark of [status] in [health_check], in its UTF-8 bytes. *)
Definition ready : string := "✓ Ready".

(** The list [models_available] that [health_check] builds. *)
Definition ready_models (g : Globals) : list pyval :=
  (if truthy (phi3_tutor g) then
     [ PDict [ ("name", PStr "phi3_mini");
               ("type", PStr "logic");
               ("description", PStr "Logic & Reasoning Mode");
               ("gpu_accelerated", PBool true);
               ("status", PStr ready);
               ("endpoint", PStr "/chat-phi3") ] ]
   else [])
  ++ (if truthy (llama_tutor g) then
        [ PDict [ ("name", PStr "llama3.1_8b");
                  ("type", PStr "comprehensive");
                  ("description", PStr "Comprehensive Mode");
                  ("gpu_accelerated", PBool true);
                  ("status", PStr ready);
                  ("endpoint", PStr "/chat-llama") ] ]
      else [])
  ++ (if truthy (gemini_tutor g) then
        [ PDict [ ("name", PStr "gemini-1.5-flash-latest");
                  ("type", PStr "code");
                  ("description", PStr "Code & Configuration Mode");
                  ("gpu_accelerated", PBool false);
                  ("status", PStr ready);
                  ("endpoint", PStr "/chat-gemini") ] ]
      else []).

(** [health_check] *)
Definition health_check (g : Globals) : dict :=
  let models_available := ready_models g in
  [ ("status", PStr (if (0 <? Z.of_nat (length models_available)) then "healthy" else "degraded"));
    ("api_version", PStr "2.0.0");
    ("models_available", PList models_available);
    ("total_models_ready", PInt (Z.of_nat (length models_available)));
    ("current_model", PStr (current_model g));
    ("gpu_accelerated", PBool (truthy (current_tutor g)));
    ("port", PInt 8000);
    ("documentation", PStr "/docs");
    ("endpoints",
      PDict [ ("phi3", PStr "/chat-phi3");
              ("llama", PStr "/chat-llama");
              ("gemini", PStr "/chat-gemini");
              ("qwen2", PStr "/chat-qwen2");
              ("models_list", PStr "/models");
              ("health", PStr "/health") ]) ].

(** *** The routes of the application *)

(** A request as the decorators route it. *)
Inductive Request :=
  | GetRoot
  | PostSwitchModel (request_model : string)
  | PostChat (request : ChatRequest)
  | PostChatPhi3 (request : ChatRequest)
  | PostChatLlama (request : ChatRequest)
  | PostChatGemini (request : ChatRequest)
  | PostAsk (question : string)
  | GetRandomQuestion
  | PostCheckAnswer (request : MCAnswerRequest)
  | GetTopics
  | GetModels
  | GetHealth
  | PostChatQwen2 (request : ChatRequest).

(** A handler that only reads the module's names. *)
Definition reading (body : result dict) (g : Globals) : result (dict * Globals) :=
  d ← body; mret (d, g).

(** The handler a request reaches. *)
Definition handle (w : World) (req : Request) (g : Globals) : result (dict * Globals) :=
  match req with
  | GetRoot => reading (Return (root g)) g
  | PostSwitchModel request_model => switch_model request_model g
  | PostChat request => chat_endpoint w request g
  | PostChatPhi3 request => chat_phi3_endpoint w request g
  | PostChatLlama request => chat_llama_endpoint w request g
  | PostChatGemini request => chat_gemini_endpoint w request g
  | PostAsk question => ask_tutor w question g
  | GetRandomQuestion => reading (get_random_question w g) g
  | PostCheckAnswer request => reading (check_answer request g) g
  | GetTopics => reading (get_topics g) g
  | GetModels => reading (Return (get_available_models g)) g
  | GetHealth => reading (Return (health_check g)) g
  | PostChatQwen2 request => chat_qwen2_endpoint w request g
  end.

(** The module's names after a sequence of requests, each with the world
    it met. *)
Fixpoint serve (requests : list (World * Request)) (g : Globals) : Globals :=
  match requests with
  | [] => g
  | (w, req) :: rest =>
      match handle w req g with
      | Return (_, g') => serve rest g'
      | Raise _ => serve rest g
      end
  end.

End Endpoints.

(** ** What stays true of the server *)

Module ServerInvariant.
Import Py Server.

(** The selection is sound: [current_tutor] is one of the tutor objects
    that exist, and is [None] only when neither Ollama tutor exists;
    [current_model] is one of the three names the module ever assigns. *)
Definition selection_ok (g : Globals) : Prop :=
  match current_tutor g with
  | Some RefPhi3 => is_Some (phi3_tutor g)
  | Some RefLlama => is_Some (llama_tutor g)
  | None => phi3_tutor g = None ∧ llama_tutor g = None
  end
  ∧ current_model g ∈ ["phi3"; "llama"; "gemini"].

(** A retrieval-augmented tutor later on: the same corpus, and a
    conversation history that has only grown. *)
Definition gemini_grows (before after : option Gemini.Globals) : Prop :=
  match before, after with
  | Some a, Some b =>
      Gemini.questions b = Gemini.questions a
      ∧ Gemini.correct_texts b = Gemini.correct_texts a
      ∧ Gemini.conversation_history a `prefix_of` Gemini.conversation_history b
  | None, None => True
  | _, _ => False
  end.

Definition qwen2_grows (before after : option Qwen2.Globals) : Prop :=
  match before, after with
  | Some a, Some b =>
      Qwen2.questions b = Qwen2.questions a
      ∧ Qwen2.correct_texts b = Qwen2.correct_texts a
      ∧ Qwen2.conversation_history a `prefix_of` Qwen2.conversation_history b
  | None, None => True
  | _, _ => False
  end.

(** An Ollama tutor later on: everything but its statistics is the same. *)
Definition phi3_same_but_stats (before after : option Phi3.Phi3CCNATutor) : Prop :=
  match before, after with
  | Some a, Some b =>
      Phi3.model b = Phi3.model a
      ∧ Phi3.dataset b = Phi3.dataset a
      ∧ Phi3.conversation_history b = Phi3.conversation_history a
      ∧ Phi3.student_profile b = Phi3.student_profile a
      ∧ Phi3.chat_options b = Phi3.chat_options a
  | None, None => True
  | _, _ => False
  end.

Definition llama_same_but_stats (before after : option Llama.LlamaCCNATutor) : Prop :=
  match before, after with
  | Some a, Some b =>
      Llama.model b = Llama.model a
      ∧ Llama.dataset b = Llama.dataset a
      ∧ Llama.conversation_history b = Llama.conversation_history a
      ∧ Llama.student_profile b = Llama.student_profile a
      ∧ Llama.chat_options b = Llama.chat_options a
  | None, None => True
  | _, _ => False
  end.

(** The module's names later on. *)
Definition evolves (before after : Globals) : Prop :=
  gemini_grows (gemini_tutor before) (gemini_tutor after)
  ∧ qwen2_grows (qwen2_tutor before) (qwen2_tutor after)
  ∧ phi3_same_but_stats (phi3_tutor before) (phi3_tutor after)
  ∧ llama_same_but_stats (llama_tutor before) (llama_tutor after).

(** The body of a chat route: a success with the text and the model that
    gave it, or an error with its message and no text. *)
Definition chat_body (d : dict) : Prop :=
  (assoc "status" d = Some (PStr "success")
   ∧ ∃ text name, assoc "response" d = Some (PStr text)
                  ∧ assoc "model_used" d = Some (PStr name))
  ∨ (assoc "status" d = Some (PStr "error")
     ∧ assoc "response" d = None
     ∧ ∃ message, assoc "error" d = Some (PStr message)).

(** What every handler does: it returns a body of the route's shape, and
    leaves the module's names evolved and the selection sound. *)
Definition handled (shape : dict → Prop) (g : Globals) (r : result (dict * Globals))
    : Prop :=
  ∃ d g', r = Return (d, g') ∧ shape d ∧ evolves g g'
          ∧ (selection_ok g → selection_ok g').

(** The body each route answers with. *)
Definition route_shape (req : Endpoints.Request) (d : dict) : Prop :=
  match req with
  | Endpoints.PostChat _ | Endpoints.PostChatPhi3 _ | Endpoints.PostChatLlama _
  | Endpoints.PostChatGemini _ | Endpoints.PostChatQwen2 _ => chat_body d
  | Endpoints.PostSwitchModel _ =>
      (assoc "status" d = Some (PStr "success") ∨ assoc "status" d = Some (PStr "error"))
      ∧ ∃ message, assoc "message" d = Some (PStr message)
  | Endpoints.GetRandomQuestion | Endpoints.PostCheckAnswer _ | Endpoints.GetTopics =>
      assoc "status" d = Some (PStr "error")
      ∧ ∃ message, assoc "error" d = Some (PStr message)
  | Endpoints.GetModels => assoc "status" d = Some (PStr "success")
  | Endpoints.GetHealth =>
      assoc "status" d = Some (PStr "healthy") ∨ assoc "status" d = Some (PStr "degraded")
  | Endpoints.GetRoot => assoc "message" d = Some (PStr "CCNA AI Tutor API")
  | Endpoints.PostAsk _ =>
      (∃ answer, d = [("answer", PStr answer)]) ∨ (∃ message, d = [("error", PStr message)])
  end.

(** The model a request names is there. *)
Definition model_present (name : string) (g : Globals) : Prop :=
  (name = "phi3" ∧ is_Some (phi3_tutor g))
  ∨ (name = "llama" ∧ is_Some (llama_tutor g))
  ∨ (name = "gemini" ∧ is_Some (gemini_tutor g)).

(** The body of [/chat] when no tutor is there. *)
Definition no_model : dict :=
  [ ("error", PStr "No AI model available"); ("status", PStr "error") ].

(** The mode [/chat-qwen2] reports for a message: the first of the three
    keyword groups one of whose words occurs in the message, whatever the
    letter case; [practice] when none does. *)
Definition qwen2_mode (message mode : string) : Prop :=
  let configuration := ["configure"; "setup"; "command"; "cli"] in
  let troubleshooting := ["troubleshoot"; "problem"; "issue"; "error"] in
  let concepts := ["what"; "explain"; "define"] in
  (TopicSpec.matches configuration message ∧ mode = "configuration")
  ∨ (¬ TopicSpec.matches configuration message
     ∧ TopicSpec.matches troubleshooting message ∧ mode = "troubleshooting")
  ∨ (¬ TopicSpec.matches configuration message
     ∧ ¬ TopicSpec.matches troubleshooting message
     ∧ TopicSpec.matches concepts message ∧ mode = "concepts")
  ∨ (¬ TopicSpec.matches configuration message
     ∧ ¬ TopicSpec.matches troubleshooting message
     ∧ ¬ TopicSpec.matches concepts message ∧ mode = "practice").

End ServerInvariant.

(** ** The tutors' command loops *)

(** The loops under [if __name__ == "__main__"] of [AI_model_phi3.py] and
    [AI_model_llama.py]. What the loops print is not modelled. *)
Module Repl.
Import Py.

(** What one [input(...)] meets: a line the user typed, together with what
    the daemon and the clock do while it is answered, or the user's
    interrupt. At the end of the list the input is at its end, where
    [input] raises [EOFError], an [Exception]. *)
Inductive event :=
  | Line (s : string) (w : Server.World)
  | Interrupt.

(** The state of a loop: what is left of the input, and the tutor object. *)
Record state (T : Type) := State { inputs : list event; tutor : T }.
Global Arguments State {T} inputs tutor.
Global Arguments inputs {T} s.
Global Arguments tutor {T} s.

(** One turn of [while True]: the loop goes on, or is left by [break]. *)
Inductive turn (T : Type) :=
  | Again (st : state T)
  | Break (st : state T).
Global Arguments Again {T} st.
Global Arguments Break {T} st.

(** [x in [...]] for strings. *)
Definition in_list (x : string) (l : list string) : bool :=
  existsb (String.eqb x) l.

(** The body of the loop of [AI_model_phi3.py]. [except KeyboardInterrupt]
    leaves the loop; [except Exception] prints the exception and the loop
    goes on, also for the [EOFError] of [input]. *)
Definition phi3_turn (st : state Phi3.Phi3CCNATutor) : turn Phi3.Phi3CCNATutor :=
  match inputs st with
  | [] => Again st
  | Interrupt :: rest => Break (State rest (tutor st))
  | Line s w :: rest =>
      let st := State rest (tutor st) in
      let question := PyStr.strip s in
      if in_list (PyStr.lower question) ["quit"; "exit"; "q"] then Break st
      else if String.eqb (PyStr.lower question) "stats" then Again st
      else if String.eqb question "" then Again st
      else
        match Phi3.ask_question (Server.ollama_chat w) (Server.response_time w)
                (tutor st) question with
        | Return (answer, tutor) => Again (State rest tutor)
        | Raise e => Again st
        end
  end.

(** The body of the loop of [AI_model_llama.py], which has the command
    [plan] too. *)
Definition llama_turn (st : state Llama.LlamaCCNATutor) : turn Llama.LlamaCCNATutor :=
  match inputs st with
  | [] => Again st
  | Interrupt :: rest => Break (State rest (tutor st))
  | Line s w :: rest =>
      let st := State rest (tutor st) in
      let question := PyStr.strip s in
      if in_list (PyStr.lower question) ["quit"; "exit"; "q"] then Break st
      else if String.eqb (PyStr.lower question) "stats" then Again st
      else if String.eqb (PyStr.lower question) "plan" then Again st
      else if String.eqb question "" then Again st
      else
        match Llama.ask_question (Server.ollama_chat w) (Server.response_time w)
                (Server.now w) (tutor st) question with
        | Return (answer, tutor) => Again (State rest tutor)
        | Raise e => Again st
        end
  end.

(** [while True] for a number of turns: the state in which the loop was
    left, or [None] when it is still running. *)
Fixpoint loop {T : Type} (body : state T → turn T) (turns : nat) (st : state T)
    : option (state T) :=
  match turns with
  | O => None
  | S turns =>
      match body st with
      | Again st => loop body turns st
      | Break st => Some st
      end
  end.

(** An event that ends the loops: the interrupt, or one of the three
    words, in any letter case and with blanks around it. *)
Definition leaves (ev : event) : bool :=
  match ev with
  | Interrupt => true
  | Line s _ => in_list (PyStr.lower (PyStr.strip s)) ["quit"; "exit"; "q"]
  end.

(** The questions among the events: the lines that are no command and not
    blank, without the blanks around them, each with its daemon and clock. *)
Fixpoint phi3_questions (events : list event) : list (Ollama.chat_service * Q * string) :=
  match events with
  | [] => []
  | Interrupt :: rest => phi3_questions rest
  | Line s w :: rest =>
      let question := PyStr.strip s in
      if in_list (PyStr.lower question) ["quit"; "exit"; "q"; "stats"; ""] then
        phi3_questions rest
      else (Server.ollama_chat w, Server.response_time w, question) :: phi3_questions rest
  end.

Fixpoint llama_questions (events : list event)
    : list (Ollama.chat_service * Q * Q * string) :=
  match events with
  | [] => []
  | Interrupt :: rest => llama_questions rest
  | Line s w :: rest =>
      let question := PyStr.strip s in
      if in_list (PyStr.lower question) ["quit"; "exit"; "q"; "stats"; "plan"; ""] then
        llama_questions rest
      else (Server.ollama_chat w, Server.response_time w, Server.now w, question)
           :: llama_questions rest
  end.

(** *** The test loop of [AI_model_gemini.py] *)

(** The [EOFError] of [input] at the end of the input. *)
Definition EOFError : exn := Exn OtherException "EOF when reading a line".

(** How the test loop ends, which has no [try]: by [break], by an
    exception on its way out of the script, or by the user's interrupt. *)
Inductive ending :=
  | Finished (st : state Gemini.Globals)
  | Failed (e : exn)
  | Interrupted.

(** [user_query.lower().strip() == "exit"] *)
Definition is_exit (user_query : string) : bool :=
  String.eqb (PyStr.strip (PyStr.lower user_query)) "exit".

(** One turn of the test loop: it goes on with a state, or ends. *)
Definition gemini_turn (st : state Gemini.Globals) : state Gemini.Globals + ending :=
  match inputs st with
  | [] => inr (Failed EOFError)
  | Interrupt :: rest => inr Interrupted
  | Line user_query w :: rest =>
      if is_exit user_query then inr (Finished (State rest (tutor st)))
      else
        match Gemini.personalized_tutor (Server.encode w) (Server.gemini_index_search w)
                (Server.generate_content w) (tutor st) user_query
                Gemini.default_top_k with
        | Return (answer, g) => inl (State rest g)
        | Raise e => inr (Failed e)
        end
  end.

Fixpoint gemini_loop (turns : nat) (st : state Gemini.Globals) : option ending :=
  match turns with
  | O => None
  | S turns =>
      match gemini_turn st with
      | inl st => gemini_loop turns st
      | inr e => Some e
      end
  end.

(** The tutor asked one line after the other, as typed. *)
Fixpoint gemini_session (lines : list (string * Server.World)) (g : Gemini.Globals)
    : result Gemini.Globals :=
  match lines with
  | [] => Return g
  | (user_query, w) :: rest =>
      '(_, g) ← Gemini.personalized_tutor (Server.encode w) (Server.gemini_index_search w)
                  (Server.generate_content w) g user_query Gemini.default_top_k;
      gemini_session rest g
  end.

(** The memory entry of a question and its answer. *)
Definition entry (line : string * Server.World) (answer : string) : string :=
  "Q: " +:+ line.1 +:+ PyStr.nl +:+ "A: " +:+ answer.

(** The lines of a session as the events of the loop. *)
Definition as_events (lines : list (string * Server.World)) : list event :=
  (λ line, Line line.1 line.2) <$> lines.

End Repl.

(** * Properties *)

(** ** Strings *)

Section string_facts.
Import PyStr.

Lemma str_app_assoc (a b c : string) : (a +:+ b) +:+ c = a +:+ (b +:+ c).
Proof. induction a as [|x a IH]; [reflexivity|]. cbn. by rewrite IH. Qed.

Lemma str_length_app (a b : string) :
  String.length (a +:+ b) = (String.length a + String.length b)%nat.
Proof. induction a as [|x a IH]; [reflexivity|]. cbn. by rewrite IH. Qed.

(** Cancelling a common suffix. *)
Lemma str_app_inj_r (a b c : string) : a +:+ c = b +:+ c → a = b.
Proof.
  revert b. induction a as [|x a IH]; intros [|y b] H; cbn in H.
  - reflexivity.
  - apply (f_equal String.length) in H. cbn in H. rewrite str_length_app in H. lia.
  - apply (f_equal String.length) in H. cbn in H. rewrite str_length_app in H. lia.
  - injection H as -> H. f_equal. by apply IH.
Qed.

Lemma lower_app (a b : string) : lower (a +:+ b) = lower a +:+ lower b.
Proof. induction a as [|x a IH]; [reflexivity|]. cbn. by rewrite IH. Qed.

(** Lower-casing works character by character, so a split of the lowered
    text comes from a split of the text. *)
Lemma lower_app_inv (s a b : string) :
  lower s = a +:+ b → ∃ s1 s2, s = s1 +:+ s2 ∧ lower s1 = a ∧ lower s2 = b.
Proof.
  revert s. induction a as [|x a IH]; intros s H.
  - exists "", s. by cbn in *.
  - destruct s as [|c s]; cbn in H; [discriminate|].
    injection H as Hc H. destruct (IH _ H) as (s1 & s2 & -> & <- & <-).
    exists (String c s1), s2. cbn. by rewrite Hc.
Qed.

Lemma startswith_spec (p s : string) :
  startswith p s = true ↔ ∃ rest, s = p +:+ rest.
Proof.
  revert s. induction p as [|a p IH]; intros s; cbn.
  - split; [intros _; by exists s | done].
  - destruct s as [|b s]; cbn.
    + split; [done | intros [r Hr]; discriminate].
    + destruct (Ascii.eqb_spec a b) as [->|Hne].
      * rewrite IH. split; intros [r Hr]; exists r; [by rewrite Hr | by injection Hr].
      * split; [done | intros [r Hr]; injection Hr as ? _; by subst].
Qed.

(** [needle in hay] holds exactly when [hay] splits around [needle]. *)
Lemma contains_spec (needle hay : string) :
  contains needle hay = true ↔ ∃ pre post, hay = pre +:+ needle +:+ post.
Proof.
  induction hay as [|c hay IH]; cbn.
  - rewrite orb_false_r, startswith_spec. split.
    + intros [r Hr]. by exists "", r.
    + intros (pre & post & H). destruct pre; [by exists post|discriminate].
  - rewrite orb_true_iff, startswith_spec, IH. split.
    + intros [[r Hr] | (pre & post & H)].
      * by exists "", r.
      * exists (String c pre), post. cbn. by rewrite H.
    + intros (pre & post & H). destruct pre as [|x pre]; cbn in H.
      * left. by exists post.
      * right. injection H as _ H. by exists pre, post.
Qed.

Lemma length_slice_to (n : nat) (s : string) :
  String.length (slice_to n s) = Nat.min n (String.length s).
Proof.
  revert s. induction n as [|n IH]; intros [|c s]; cbn; try reflexivity.
  by rewrite IH.
Qed.

End string_facts.

(** ** Topic classification *)

Section topic_classification.
Import PyStr Topics TopicSpec.

(** For a lower-case keyword, the test of the code is the occurrence of
    the specification. *)
Lemma contains_lower_occurs (keyword text : string) :
  lower keyword = keyword →
  contains keyword (lower text) = true ↔ occurs keyword text.
Proof.
  intros Hkw. rewrite contains_spec. split.
  - intros (a & b & H).
    destruct (lower_app_inv _ _ _ H) as (pre & rest & -> & <- & Hrest).
    destruct (lower_app_inv _ _ _ Hrest) as (mid & post & -> & Hmid & <-).
    exists pre, mid, post. by rewrite Hkw.
  - intros (pre & mid & post & -> & Hmid).
    exists (lower pre), (lower post).
    by rewrite !lower_app, Hmid, Hkw.
Qed.

Lemma any_keyword_matches (keywords : list string) (text : string) :
  forallb (λ kw, String.eqb (lower kw) kw) keywords = true →
  any_keyword keywords (lower text) = true ↔ matches keywords text.
Proof.
  intros Hlow. unfold any_keyword, matches.
  rewrite forallb_forall in Hlow. rewrite existsb_exists. split.
  - intros (kw & Hin & Hc). exists kw. split; [by apply list_elem_of_In|].
    apply contains_lower_occurs; [|done]. by apply String.eqb_eq, Hlow.
  - intros (kw & Hin & Ho). apply list_elem_of_In in Hin. exists kw. split; [done|].
    apply contains_lower_occurs; [|done]. by apply String.eqb_eq, Hlow.
Qed.

(** The loop of the code computes the tag of the specification. *)
Lemma first_topic_classifies (topics : list (string * list string)) (text : string) :
  lower_case_table topics = true →
  classifies topics text (first_topic topics (lower text)).
Proof.
  unfold lower_case_table. induction topics as [|[topic keywords] rest IH]; intros Hlow.
  - apply classifies_general. constructor.
  - cbn in Hlow. apply andb_true_iff in Hlow as [Hkw Hrest]. cbn.
    destruct (any_keyword keywords (lower text)) eqn:Hany.
    + apply (classifies_first _ _ [] topic keywords rest); [done|constructor|].
      by apply any_keyword_matches.
    + assert (¬ matches keywords text) as Hno.
      { intros Hm. apply any_keyword_matches in Hm; [|done]. congruence. }
      destruct (IH Hrest) as [before t kws after -> Hbefore Hhit | Hnone].
      * apply (classifies_first _ _ ((topic, keywords) :: before) t kws after);
          [done| |done].
        by constructor.
      * apply classifies_general. by constructor.
Qed.

(** The tag of the specification is unique. *)
Lemma classifies_functional (topics : list (string * list string)) (text t1 t2 : string) :
  classifies topics text t1 → classifies topics text t2 → t1 = t2.
Proof.
  induction topics as [|[topic keywords] rest IH] in t1, t2 |- *; intros H1 H2.
  - inversion H1 as [b ? ? ? Hb|]; inversion H2 as [b' ? ? ? Hb'|]; subst; try done.
    + by destruct b.
    + by destruct b.
    + by destruct b'.
  - assert (∀ t, classifies ((topic, keywords) :: rest) text t →
              (matches keywords text ∧ t = topic) ∨
              (¬ matches keywords text ∧ classifies rest text t)) as Hstep.
    { intros t Ht. inversion Ht as [b tp kws a Heq Hb Hhit|Hnone]; subst.
      - destruct b as [|e b]; simplify_eq/=.
        + by left.
        + apply Forall_cons in Hb as [Hno Hb]. right.
          split; [done|]. by apply (classifies_first _ _ b t kws a).
      - apply Forall_cons in Hnone as [Hno Hn]. right. split; [done|].
        by apply classifies_general. }
    destruct (Hstep _ H1) as [[Hm1 ->]|[Hn1 Hc1]], (Hstep _ H2) as [[Hm2 ->]|[Hn2 Hc2]];
      try done.
    by apply IH.
Qed.

End topic_classification.

(** C6. Topic classification is total and single-valued: for every text,
    each tutor's [_extract_topic] yields the one tag the specification
    describes, namely the first topic of the table, in the order it is
    written, one of whose keywords occurs in the text regardless of letter
    case, and [general] when no keyword of any topic occurs. *)
Theorem extract_topic_first_match_or_general (text : string) :
  (TopicSpec.classifies Llama.topics text (Llama._extract_topic text)
   ∧ ∀ tag, TopicSpec.classifies Llama.topics text tag → tag = Llama._extract_topic text)
  ∧ (TopicSpec.classifies Phi3.topics text (Phi3._extract_topic text)
     ∧ ∀ tag, TopicSpec.classifies Phi3.topics text tag → tag = Phi3._extract_topic text).
Proof.
  assert (TopicSpec.classifies Llama.topics text (Llama._extract_topic text)) as HL
    by (by apply first_topic_classifies).
  assert (TopicSpec.classifies Phi3.topics text (Phi3._extract_topic text)) as HP
    by (by apply first_topic_classifies).
  repeat split; try done.
  - intros tag Htag. by apply (classifies_functional Llama.topics text).
  - intros tag Htag. by apply (classifies_functional Phi3.topics text).
Qed.

Example extract_topic_ospf :
  Llama._extract_topic "Explain OSPF" = "routing"
  ∧ Phi3._extract_topic "How do I fix a VLAN trunk?" = "switching"
  ∧ Llama._extract_topic "hello there" = "general".
Proof. by vm_compute. Qed.

(** ** Prompt assembly *)

Section prompt_assembly.
Import PyStr.

(** A negative start keeps the last entries of the list. *)
Lemma slice_from_neg {A : Type} (n : nat) (l : list A) :
  (0 < n)%nat → Py.slice_from (- Z.of_nat n) l = drop (length l - n) l.
Proof.
  intros Hn. unfold Py.slice_from.
  destruct (Z.ltb_spec (- Z.of_nat n) 0) as [_|?]; [|lia].
  f_equal. lia.
Qed.

Lemma slice_from_neg_length {A : Type} (n : nat) (l : list A) :
  (0 < n)%nat → (length (Py.slice_from (- Z.of_nat n) l) ≤ n)%nat.
Proof. intros Hn. rewrite slice_from_neg, length_drop; lia. Qed.

Lemma slice_from_neg_suffix {A : Type} (n : nat) (l : list A) :
  (0 < n)%nat → Py.slice_from (- Z.of_nat n) l `suffix_of` l.
Proof. intros Hn. rewrite slice_from_neg by done. apply suffix_drop. Qed.

Lemma slice_from_neg_idemp {A : Type} (n : nat) (l : list A) :
  (0 < n)%nat →
  Py.slice_from (- Z.of_nat n) (Py.slice_from (- Z.of_nat n) l)
  = Py.slice_from (- Z.of_nat n) l.
Proof.
  intros Hn. rewrite !slice_from_neg by done. rewrite length_drop.
  replace (length l - (length l - n) - n)%nat with 0%nat by lia. done.
Qed.

Lemma slice_from_neg_nil_iff {A : Type} (n : nat) (l : list A) :
  (0 < n)%nat → Py.slice_from (- Z.of_nat n) l = [] ↔ l = [].
Proof.
  intros Hn. rewrite slice_from_neg by done. split; [|by intros ->].
  intros H. apply (f_equal length) in H. rewrite length_drop in H. cbn in H.
  destruct l; [done|]. cbn in H. lia.
Qed.

(** The last entry of a joined list ends the text. *)
Lemma join_snoc (sep : string) (l : list string) (e : string) :
  ∃ pre, join sep (l ++ [e]) = pre +:+ e.
Proof.
  induction l as [|x l [pre IH]].
  - by exists "".
  - unfold join in *. cbn. destruct (l ++ [e]) as [|y l'] eqn:Hl.
    { by destruct l. }
    exists (x +:+ sep +:+ pre). rewrite IH. by rewrite !str_app_assoc.
Qed.

Lemma drop_snoc_last {A : Type} (k : nat) (l : list A) (e : A) :
  (k ≤ length l)%nat → drop k (l ++ [e]) = drop k l ++ [e].
Proof. intros Hk. by rewrite drop_app_le. Qed.

End prompt_assembly.

(** C7. Prompt assembly is injective in the query: with the retrieved
    context and the conversation memory held fixed, and each tutor's fixed
    role text, two distinct queries give two distinct prompts, for the
    Gemini tutor and for the Qwen2 tutor. *)
Theorem prompt_injective_in_query (context history_text query1 query2 : string) :
  query1 ≠ query2 →
  Gemini.prompt context history_text query1 ≠ Gemini.prompt context history_text query2
  ∧ Qwen2.prompt context query1 ≠ Qwen2.prompt context query2.
Proof.
  intros Hne. split; intros Heq; apply Hne.
  - unfold Gemini.prompt in Heq.
    do 5 apply (inj (String.append _)) in Heq.
    by apply str_app_inj_r in Heq.
  - unfold Qwen2.prompt in Heq.
    do 4 apply (inj (String.append _)) in Heq.
    by apply str_app_inj_r in Heq.
Qed.

Lemma prompt_injective_in_query_witness :
  Gemini.prompt "Q: What is OSPF?" "" "Explain OSPF" ≠
    Gemini.prompt "Q: What is OSPF?" "" "Explain EIGRP"
  ∧ Qwen2.prompt "Q: What is OSPF?" "Explain OSPF" ≠
      Qwen2.prompt "Q: What is OSPF?" "Explain EIGRP".
Proof. apply prompt_injective_in_query. discriminate. Defined.

Section memory_window.
Import PyStr.

(** The history text is built from the window alone. *)
Lemma gemini_history_text_window (h : list string) :
  Gemini.history_text h = Gemini.history_text (Py.slice_from (-5) h).
Proof.
  unfold Gemini.history_text.
  pose proof (slice_from_neg_idemp 5 h ltac:(lia)) as Hid.
  change (- Z.of_nat 5) with (-5) in *.
  destruct h as [|x h]; [done|].
  destruct (Py.slice_from (-5) (x :: h)) as [|y w] eqn:Hw.
  - change (-5) with (- Z.of_nat 5) in Hw.
    apply slice_from_neg_nil_iff in Hw; [done|lia].
  - by rewrite Hid.
Qed.

Lemma qwen2_history_text_window (h : list string) :
  Qwen2.history_text h = Qwen2.history_text (Py.slice_from (-2) h).
Proof.
  unfold Qwen2.history_text.
  pose proof (slice_from_neg_idemp 2 h ltac:(lia)) as Hid.
  change (- Z.of_nat 2) with (-2) in *.
  destruct h as [|x h]; [done|].
  destruct (Py.slice_from (-2) (x :: h)) as [|y w] eqn:Hw.
  - change (-2) with (- Z.of_nat 2) in Hw.
    apply slice_from_neg_nil_iff in Hw; [done|lia].
  - by rewrite Hid.
Qed.

(** The most recent entry ends the history text. *)
Lemma gemini_history_text_last (older : list string) (e : string) :
  ∃ pre, Gemini.history_text (older ++ [e]) = pre +:+ e.
Proof.
  unfold Gemini.history_text. destruct (older ++ [e]) as [|x l] eqn:Hl.
  { by destruct older. }
  rewrite <- Hl. change (-5) with (- Z.of_nat 5). rewrite slice_from_neg by lia.
  rewrite length_app. cbn [length].
  destruct (decide (length older + 1 - 5 ≤ length older)%nat) as [Hle|Hgt]; [|lia].
  rewrite drop_snoc_last by done.
  destruct (join_snoc nl (drop (length older + 1 - 5) older) e) as [pre ->].
  exists (nl +:+ "Previous tutor interactions:" +:+ nl +:+ pre).
  by rewrite !str_app_assoc.
Qed.

Lemma qwen2_history_text_last (older : list string) (e : string) :
  ∃ pre, Qwen2.history_text (older ++ [e]) = pre +:+ e.
Proof.
  unfold Qwen2.history_text. destruct (older ++ [e]) as [|x l] eqn:Hl.
  { by destruct older. }
  rewrite <- Hl. change (-2) with (- Z.of_nat 2). rewrite slice_from_neg by lia.
  rewrite length_app. cbn [length].
  destruct (decide (length older + 1 - 2 ≤ length older)%nat) as [Hle|Hgt]; [|lia].
  rewrite drop_snoc_last by done.
  destruct (join_snoc nl (drop (length older + 1 - 2) older) e) as [pre ->].
  exists (nl +:+ "Previous:" +:+ nl +:+ pre).
  by rewrite !str_app_assoc.
Qed.

End memory_window.

(** C5. However long the conversation history is, prompt construction
    reads a bounded window of it: the Gemini tutor's history text is the one
    built from the slice [conversation_history[-5:]], the Qwen2 tutor's from
    [conversation_history[-2:]]; that slice has at most 5 (respectively 2)
    entries, is the tail end of the history in the history's own order, and
    the most recent entry comes last in the text. *)
Theorem memory_window_bounded (history : list string) :
  ((length (Py.slice_from (-5) history) ≤ 5)%nat
   ∧ Py.slice_from (-5) history `suffix_of` history
   ∧ Gemini.history_text history = Gemini.history_text (Py.slice_from (-5) history)
   ∧ ∀ entry, ∃ pre, Gemini.history_text (history ++ [entry]) = pre +:+ entry)
  ∧ ((length (Py.slice_from (-2) history) ≤ 2)%nat
     ∧ Py.slice_from (-2) history `suffix_of` history
     ∧ Qwen2.history_text history = Qwen2.history_text (Py.slice_from (-2) history)
     ∧ ∀ entry, ∃ pre, Qwen2.history_text (history ++ [entry]) = pre +:+ entry).
Proof.
  split; (split; [|split; [|split]]).
  - apply (slice_from_neg_length 5). lia.
  - apply (slice_from_neg_suffix 5). lia.
  - apply gemini_history_text_window.
  - intros entry. apply gemini_history_text_last.
  - apply (slice_from_neg_length 2). lia.
  - apply (slice_from_neg_suffix 2). lia.
  - apply qwen2_history_text_window.
  - intros entry. apply qwen2_history_text_last.
Qed.

Example memory_window_seven_entries :
  Py.slice_from (-5) ["e1"; "e2"; "e3"; "e4"; "e5"; "e6"; "e7"]
    = ["e3"; "e4"; "e5"; "e6"; "e7"]
  ∧ Py.slice_from (-2) ["e1"; "e2"; "e3"] = ["e2"; "e3"]
  ∧ Py.slice_from (-5) ["e1"] = ["e1"].
Proof. by vm_compute. Qed.

(** ** The retrieved context in the prompt *)

(** C2, as stated, fails for the Qwen2 tutor: a context of 401 characters
    is not part of the prompt built from it. *)
Lemma qwen2_prompt_drops_long_context :
  ¬ ∃ pre post,
      Qwen2.prompt (PyStr.replicate_char 401 "a") "Explain OSPF"
      = pre +:+ PyStr.replicate_char 401 "a" +:+ post.
Proof.
  intros H. apply contains_spec in H. vm_compute in H. discriminate.
Qed.

(** C2, amended. The Gemini tutor passes the retrieved context, the history
    text and the query into its prompt whole, between fixed pieces of text:
    nothing is cut besides the memory window. The Qwen2 tutor passes the
    query whole and of the retrieved context only its first 400 characters,
    [context[:400]], between fixed pieces of text. *)
Theorem context_in_prompt_gemini_whole_qwen2_first_400 :
  (∃ a b c d, ∀ context history_text query,
      Gemini.prompt context history_text query
      = a +:+ context +:+ b +:+ history_text +:+ c +:+ query +:+ d)
  ∧ (∃ a b c, ∀ context query,
        Qwen2.prompt context query
        = a +:+ PyStr.slice_to 400 context +:+ b +:+ query +:+ c)
  ∧ (∀ context,
        String.length (PyStr.slice_to 400 context)
        = Nat.min 400 (String.length context)
        ∧ ∃ rest, context = PyStr.slice_to 400 context +:+ rest).
Proof.
  split; [|split].
  - eexists _, _, _, _. intros context history_text query. reflexivity.
  - exists (Qwen2.instruction +:+ PyStr.unlines [""; ""; "Context: "]),
      (PyStr.unlines [""; ""; "Question: "]),
      (PyStr.unlines [""; ""; "Quick answer:"]).
    intros context query. unfold Qwen2.prompt. by rewrite str_app_assoc.
  - intros context. split; [apply length_slice_to|].
    generalize 400%nat. intros n. revert context.
    induction n as [|n IH]; intros [|ch s]; cbn.
    + by exists "".
    + by exists (String ch s).
    + by exists "".
    + destruct (IH s) as [rest Hrest]. exists rest. by rewrite <- Hrest.
Qed.

(** ** Failures of the generation services *)

Section backend_failures.
Import Py.

(** A guarded block whose handler hands back a value never raises. *)
Lemma try_except_returns {A : Type} (body : result A) (recover : exn → A) :
  ∃ a, try_except body (λ e, mret (recover e)) = Return a.
Proof. destruct body as [a|e]; cbn; eauto. Qed.

(** The Qwen2 tutor's handler has a text for every exception. *)
Lemma qwen2_generate_answer_returns (requests_post : Qwen2.post_service) (prompt : string) :
  ∃ text, Qwen2.generate_answer requests_post prompt = Return text.
Proof.
  unfold Qwen2.generate_answer.
  match goal with |- ∃ _, try_except ?b _ = _ => destruct b as [a|e] end; cbn.
  - eauto.
  - destruct (is_ConnectionError e), (is_Timeout e); eauto.
Qed.

End backend_failures.

(** C4. Whatever the generation service does, each backend's generate
    operation hands its caller a text and raises nothing: the Gemini and
    Qwen2 [generate_answer] and the Phi3 and Llama [ask_question] always
    return. When the service call raises, that text is the backend's error
    message: [[Error from Gemini API] ...]; for Qwen2 the connection, timeout
    or general [[Error] ...] message, and the status message for an answer
    whose status is not 200; for the two Ollama tutors the apology naming the
    model, with the tutor object left as it was. *)
Theorem backends_return_text_on_failure :
  (∀ generate_content prompt,
      ∃ text, Gemini.generate_answer generate_content prompt = Py.Return text)
  ∧ (∀ e prompt,
        Gemini.generate_answer (λ _, Py.Raise e) prompt
        = Py.Return ("[Error from Gemini API] " +:+ Py.str_of e))
  ∧ (∀ requests_post prompt,
        ∃ text, Qwen2.generate_answer requests_post prompt = Py.Return text)
  ∧ (∀ e prompt,
        Qwen2.generate_answer (λ _ _ _, Py.Raise e) prompt
        = Py.Return
            (if Py.is_ConnectionError e then
               "[Error] Cannot connect to Ollama. Please start Ollama service."
             else if Py.is_Timeout e then "[Error] Request timed out. Try again."
             else "[Error] " +:+ Py.str_of e))
  ∧ (∀ code body prompt,
        code ≠ 200 →
        Qwen2.generate_answer
          (λ _ _ _, Py.Return {| Qwen2.status_code := code; Qwen2.json := body |}) prompt
        = Py.Return ("[Error] Ollama returned status " +:+ Py.str_of_int code
                     +:+ ". Is Ollama running?"))
  ∧ (∀ ollama_chat response_time self query,
        ∃ text self',
          Phi3.ask_question ollama_chat response_time self query = Py.Return (text, self'))
  ∧ (∀ e response_time self query,
        Phi3.ask_question (λ _, Py.Raise e) response_time self query
        = Py.Return
            ("I apologize, but I encountered an issue. Please ensure Ollama is running with the "
             +:+ Phi3.model self +:+ " model loaded.", self))
  ∧ (∀ ollama_chat response_time now self query,
        ∃ text self',
          Llama.ask_question ollama_chat response_time now self query
          = Py.Return (text, self'))
  ∧ (∀ e response_time now self query,
        Llama.ask_question (λ _, Py.Raise e) response_time now self query
        = Py.Return
            ("I apologize, but I encountered an issue. Please ensure Ollama is running with the "
             +:+ Llama.model self +:+ " model loaded.", self)).
Proof.
  repeat apply conj.
  - intros svc prompt. apply try_except_returns.
  - intros e prompt. reflexivity.
  - apply qwen2_generate_answer_returns.
  - intros e prompt. unfold Qwen2.generate_answer. cbn.
    by destruct (Py.is_ConnectionError e), (Py.is_Timeout e).
  - intros code body prompt Hcode. unfold Qwen2.generate_answer. cbn.
    destruct (Z.eqb_spec code 200) as [?|_]; [done|reflexivity].
  - intros chat rt self query. unfold Phi3.ask_question.
    edestruct (try_except_returns (A := string * Phi3.Phi3CCNATutor))
      as [[text self'] H].
    exists text, self'. exact H.
  - intros e rt self query. reflexivity.
  - intros chat rt now self query. unfold Llama.ask_question.
    edestruct (try_except_returns (A := string * Llama.LlamaCCNATutor))
      as [[text self'] H].
    exists text, self'. exact H.
  - intros e rt now self query. reflexivity.
Qed.

(** ** The similarity search *)

Section similarity_search.
Import Index.

Lemma insert_nearest_perm (e : nat * Q) (l : list (nat * Q)) :
  insert_nearest e l ≡ₚ e :: l.
Proof.
  induction l as [|h t IH]; cbn; [done|].
  destruct (Qle_bool (snd e) (snd h)); [done|].
  rewrite IH. apply Permutation_swap.
Qed.

Lemma sort_nearest_perm (l : list (nat * Q)) : sort_nearest l ≡ₚ l.
Proof.
  induction l as [|e l IH]; cbn; [done|].
  by rewrite insert_nearest_perm, IH.
Qed.

Lemma nearer_trans (a b c : nat * Q) : nearer a b → nearer b c → nearer a c.
Proof. unfold nearer. apply Qle_trans. Qed.

Lemma insert_nearest_sorted (e : nat * Q) (l : list (nat * Q)) :
  StronglySorted nearer l → StronglySorted nearer (insert_nearest e l).
Proof.
  induction l as [|h t IH]; cbn; intros Hs.
  - repeat constructor.
  - apply StronglySorted_cons in Hs as [Hall Ht].
    destruct (Qle_bool (snd e) (snd h)) eqn:Hle.
    + apply Qle_bool_iff in Hle.
      apply StronglySorted_cons. split; [|by apply StronglySorted_cons].
      constructor; [done|].
      eapply Forall_impl; [exact Hall|]. intros x Hx. by apply (nearer_trans _ h).
    + assert (nearer h e) as Hhe.
      { unfold nearer. apply Qlt_le_weak, Qnot_le_lt. intros Hc.
        apply Qle_bool_iff in Hc. congruence. }
      apply StronglySorted_cons. split; [|by apply IH].
      rewrite insert_nearest_perm. by constructor.
Qed.

Lemma sort_nearest_sorted (l : list (nat * Q)) : StronglySorted nearer (sort_nearest l).
Proof.
  induction l as [|e l IH]; cbn; [constructor|]. by apply insert_nearest_sorted.
Qed.

Lemma elem_of_distances (idx : SimilarityIndex) (q : Retrieval.EmbeddingVector)
    (i : nat) (d : Q) :
  (i, d) ∈ distances idx q ↔ ∃ v, vectors idx !! i = Some v ∧ d = squared_l2 q v.
Proof.
  unfold distances. rewrite elem_of_lookup_imap. split.
  - intros (j & v & Heq & Hv). injection Heq as -> ->. eauto.
  - intros (v & Hv & ->). eauto.
Qed.

End similarity_search.

(** C3. For every non-empty corpus (one the index can be built from),
    every query text and every [k], the search for the encoded query hands
    back at most [k] pairs of a position and a distance, ordered by
    non-decreasing distance. Each pair is a position of the corpus with the
    squared Euclidean distance between the query vector and the vector at
    that position, and every position left out is at least as far as every
    pair handed back: the nearest come first. *)
Theorem search_at_most_k_nearest_first (encode : Retrieval.encoder)
    (vs : list Retrieval.EmbeddingVector) (idx : Index.SimilarityIndex)
    (q : string) (k : nat) :
  Index.build vs = Some idx →
  (length (Index.search idx (encode q) k) ≤ k)%nat
  ∧ length (Index.search idx (encode q) k) = Nat.min k (length vs)
  ∧ StronglySorted Index.nearer (Index.search idx (encode q) k)
  ∧ (∀ i d, (i, d) ∈ Index.search idx (encode q) k →
       ∃ v, vs !! i = Some v ∧ d = Index.squared_l2 (encode q) v)
  ∧ (∀ i v, vs !! i = Some v →
       (i, Index.squared_l2 (encode q) v) ∉ Index.search idx (encode q) k →
       ∀ e, e ∈ Index.search idx (encode q) k →
         Index.nearer e (i, Index.squared_l2 (encode q) v)).
Proof.
  intros Hbuild.
  assert (Index.vectors idx = vs) as Hvs.
  { destruct vs; cbn in Hbuild; [discriminate|]. by injection Hbuild as <-. }
  unfold Index.search.
  pose proof (sort_nearest_sorted (Index.distances idx (encode q))) as Hsorted.
  pose proof (sort_nearest_perm (Index.distances idx (encode q))) as Hperm.
  set (sorted := Index.sort_nearest (Index.distances idx (encode q))) in *.
  assert (length sorted = length vs) as Hlen.
  { rewrite Hperm. unfold Index.distances. by rewrite length_imap, Hvs. }
  rewrite <- (take_drop k sorted) in Hsorted.
  repeat split.
  - rewrite length_take. lia.
  - by rewrite length_take, Hlen.
  - by apply StronglySorted_app_1_l in Hsorted.
  - intros i d Hin. apply elem_of_take in Hin as (j & Hj & _).
    apply list_elem_of_lookup_2 in Hj. rewrite Hperm in Hj.
    apply elem_of_distances in Hj. by rewrite Hvs in Hj.
  - intros i v Hv Hout e He.
    eapply StronglySorted_app_1_elem_of; [exact Hsorted|exact He|].
    assert ((i, Index.squared_l2 (encode q) v) ∈ sorted) as Hin.
    { rewrite Hperm. apply elem_of_distances. exists v. by rewrite Hvs. }
    rewrite <- (take_drop k sorted) in Hin. apply elem_of_app in Hin as [Hin|Hin]; done.
Qed.

Lemma search_at_most_k_nearest_first_witness :
  let encode : Retrieval.encoder := λ _, [0; 0]%Q in
  let vs := [[3; 4]; [1; 0]; [0; 2]]%Q in
  let found := Index.search {| Index.vectors := vs |} (encode "Explain OSPF") 2 in
  (length found ≤ 2)%nat
  ∧ length found = Nat.min 2 (length vs)
  ∧ StronglySorted Index.nearer found
  ∧ (∀ i d, (i, d) ∈ found →
       ∃ v, vs !! i = Some v ∧ d = Index.squared_l2 (encode "Explain OSPF") v)
  ∧ (∀ i v, vs !! i = Some v →
       (i, Index.squared_l2 (encode "Explain OSPF") v) ∉ found →
       ∀ e, e ∈ found → Index.nearer e (i, Index.squared_l2 (encode "Explain OSPF") v)).
Proof.
  exact (search_at_most_k_nearest_first (λ _, [0; 0]%Q) [[3; 4]; [1; 0]; [0; 2]]%Q
           {| Index.vectors := [[3; 4]; [1; 0]; [0; 2]]%Q |} "Explain OSPF" 2 eq_refl).
Defined.

Example search_orders_three_vectors :
  fst <$> Index.search {| Index.vectors := [[3; 4]; [1; 0]; [0; 2]]%Q |} [0; 0]%Q 2
  = [1; 2]%nat
  ∧ fst <$> Index.search {| Index.vectors := [[3; 4]; [1; 0]; [0; 2]]%Q |} [0; 0]%Q 5
    = [1; 2; 0]%nat.
Proof. by vm_compute. Qed.

(** ** The retrieved context *)

Section retrieved_context.
Import Py Retrieval.

(** A position of the corpus yields the pair of that position. *)
Lemma qa_pair_position (questions correct_texts : list string) (i : nat) (q a : string) :
  questions !! i = Some q → correct_texts !! i = Some a →
  qa_pair questions correct_texts (Z.of_nat i)
  = Return ("Q: " +:+ q +:+ PyStr.nl +:+ "A: " +:+ a).
Proof.
  intros Hq Ha. unfold qa_pair, getitem.
  pose proof (lookup_lt_Some _ _ _ Hq). pose proof (lookup_lt_Some _ _ _ Ha).
  destruct (Z.ltb_spec (Z.of_nat i) 0); [lia|].
  destruct (Z.leb_spec 0 (Z.of_nat i)); [|lia].
  destruct (Z.ltb_spec (Z.of_nat i) (Z.of_nat (length questions))); [|lia].
  destruct (Z.ltb_spec (Z.of_nat i) (Z.of_nat (length correct_texts))); [|lia].
  cbn. by rewrite Nat2Z.id, Hq, Ha.
Qed.

(** The label [-1] passes the test [i < len(questions)] and is read as the
    last position of both lists. *)
Lemma qa_pair_minus_one (questions correct_texts : list string) (q a : string) :
  qa_pair (questions ++ [q]) (correct_texts ++ [a]) (-1)
  = Return ("Q: " +:+ q +:+ PyStr.nl +:+ "A: " +:+ a).
Proof.
  unfold qa_pair, getitem. rewrite !length_app. cbn [length].
  replace (-1 <? 0) with true by done. cbv zeta.
  destruct (Z.leb_spec 0 (-1 + Z.of_nat (length questions + 1))); [|lia].
  destruct (Z.ltb_spec (-1 + Z.of_nat (length questions + 1))
              (Z.of_nat (length questions + 1))); [|lia].
  destruct (Z.leb_spec 0 (-1 + Z.of_nat (length correct_texts + 1))); [|lia].
  destruct (Z.ltb_spec (-1 + Z.of_nat (length correct_texts + 1))
              (Z.of_nat (length correct_texts + 1))); [|lia].
  cbn.
  replace (Z.to_nat (-1 + Z.of_nat (length questions + 1))) with (length questions) by lia.
  replace (Z.to_nat (-1 + Z.of_nat (length correct_texts + 1)))
    with (length correct_texts) by lia.
  by rewrite !list_lookup_middle.
Qed.

Lemma filter_keeps_minus_one (questions : list string) (labels : list Z) :
  filter (λ i, i < Z.of_nat (length questions)) (-1 :: labels)
  = -1 :: filter (λ i, i < Z.of_nat (length questions)) labels.
Proof. rewrite filter_cons. destruct (decide _) as [_|Hn]; [done|lia]. Qed.

End retrieved_context.

(** C1, at a corpus of one entry searched with [top_k = 3]: the label row
    [[0, -1, -1]], one position and two paddings, yields three pairs, the
    single entry three times; the two paddings are read as the last
    position. The claim expects one pair, for position 0 alone. *)
Theorem context_reads_padding_as_last_entry :
  Retrieval.qa_pairs ["What is OSPF?"] ["A link-state protocol"] [0; -1; -1]
  = Py.Return
      [ "Q: What is OSPF?" +:+ PyStr.nl +:+ "A: A link-state protocol";
        "Q: What is OSPF?" +:+ PyStr.nl +:+ "A: A link-state protocol";
        "Q: What is OSPF?" +:+ PyStr.nl +:+ "A: A link-state protocol" ]
  ∧ Retrieval.context_of ["What is OSPF?"] ["A link-state protocol"] [0; -1; -1]
    = Py.Return
        (PyStr.unlines
           [ "Q: What is OSPF?"; "A: A link-state protocol";
             "Q: What is OSPF?"; "A: A link-state protocol";
             "Q: What is OSPF?"; "A: A link-state protocol" ])
  ∧ filter (λ i, 0 ≤ i < 1) [0; -1; -1] = [0].
Proof. by vm_compute. Qed.

(** On a label row of corpus positions only, the context has one pair per
    label. *)
Lemma qa_pairs_of_positions (questions correct_texts : list string) (positions : list nat) :
  length questions = length correct_texts →
  Forall (λ p, (p < length questions)%nat) positions →
  ∃ pairs,
    Retrieval.qa_pairs questions correct_texts (Z.of_nat <$> positions) = Py.Return pairs
    ∧ length pairs = length positions.
Proof.
  intros Hlen Hall. unfold Retrieval.qa_pairs.
  induction Hall as [|p ps Hp Hps (pairs & IH & Hn)]; [by exists []|].
  rewrite fmap_cons, filter_cons. destruct (decide _) as [_|Hge]; [|lia].
  destruct (lookup_lt_is_Some_2 questions p Hp) as [q Hq].
  destruct (lookup_lt_is_Some_2 correct_texts p ltac:(lia)) as [a Ha].
  exists (("Q: " +:+ q +:+ PyStr.nl +:+ "A: " +:+ a) :: pairs).
  cbn. rewrite (qa_pair_position _ _ _ _ _ Hq Ha). cbn.
  rewrite IH. cbn. by rewrite Hn.
Qed.

(** On any corpus, each padding label [-1] behind the positions adds one
    more pair, made from the last entry. *)
Lemma qa_pairs_with_padding (questions correct_texts : list string) (q a : string)
    (positions : list nat) (padding : nat) :
  length questions = length correct_texts →
  Forall (λ p, (p < length questions + 1)%nat) positions →
  ∃ pairs,
    Retrieval.qa_pairs (questions ++ [q]) (correct_texts ++ [a])
      ((Z.of_nat <$> positions) ++ replicate padding (-1))
    = Py.Return (pairs ++ replicate padding ("Q: " +:+ q +:+ PyStr.nl +:+ "A: " +:+ a))
    ∧ length pairs = length positions.
Proof.
  intros Hlen Hall. unfold Retrieval.qa_pairs.
  induction Hall as [|p ps Hp Hps (pairs & IH & Hn)].
  - exists []. split; [|done]. cbn [fmap list_fmap app].
    induction padding as [|n IHn]; [done|].
    cbn [replicate]. rewrite filter_keeps_minus_one.
    cbn. rewrite qa_pair_minus_one. cbn. by rewrite IHn.
  - rewrite fmap_cons. cbn [app]. rewrite filter_cons.
    destruct (decide _) as [_|Hge]; [|rewrite length_app in Hge; cbn in Hge; lia].
    destruct (lookup_lt_is_Some_2 (questions ++ [q]) p) as [qp Hq].
    { rewrite length_app. cbn. lia. }
    destruct (lookup_lt_is_Some_2 (correct_texts ++ [a]) p) as [ap Ha].
    { rewrite length_app. cbn. lia. }
    exists (("Q: " +:+ qp +:+ PyStr.nl +:+ "A: " +:+ ap) :: pairs).
    cbn. rewrite (qa_pair_position _ _ _ _ _ Hq Ha). cbn.
    rewrite IH. cbn. by rewrite Hn.
Qed.

(** ** The mode of the Qwen2 tutor *)

(** C9. The [mode] argument of the Qwen2 tutor's [personalized_tutor] has
    no influence: for every encoder, index, generation service, module
    state, query and [top_k], two modes give the same assembled prompt and
    the same outcome, that is the same returned response and the same
    conversation memory afterwards. *)
Theorem qwen2_mode_has_no_influence (encode : Retrieval.encoder)
    (index_search : Retrieval.search_service) (requests_post : Qwen2.post_service)
    (g : Qwen2.Globals) (query mode1 mode2 : string) (top_k : Z) :
  Qwen2.assemble encode index_search g query mode1 top_k
  = Qwen2.assemble encode index_search g query mode2 top_k
  ∧ Qwen2.personalized_tutor encode index_search requests_post g query mode1 top_k
    = Qwen2.personalized_tutor encode index_search requests_post g query mode2 top_k.
Proof.
  split.
  - unfold Qwen2.assemble. reflexivity.
  - unfold Qwen2.personalized_tutor, Qwen2.assemble. reflexivity.
Qed.

(** ** The handlers that read [ccna_tutor] *)

Section undefined_name.
Import Py Server.

(** The module binds no name [ccna_tutor]. *)
Lemma ccna_tutor_unbound (g : Globals) : namespace g !! "ccna_tutor" = None.
Proof.
  unfold namespace. apply not_elem_of_list_to_map_1.
  destruct (truthy (phi3_tutor g)), (truthy (llama_tutor g));
    cbn [fmap list_fmap fst app]; intros Hin;
    repeat (apply elem_of_cons in Hin as [Heq|Hin]; [discriminate Heq|]);
    by apply elem_of_nil in Hin.
Qed.

Lemma load_ccna_tutor (g : Globals) :
  load_global "ccna_tutor" g
  = Raise (Exn NameError "name 'ccna_tutor' is not defined").
Proof. unfold load_global. by rewrite ccna_tutor_unbound. Qed.

End undefined_name.

(** C10. The handlers of [/random-question], [/check-answer] and [/topics]
    never produce a success result: for every state of the module and every
    request, reading the name [ccna_tutor] raises [NameError], the handler's
    [except] clause catches it, and the handler returns the error body with
    status [error]. *)
Theorem ccna_tutor_handlers_return_error (w : Server.World) (g : Server.Globals)
    (request : Server.MCAnswerRequest) :
  Server.load_global "ccna_tutor" g
  = Py.Raise (Py.Exn Py.NameError "name 'ccna_tutor' is not defined")
  ∧ Server.get_random_question w g
    = Py.Return [ ("error", Py.PStr "Error: name 'ccna_tutor' is not defined");
                  ("status", Py.PStr "error") ]
  ∧ Server.check_answer request g
    = Py.Return [ ("error", Py.PStr "Error: name 'ccna_tutor' is not defined");
                  ("status", Py.PStr "error") ]
  ∧ Server.get_topics g
    = Py.Return [ ("error", Py.PStr "Error: name 'ccna_tutor' is not defined");
                  ("status", Py.PStr "error") ].
Proof.
  split; [|split; [|split]].
  - apply load_ccna_tutor.
  - unfold Server.get_random_question. by rewrite load_ccna_tutor.
  - unfold Server.check_answer. by rewrite load_ccna_tutor.
  - unfold Server.get_topics. by rewrite load_ccna_tutor.
Qed.

(** ** Switching the backend *)

Section switching.
Import Py Server.




Lemma switch_model_stores (request_model : string) (g : Globals) :
  ∃ resp g', switch_model request_model g = Return (resp, g') ∧ stores g' = stores g.
Proof.
  unfold switch_model, try_except, mret, result_ret.
  repeat (match goal with |- context [if ?c then _ else _] => destruct c end);
    cbn; eauto.
Qed.

Lemma chat_select_stores (request : ChatRequest) (g : Globals) :
  stores (chat_select request g) = stores g.
Proof.
  unfold chat_select. destruct (model request) as [m|]; [|done].
  repeat (match goal with |- context [if ?c then _ else _] => destruct c end); done.
Qed.

End switching.

Section switching_chat.
Import Py Server.




End switching_chat.

(** *** What a switch makes of the selection *)

Section switching_effect.
Import Py Server ServerInvariant.

Lemma truthy_is_Some {A : Type} (o : option A) : truthy o = true ↔ is_Some o.
Proof. destruct o; cbn; split; [by eauto|done|done|by intros [? ?]]. Qed.

Lemma guard_spec {A : Type} (name tag : string) (o : option A) :
  String.eqb name tag && truthy o = true ↔ name = tag ∧ is_Some o.
Proof. by rewrite andb_true_iff, String.eqb_eq, truthy_is_Some. Qed.








End switching_effect.


(** ** Scenarios *)

(** A daemon that is down, as [requests] reports it, ends up as the Qwen2
    tutor's connection message; a refused Gemini call as its error text. *)
Example connection_failure_becomes_text :
  Qwen2.generate_answer (λ _ _ _, Py.Raise (Py.Exn Py.ConnectTimeout "timed out"))
    "Explain OSPF"
  = Py.Return "[Error] Cannot connect to Ollama. Please start Ollama service."
  ∧ Gemini.generate_answer (λ _, Py.Raise (Py.Exn Py.OtherException "quota exceeded"))
      "Explain OSPF"
    = Py.Return "[Error from Gemini API] quota exceeded".
Proof. by vm_compute. Qed.


(** The end-to-end scenario of the specification: a chat, a switch to the
    other Ollama tutor, a chat again. The reported model follows the switch
    and the stored memory is the same throughout. *)
Example switch_then_chat :
  Scenario.observe (Server.chat_endpoint Scenario.world Scenario.request Scenario.started)
  = (Some (Py.PStr "phi3:mini"),
     Some ["Q: What is a VLAN?" +:+ PyStr.nl +:+ "A: A broadcast domain."])
  ∧ Scenario.observe
      (Server.chat_endpoint Scenario.world Scenario.request
         (Scenario.after (Server.switch_model "llama" Scenario.started)))
    = (Some (Py.PStr "llama3.1:8b"),
       Some ["Q: What is a VLAN?" +:+ PyStr.nl +:+ "A: A broadcast domain."]).
Proof. by vm_compute. Qed.

(** A [/chat] request that carries the default tag of [ChatRequest], phi3,
    is itself a switch: after [switch_model] selected the Llama tutor it
    selects the Phi3 tutor again and reports that model. *)
Example chat_with_default_tag_switches_back :
  let switched := Scenario.after (Server.switch_model "llama" Scenario.started) in
  let tagged := {| Server.message := "Explain OSPF";
                   Server.conversation_history := [];
                   Server.model := Server.default_model |} in
  Server.current_model switched = "llama"
  ∧ Server.current_tutor switched = Some Server.RefLlama
  ∧ Scenario.observe (Server.chat_endpoint Scenario.world tagged switched)
    = (Some (Py.PStr "phi3:mini"),
       Some ["Q: What is a VLAN?" +:+ PyStr.nl +:+ "A: A broadcast domain."])
  ∧ Server.current_model
      (Scenario.after (Server.chat_endpoint Scenario.world tagged switched))
    = "phi3".
Proof. by vm_compute. Qed.

(** * Further properties of the code *)

(** ** Indexing and the retrieved context *)

Section context_bounds.
Import Py Retrieval.

(** [l[i]] returns exactly for [-len(l) <= i < len(l)]. *)
Lemma getitem_in_range {A : Type} (l : list A) (i : Z) :
  - Z.of_nat (length l) ≤ i < Z.of_nat (length l) →
  ∃ x, getitem l i = Return x.
Proof.
  intros Hi. unfold getitem.
  set (j := if i <? 0 then i + Z.of_nat (length l) else i).
  assert (0 ≤ j < Z.of_nat (length l)) as Hj.
  { unfold j. destruct (Z.ltb_spec i 0); lia. }
  destruct (Z.leb_spec 0 j); [|lia]. destruct (Z.ltb_spec j (Z.of_nat (length l))); [|lia].
  cbn. destruct (lookup_lt_is_Some_2 l (Z.to_nat j)) as [x ->]; [lia|]. eauto.
Qed.

Lemma getitem_out_of_range {A : Type} (l : list A) (i : Z) :
  ¬ (- Z.of_nat (length l) ≤ i < Z.of_nat (length l)) →
  getitem l i = Raise (Exn IndexError "list index out of range").
Proof.
  intros Hi. unfold getitem.
  set (j := if i <? 0 then i + Z.of_nat (length l) else i).
  assert (¬ (0 ≤ j < Z.of_nat (length l))) as Hj.
  { unfold j. destruct (Z.ltb_spec i 0); lia. }
  destruct (Z.leb_spec 0 j), (Z.ltb_spec j (Z.of_nat (length l))); cbn; try done. lia.
Qed.

Lemma qa_pair_in_range (questions correct_texts : list string) (i : Z) :
  length questions = length correct_texts →
  - Z.of_nat (length questions) ≤ i < Z.of_nat (length questions) →
  ∃ pair, qa_pair questions correct_texts i = Return pair.
Proof.
  intros Hlen Hi. unfold qa_pair.
  destruct (getitem_in_range questions i Hi) as [q ->].
  destruct (getitem_in_range correct_texts i ltac:(lia)) as [a ->]. cbn. eauto.
Qed.

Lemma qa_pair_too_low (questions correct_texts : list string) (i : Z) :
  i < - Z.of_nat (length questions) →
  qa_pair questions correct_texts i = Raise (Exn IndexError "list index out of range").
Proof.
  intros Hi. unfold qa_pair.
  rewrite (getitem_out_of_range questions i); [done|]. intros [? ?]. lia.
Qed.

End context_bounds.

(** X1. With the two corpus lists of one length [n], building the pairs of
    a label row returns exactly when no label lies below [-n]: labels from
    [n] on are dropped by the guard, every other label from [-n] on gives one
    pair, and a label below [-n] raises [IndexError], which nothing in
    [personalized_tutor] catches. *)
Theorem qa_pairs_returns_unless_label_below_minus_len
    (questions correct_texts : list string) (labels : list Z) :
  length questions = length correct_texts →
  (Forall (λ i, - Z.of_nat (length questions) ≤ i) labels →
   ∃ pairs,
     Retrieval.qa_pairs questions correct_texts labels = Py.Return pairs
     ∧ length pairs
       = length (filter (λ i, i < Z.of_nat (length questions)) labels))
  ∧ (Exists (λ i, i < - Z.of_nat (length questions)) labels →
     Retrieval.qa_pairs questions correct_texts labels
     = Py.Raise (Py.Exn Py.IndexError "list index out of range")).
Proof.
  intros Hlen. unfold Retrieval.qa_pairs. split.
  - induction 1 as [|i labels Hi Hall (pairs & IH & Hn)]; [by exists []|].
    rewrite filter_cons. destruct (decide _) as [Hlt|Hge].
    + destruct (qa_pair_in_range questions correct_texts i Hlen ltac:(lia)) as [pair Hp].
      exists (pair :: pairs). cbn. rewrite Hp. cbn. rewrite IH. cbn. by rewrite Hn.
    + by exists pairs.
  - induction labels as [|i labels IH]; intros Hex; [by apply Exists_nil in Hex|].
    rewrite filter_cons. destruct (decide _) as [Hlt|Hge].
    + destruct (decide (i < - Z.of_nat (length questions))) as [Hlow|Hok].
      * cbn. by rewrite qa_pair_too_low.
      * destruct (qa_pair_in_range questions correct_texts i Hlen ltac:(lia)) as [pair Hp].
        cbn. rewrite Hp. cbn.
        apply Exists_cons in Hex as [?|Hex]; [done|]. by rewrite (IH Hex).
    + apply Exists_cons in Hex as [?|Hex]; [lia|]. by apply IH.
Qed.

Lemma qa_pairs_returns_unless_label_below_minus_len_witness :
  (Forall (λ i, - Z.of_nat (length ["q0"; "q1"]) ≤ i) [1; 7; -2] →
   ∃ pairs,
     Retrieval.qa_pairs ["q0"; "q1"] ["a0"; "a1"] [1; 7; -2] = Py.Return pairs
     ∧ length pairs
       = length (filter (λ i, i < Z.of_nat (length ["q0"; "q1"])) [1; 7; -2]))
  ∧ (Exists (λ i, i < - Z.of_nat (length ["q0"; "q1"])) [1; 7; -2] →
     Retrieval.qa_pairs ["q0"; "q1"] ["a0"; "a1"] [1; 7; -2]
     = Py.Raise (Py.Exn Py.IndexError "list index out of range")).
Proof.
  apply (qa_pairs_returns_unless_label_below_minus_len ["q0"; "q1"] ["a0"; "a1"]).
  reflexivity.
Defined.

(** ** What a call of a retrieval-augmented tutor leaves behind *)

(** X2. Once retrieval has produced a prompt, [personalized_tutor] returns
    whatever the generation service does: it hands back the text of
    [generate_answer] and appends exactly one entry, [Q: query / A: text], to
    the conversation history, leaving the corpus lists alone. A failed
    generation is therefore stored in memory like an answer, its error text
    included. The same holds for the Gemini and for the Qwen2 tutor. *)
Theorem tutor_call_appends_one_entry (encode : Retrieval.encoder)
    (index_search : Retrieval.search_service)
    (generate_content : Gemini.generation_service) (requests_post : Qwen2.post_service)
    (gm : Gemini.Globals) (qw : Qwen2.Globals) (query mode : string) (top_k : Z)
    (gemini_prompt qwen2_prompt : string) :
  Gemini.assemble encode index_search gm query top_k = Py.Return gemini_prompt →
  Qwen2.assemble encode index_search qw query mode top_k = Py.Return qwen2_prompt →
  (∃ text,
      Gemini.generate_answer generate_content gemini_prompt = Py.Return text
      ∧ Gemini.personalized_tutor encode index_search generate_content gm query top_k
        = Py.Return
            (text,
             {| Gemini.questions := Gemini.questions gm;
                Gemini.correct_texts := Gemini.correct_texts gm;
                Gemini.conversation_history :=
                  Gemini.conversation_history gm
                  ++ ["Q: " +:+ query +:+ PyStr.nl +:+ "A: " +:+ text] |}))
  ∧ (∃ text,
        Qwen2.generate_answer requests_post qwen2_prompt = Py.Return text
        ∧ Qwen2.personalized_tutor encode index_search requests_post qw query mode top_k
          = Py.Return
              (text,
               {| Qwen2.questions := Qwen2.questions qw;
                  Qwen2.correct_texts := Qwen2.correct_texts qw;
                  Qwen2.conversation_history :=
                    Qwen2.conversation_history qw
                    ++ ["Q: " +:+ query +:+ PyStr.nl +:+ "A: " +:+ text] |}))
  ∧ (∀ e,
        generate_content gemini_prompt = Py.Raise e →
        Gemini.personalized_tutor encode index_search generate_content gm query top_k
        = Py.Return
            ("[Error from Gemini API] " +:+ Py.str_of e,
             {| Gemini.questions := Gemini.questions gm;
                Gemini.correct_texts := Gemini.correct_texts gm;
                Gemini.conversation_history :=
                  Gemini.conversation_history gm
                  ++ ["Q: " +:+ query +:+ PyStr.nl +:+ "A: "
                      +:+ "[Error from Gemini API] " +:+ Py.str_of e] |})).
Proof.
  intros Hg Hq. split; [|split].
  - destruct (try_except_returns
                (generate_content gemini_prompt ≫= λ response,
                 Gemini.text response ≫= λ t, mret (PyStr.strip t))
                (λ e, "[Error from Gemini API] " +:+ Py.str_of e)) as [text Ht].
    exists text. split; [exact Ht|].
    unfold Gemini.personalized_tutor. rewrite Hg. cbn.
    unfold Gemini.generate_answer. by rewrite Ht.
  - destruct (qwen2_generate_answer_returns requests_post qwen2_prompt) as [text Ht].
    exists text. split; [exact Ht|].
    unfold Qwen2.personalized_tutor. rewrite Hq. cbn. by rewrite Ht.
  - intros e He. unfold Gemini.personalized_tutor. rewrite Hg. cbn.
    unfold Gemini.generate_answer. rewrite He. reflexivity.
Qed.

Lemma tutor_call_appends_one_entry_witness :
  let encode : Retrieval.encoder := λ _, [0%Q] in
  let index_search : Retrieval.search_service := λ _ _, Py.Return ([0%Q], [0]) in
  let generate_content : Gemini.generation_service :=
    λ _, Py.Raise (Py.Exn Py.OtherException "quota exceeded") in
  let requests_post : Qwen2.post_service :=
    λ _ _ _, Py.Raise (Py.Exn Py.Timeout "timed out") in
  let gm := {| Gemini.questions := ["What is OSPF?"];
               Gemini.correct_texts := ["A link-state protocol"];
               Gemini.conversation_history := [] |} in
  let qw := {| Qwen2.questions := ["What is OSPF?"];
               Qwen2.correct_texts := ["A link-state protocol"];
               Qwen2.conversation_history := [] |} in
  ∃ text,
    Gemini.generate_answer generate_content
      (Gemini.prompt ("Q: What is OSPF?" +:+ PyStr.nl +:+ "A: A link-state protocol")
         "" "Explain OSPF") = Py.Return text
    ∧ Gemini.personalized_tutor encode index_search generate_content gm "Explain OSPF" 3
      = Py.Return
          (text,
           {| Gemini.questions := Gemini.questions gm;
              Gemini.correct_texts := Gemini.correct_texts gm;
              Gemini.conversation_history :=
                Gemini.conversation_history gm
                ++ ["Q: " +:+ "Explain OSPF" +:+ PyStr.nl +:+ "A: " +:+ text] |}).
Proof.
  cbv zeta.
  exact (proj1 (tutor_call_appends_one_entry
                  (λ _, [0%Q]) (λ _ _, Py.Return ([0%Q], [0]))
                  (λ _, Py.Raise (Py.Exn Py.OtherException "quota exceeded"))
                  (λ _ _ _, Py.Raise (Py.Exn Py.Timeout "timed out"))
                  {| Gemini.questions := ["What is OSPF?"];
                     Gemini.correct_texts := ["A link-state protocol"];
                     Gemini.conversation_history := [] |}
                  {| Qwen2.questions := ["What is OSPF?"];
                     Qwen2.correct_texts := ["A link-state protocol"];
                     Qwen2.conversation_history := [] |}
                  "Explain OSPF" "practice" 3 _ _ eq_refl eq_refl)).
Defined.

(** ** The text of a generation backend *)

(** X3. The text [generate_answer] hands back is either the stripped text
    of a well-formed answer of the service or starts with the error mark.
    For Gemini: the service returned a response whose [text] could be read,
    or the text starts with [[Error from Gemini API] ]. For Qwen2: the
    request, sent to the Ollama URL with the prompt and the model name in its
    body, came back with status 200 and a JSON object whose [response] is a
    string (the empty string when the key is missing), or the text starts
    with [[Error]. *)
Theorem generate_answer_strips_or_marks_error :
  (∀ (generate_content : Gemini.generation_service) (prompt : string),
      ∃ text,
        Gemini.generate_answer generate_content prompt = Py.Return text
        ∧ ((∃ response t,
              generate_content prompt = Py.Return response
              ∧ Gemini.text response = Py.Return t
              ∧ text = PyStr.strip t)
           ∨ PyStr.startswith "[Error from Gemini API] " text = true))
  ∧ (∀ (requests_post : Qwen2.post_service) (prompt : string),
        ∃ text,
          Qwen2.generate_answer requests_post prompt = Py.Return text
          ∧ ((∃ payload response d s,
                requests_post Qwen2.OLLAMA_API_URL payload 30 = Py.Return response
                ∧ Qwen2.payload_prompt payload = prompt
                ∧ Qwen2.payload_model payload = Qwen2.MODEL_NAME
                ∧ Qwen2.status_code response = 200
                ∧ Qwen2.json response = Py.Return (Py.PDict d)
                ∧ default (Py.PStr "") (Py.assoc "response" d) = Py.PStr s
                ∧ text = PyStr.strip s)
             ∨ PyStr.startswith "[Error" text = true)).
Proof.
  split.
  - intros svc prompt. unfold Gemini.generate_answer, Py.try_except.
    destruct (svc prompt) as [response|e] eqn:Hsvc; cbn; [|eauto].
    destruct (Gemini.text response) as [t|e] eqn:Ht; cbn; [|eauto].
    eexists. split; [reflexivity|]. left. eauto.
  - intros post prompt. unfold Qwen2.generate_answer, Py.try_except. cbv zeta.
    match goal with |- context [post ?u ?p ?t] =>
      destruct (post u p t) as [response|e] eqn:Hpost end; cbn.
    + destruct (Z.eqb_spec (Qwen2.status_code response) 200) as [Hok|Hbad]; cbn; [|eauto].
      destruct (Qwen2.json response) as [body|e] eqn:Hjson; cbn.
      * destruct body as [| | | |l|d]; cbn; try by eauto.
        destruct (default (Py.PStr "") (Py.assoc "response" d)) as [| | |s| |] eqn:Hs; cbn;
          try by eauto.
        eexists. split; [reflexivity|]. left.
        eexists _, response, d, s. by repeat split.
      * destruct (Py.is_ConnectionError e), (Py.is_Timeout e); eauto.
    + destruct (Py.is_ConnectionError e), (Py.is_Timeout e); eauto.
Qed.

(** ** The complexity tier of a question *)

(** X4. [_assess_complexity] ranks the advanced terms above the complexity
    indicators: a question in which an advanced term occurs, in any letter
    case, is [advanced] whatever else it holds; without one, a question in
    which an indicator occurs is [intermediate]; every other question is
    [basic]. *)
Theorem assess_complexity_advanced_first (query : string) :
  let advanced_terms :=
    [ "enterprise"; "scalability"; "redundancy"; "convergence";
      "interoperability"; "automation"; "programmability" ] in
  let complex_indicators :=
    [ "design"; "architect"; "implement"; "troubleshoot"; "optimize";
      "compare"; "analyze"; "evaluate"; "integrate"; "configure" ] in
  (TopicSpec.matches advanced_terms query →
   Llama._assess_complexity query = "advanced")
  ∧ (¬ TopicSpec.matches advanced_terms query →
     TopicSpec.matches complex_indicators query →
     Llama._assess_complexity query = "intermediate")
  ∧ (¬ TopicSpec.matches advanced_terms query →
     ¬ TopicSpec.matches complex_indicators query →
     Llama._assess_complexity query = "basic").
Proof.
  intros advanced_terms complex_indicators.
  pose proof (any_keyword_matches advanced_terms query eq_refl) as Hadv.
  pose proof (any_keyword_matches complex_indicators query eq_refl) as Hcx.
  unfold Llama._assess_complexity. cbv zeta.
  fold advanced_terms complex_indicators.
  destruct (Topics.any_keyword advanced_terms (PyStr.lower query));
    destruct (Topics.any_keyword complex_indicators (PyStr.lower query));
    repeat apply conj; intros; try done;
    repeat match goal with
           | H : ¬ _ |- _ => exfalso; apply H; first [by apply Hadv | by apply Hcx]
           | H : TopicSpec.matches _ _ |- _ =>
               first [apply Hadv in H | apply Hcx in H]; discriminate H
           end.
Qed.

Example assess_complexity_examples :
  Llama._assess_complexity "Design an ENTERPRISE network" = "advanced"
  ∧ Llama._assess_complexity "How do I configure a VLAN?" = "intermediate"
  ∧ Llama._assess_complexity "What is a VLAN?" = "basic".
Proof. by vm_compute. Qed.

(** ** The hints appended to an answer *)

Section answer_hints.
Import Py PyStr.

Lemma str_app_empty_r (s : string) : s +:+ "" = s.
Proof. induction s as [|c s IH]; [reflexivity|]. cbn. by rewrite IH. Qed.

Lemma not_occurs_contains (keyword text : string) :
  lower keyword = keyword → ¬ TopicSpec.occurs keyword text →
  contains keyword (lower text) = false.
Proof.
  intros Hkw Hno. destruct (contains keyword (lower text)) eqn:Hc; [|done].
  exfalso. apply Hno. by apply contains_lower_occurs.
Qed.

(** Each block of the two functions either keeps the text or extends it. *)
Lemma extends_step (base text hint : string) (c : bool) :
  (∃ suffix, text = base +:+ suffix) →
  ∃ suffix, (if c then text +:+ hint else text) = base +:+ suffix.
Proof.
  intros [suffix ->]. destruct c; [|by exists suffix].
  exists (suffix +:+ hint). apply str_app_assoc.
Qed.

Lemma phi3_enhance_extends (answer query : string) :
  ∃ suffix,
    Phi3._enhance_response (PStr answer) query = Return (strip answer +:+ suffix).
Proof.
  unfold Phi3._enhance_response. cbn [Py.strip mbind result_bind]. cbv zeta.
  unfold mret, result_ret.
  match goal with |- ∃ _, Return ?t = _ =>
    assert (∃ suffix, t = strip answer +:+ suffix) as [suffix ->]; [|by exists suffix] end.
  repeat match goal with
         | |- ∃ _, (if ?c then (if ?d then ?t +:+ ?h else ?t) else ?t) = _ =>
             replace (if c then (if d then t +:+ h else t) else t)
               with (if c && d then t +:+ h else t) by (by destruct c, d);
             apply extends_step
         end.
  exists "". by rewrite str_app_empty_r.
Qed.

Lemma llama_enhance_extends (answer query : string) :
  ∃ suffix,
    Llama._enhance_comprehensive_response (PStr answer) query
    = Return (strip answer +:+ suffix).
Proof.
  unfold Llama._enhance_comprehensive_response. cbn [Py.strip mbind result_bind]. cbv zeta.
  unfold mret, result_ret.
  match goal with |- ∃ _, Return ?t = _ =>
    assert (∃ suffix, t = strip answer +:+ suffix) as [suffix ->]; [|by exists suffix] end.
  repeat match goal with
         | |- ∃ _, (if ?c then (if ?d then ?t +:+ ?h else ?t) else ?t) = _ =>
             replace (if c then (if d then t +:+ h else t) else t)
               with (if c && d then t +:+ h else t) by (by destruct c, d);
             apply extends_step
         end.
  exists "". by rewrite str_app_empty_r.
Qed.

End answer_hints.

(** X5. The two tutors never alter the text of an answer, they only extend
    it: [_enhance_response] and [_enhance_comprehensive_response] return the
    stripped answer followed by their hints, if any. A question in which none
    of the trigger words occurs, in any letter case, gets the stripped answer
    and nothing else. An answer that is no string raises [AttributeError]
    (which [ask_question] turns into its apology). *)
Theorem enhance_response_only_extends :
  (∀ answer query,
      ∃ suffix,
        Phi3._enhance_response (Py.PStr answer) query
        = Py.Return (PyStr.strip answer +:+ suffix))
  ∧ (∀ answer query,
        ¬ TopicSpec.occurs "configure" query →
        ¬ TopicSpec.occurs "configuration" query →
        ¬ TopicSpec.occurs "troubleshoot" query →
        ¬ TopicSpec.occurs "problem" query →
        Phi3._enhance_response (Py.PStr answer) query = Py.Return (PyStr.strip answer))
  ∧ (∀ answer query,
        ∃ suffix,
          Llama._enhance_comprehensive_response (Py.PStr answer) query
          = Py.Return (PyStr.strip answer +:+ suffix))
  ∧ (∀ answer query,
        ¬ TopicSpec.occurs "configure" query →
        ¬ TopicSpec.occurs "configuration" query →
        ¬ TopicSpec.occurs "troubleshoot" query →
        ¬ TopicSpec.occurs "problem" query →
        ¬ TopicSpec.occurs "security" query →
        ¬ TopicSpec.occurs "acl" query →
        Llama._enhance_comprehensive_response (Py.PStr answer) query
        = Py.Return (PyStr.strip answer))
  ∧ (∀ answer query,
        (∀ s, answer ≠ Py.PStr s) →
        Phi3._enhance_response answer query
        = Py.Raise (Py.Exn Py.AttributeError "object has no attribute 'strip'")
        ∧ Llama._enhance_comprehensive_response answer query
          = Py.Raise (Py.Exn Py.AttributeError "object has no attribute 'strip'")).
Proof.
  split; [|split; [|split; [|split]]].
  - apply phi3_enhance_extends.
  - intros answer query H1 H2 H3 H4. unfold Phi3._enhance_response.
    cbn [Py.strip mbind Py.result_bind]. cbv zeta.
    rewrite (not_occurs_contains "configure"), (not_occurs_contains "configuration"),
      (not_occurs_contains "troubleshoot"), (not_occurs_contains "problem") by done.
    reflexivity.
  - apply llama_enhance_extends.
  - intros answer query H1 H2 H3 H4 H5 H6.
    unfold Llama._enhance_comprehensive_response.
    cbn [Py.strip mbind Py.result_bind]. cbv zeta.
    rewrite (not_occurs_contains "configure"), (not_occurs_contains "configuration"),
      (not_occurs_contains "troubleshoot"), (not_occurs_contains "problem"),
      (not_occurs_contains "security"), (not_occurs_contains "acl") by done.
    reflexivity.
  - intros answer query Hno. destruct answer; try done. by destruct (Hno s).
Qed.

Example enhance_response_adds_verification_hint :
  Phi3._enhance_response (Py.PStr "  Use router ospf 1.  ") "How do I CONFIGURE OSPF?"
  = Py.Return
      ("Use router ospf 1." +:+
       PyStr.unlines
         [ ""; "";
           "By the way, don't forget to verify your configuration works as expected - the 'show' commands are your best friend for confirming everything is set up correctly." ])
  ∧ Phi3._enhance_response (Py.PStr "Use show ip ospf.") "How do I configure OSPF?"
    = Py.Return "Use show ip ospf.".
Proof. by vm_compute. Qed.

(** ** The learning analytics *)

Section analytics.

(** The sum a [get_stats] takes over the entries of [topic_performance]. *)
Lemma asked_sum_insert_fresh {A : Type} (weight : A → Z) (m : gmap string A)
    (topic : string) (x : A) :
  m !! topic = None →
  map_fold (λ _ t acc, weight t + acc) 0 (<[topic := x]> m)
  = weight x + map_fold (λ _ t acc, weight t + acc) 0 m.
Proof.
  intros Hfresh.
  apply (map_fold_insert_L (λ _ t acc, weight t + acc)); [|done].
  intros. lia.
Qed.

Lemma asked_sum_alter {A : Type} (weight : A → Z) (f : A → A) (m : gmap string A)
    (topic : string) (x : A) :
  m !! topic = Some x →
  map_fold (λ _ t acc, weight t + acc) 0 (alter f topic m)
  = map_fold (λ _ t acc, weight t + acc) 0 m + weight (f x) - weight x.
Proof.
  intros Hx.
  assert (alter f topic m = <[topic := f x]> (delete topic m)) as ->.
  { apply map_eq. intros j. destruct (decide (topic = j)) as [<-|Hne].
    - by rewrite lookup_alter_eq, lookup_insert_eq, Hx.
    - by rewrite lookup_alter_ne, lookup_insert_ne, lookup_delete_ne. }
  rewrite asked_sum_insert_fresh by apply lookup_delete_eq.
  rewrite (map_fold_delete_L (λ _ t acc, weight t + acc) 0 topic x m); [lia| |done].
  intros. lia.
Qed.

End analytics.

(** X6. Recording a question touches one topic only. After
    [_update_learning_analytics], the entry of the question's topic exists
    and its [questions_asked] is one more than before (one, for a topic seen
    the first time), every other topic's entry is what it was, and the total
    response time has grown by the response time. For the Llama tutor the
    entry also takes the complexity tier of this question and the clock
    reading. The model name, dataset, conversation history, profile and
    options stay as they were. *)
Theorem update_learning_analytics_counts_one_topic :
  (∀ (self : Phi3.Phi3CCNATutor) (query : string) (response_time : Q),
      let before := Phi3.topic_performance (Phi3.stats self) in
      let self' := Phi3._update_learning_analytics self query response_time in
      let after := Phi3.topic_performance (Phi3.stats self') in
      Phi3.questions_asked <$> after !! Phi3._extract_topic query
      = Some (default 0 (Phi3.questions_asked <$> before !! Phi3._extract_topic query) + 1)
      ∧ (∀ topic, topic ≠ Phi3._extract_topic query → after !! topic = before !! topic)
      ∧ Phi3.total_response_time (Phi3.stats self')
        = (Phi3.total_response_time (Phi3.stats self) + response_time)%Q
      ∧ (Phi3.model self', Phi3.dataset self', Phi3.conversation_history self',
         Phi3.student_profile self', Phi3.chat_options self')
        = (Phi3.model self, Phi3.dataset self, Phi3.conversation_history self,
           Phi3.student_profile self, Phi3.chat_options self))
  ∧ (∀ (self : Llama.LlamaCCNATutor) (query : string) (response_time now : Q),
        let before := Llama.topic_performance (Llama.stats self) in
        let self' := Llama._update_learning_analytics self query response_time now in
        let after := Llama.topic_performance (Llama.stats self') in
        (∃ entry,
            after !! Llama._extract_topic query = Some entry
            ∧ Llama.questions_asked entry
              = default 0 (Llama.questions_asked <$> before !! Llama._extract_topic query) + 1
            ∧ Llama.complexity_level entry = Llama._assess_complexity query
            ∧ Llama.last_accessed entry = now)
        ∧ (∀ topic, topic ≠ Llama._extract_topic query → after !! topic = before !! topic)
        ∧ Llama.total_response_time (Llama.stats self')
          = (Llama.total_response_time (Llama.stats self) + response_time)%Q
        ∧ (Llama.model self', Llama.dataset self', Llama.conversation_history self',
           Llama.student_profile self', Llama.chat_options self')
          = (Llama.model self, Llama.dataset self, Llama.conversation_history self,
             Llama.student_profile self, Llama.chat_options self)).
Proof.
  split.
  - intros self query rt. cbv zeta. unfold Phi3._update_learning_analytics.
    cbn [Phi3.stats Phi3.topic_performance Phi3.total_response_time Phi3.model
         Phi3.dataset Phi3.conversation_history Phi3.student_profile Phi3.chat_options].
    set (topic := Phi3._extract_topic query).
    set (m := Phi3.topic_performance (Phi3.stats self)).
    split; [|split; [|split; reflexivity]].
    + rewrite lookup_alter_eq. destruct (m !! topic) as [x|] eqn:Hx.
      * by rewrite Hx.
      * by rewrite lookup_insert_eq.
    + intros t Ht. rewrite lookup_alter_ne by done.
      destruct (m !! topic); [done|]. by rewrite lookup_insert_ne.
  - intros self query rt now. cbv zeta. unfold Llama._update_learning_analytics.
    cbn [Llama.stats Llama.topic_performance Llama.total_response_time Llama.model
         Llama.dataset Llama.conversation_history Llama.student_profile Llama.chat_options].
    set (topic := Llama._extract_topic query).
    set (m := Llama.topic_performance (Llama.stats self)).
    split; [|split; [|split; reflexivity]].
    + rewrite lookup_alter_eq. destruct (m !! topic) as [x|] eqn:Hx.
      * rewrite Hx. cbn. eauto.
      * rewrite lookup_insert_eq. cbn. eauto.
    + intros t Ht. rewrite lookup_alter_ne by done.
      destruct (m !! topic); [done|]. by rewrite lookup_insert_ne.
Qed.

Section answered_questions.
Import Py.

(** A call of [ask_question] either records the question or hands back
    the apology with the tutor untouched. *)
Lemma phi3_ask_question_cases (chat : Ollama.chat_service) (rt : Q)
    (self : Phi3.Phi3CCNATutor) (query : string) :
  (∃ text,
      Phi3.ask_question chat rt self query
      = Return (text, Phi3._update_learning_analytics self query rt))
  ∨ Phi3.ask_question chat rt self query
    = Return ("I apologize, but I encountered an issue. Please ensure Ollama is running with the "
              +:+ Phi3.model self +:+ " model loaded.", self).
Proof.
  unfold Phi3.ask_question, try_except, mret, result_ret. cbv zeta.
  destruct (chat _) as [response|e]; cbn -[Phi3._build_expert_system_prompt]; [|by right].
  destruct (subscript response "message") as [message|e]; cbn; [|by right].
  destruct (subscript message "content") as [answer|e]; cbn; [|by right].
  destruct (Phi3._enhance_response answer query) as [enhanced|e]; cbn; [|by right].
  left. by exists enhanced.
Qed.

Lemma llama_ask_question_cases (chat : Ollama.chat_service) (rt now : Q)
    (self : Llama.LlamaCCNATutor) (query : string) :
  (∃ text,
      Llama.ask_question chat rt now self query
      = Return (text, Llama._update_learning_analytics self query rt now))
  ∨ Llama.ask_question chat rt now self query
    = Return ("I apologize, but I encountered an issue. Please ensure Ollama is running with the "
              +:+ Llama.model self +:+ " model loaded.", self).
Proof.
  unfold Llama.ask_question, try_except, mret, result_ret. cbv zeta.
  destruct (chat _) as [response|e]; cbn -[Llama._build_comprehensive_system_prompt];
    [|by right].
  destruct (subscript response "message") as [message|e]; cbn; [|by right].
  destruct (subscript message "content") as [answer|e]; cbn; [|by right].
  destruct (Llama._enhance_comprehensive_response answer query) as [enhanced|e]; cbn;
    [|by right].
  left. by exists enhanced.
Qed.

Lemma phi3_update_counts_one (self : Phi3.Phi3CCNATutor) (query : string) (rt : Q) :
  Report.phi3_questions_answered (Phi3._update_learning_analytics self query rt)
  = Report.phi3_questions_answered self + 1.
Proof.
  unfold Report.phi3_questions_answered, Phi3._update_learning_analytics.
  cbn [Phi3.stats Phi3.topic_performance].
  set (topic := Phi3._extract_topic query).
  set (m := Phi3.topic_performance (Phi3.stats self)).
  destruct (m !! topic) as [x|] eqn:Hx.
  - rewrite (asked_sum_alter Phi3.questions_asked _ m topic x Hx). cbn. lia.
  - rewrite alter_insert_eq, asked_sum_insert_fresh by done. cbn. lia.
Qed.

Lemma llama_update_counts_one (self : Llama.LlamaCCNATutor) (query : string) (rt now : Q) :
  Report.llama_questions_answered (Llama._update_learning_analytics self query rt now)
  = Report.llama_questions_answered self + 1.
Proof.
  unfold Report.llama_questions_answered, Llama._update_learning_analytics.
  cbn [Llama.stats Llama.topic_performance].
  set (topic := Llama._extract_topic query).
  set (m := Llama.topic_performance (Llama.stats self)).
  destruct (m !! topic) as [x|] eqn:Hx.
  - rewrite (asked_sum_alter Llama.questions_asked _ m topic x Hx). cbn. lia.
  - rewrite alter_insert_eq, asked_sum_insert_fresh by done. cbn. lia.
Qed.

Lemma phi3_session_bound (asked : list (Ollama.chat_service * Q * string))
    (self : Phi3.Phi3CCNATutor) :
  Report.phi3_questions_answered self
  ≤ Report.phi3_questions_answered (Report.phi3_session asked self)
  ≤ Report.phi3_questions_answered self + Z.of_nat (length asked).
Proof.
  revert self. induction asked as [|[[chat rt] query] rest IH]; intros self; cbn; [lia|].
  destruct (phi3_ask_question_cases chat rt self query) as [[text ->]| ->].
  - specialize (IH (Phi3._update_learning_analytics self query rt)).
    rewrite phi3_update_counts_one in IH. lia.
  - specialize (IH self). lia.
Qed.

Lemma llama_session_bound (asked : list (Ollama.chat_service * Q * Q * string))
    (self : Llama.LlamaCCNATutor) :
  Report.llama_questions_answered self
  ≤ Report.llama_questions_answered (Report.llama_session asked self)
  ≤ Report.llama_questions_answered self + Z.of_nat (length asked).
Proof.
  revert self. induction asked as [|[[[chat rt] now] query] rest IH]; intros self; cbn; [lia|].
  destruct (llama_ask_question_cases chat rt now self query) as [[text ->]| ->].
  - specialize (IH (Llama._update_learning_analytics self query rt now)).
    rewrite llama_update_counts_one in IH. lia.
  - specialize (IH self). lia.
Qed.

End answered_questions.

(** X7. The number [get_stats] reports as [questions_answered], the sum of
    [questions_asked] over the topics, counts the questions that were
    answered: a call of [ask_question] either raises it by exactly one or
    hands back the apology and leaves the tutor as it was. A fresh tutor
    reports zero, and after any session no more than the number of questions
    asked. This holds for the Phi3 and for the Llama tutor. *)
Theorem get_stats_counts_answered_questions :
  (∀ chat response_time self query,
      ∃ text self',
        Phi3.ask_question chat response_time self query = Py.Return (text, self')
        ∧ (Report.phi3_questions_answered self' = Report.phi3_questions_answered self + 1
           ∨ (self' = self
              ∧ text = "I apologize, but I encountered an issue. Please ensure Ollama is running with the "
                       +:+ Phi3.model self +:+ " model loaded.")))
  ∧ (∀ asked model_name,
        Report.phi3_questions_answered (Phi3.__init__ model_name) = 0
        ∧ 0 ≤ Report.phi3_questions_answered
                (Report.phi3_session asked (Phi3.__init__ model_name))
            ≤ Z.of_nat (length asked))
  ∧ (∀ chat response_time now self query,
        ∃ text self',
          Llama.ask_question chat response_time now self query = Py.Return (text, self')
          ∧ (Report.llama_questions_answered self'
             = Report.llama_questions_answered self + 1
             ∨ (self' = self
                ∧ text = "I apologize, but I encountered an issue. Please ensure Ollama is running with the "
                         +:+ Llama.model self +:+ " model loaded.")))
  ∧ (∀ asked model_name,
        Report.llama_questions_answered (Llama.__init__ model_name) = 0
        ∧ 0 ≤ Report.llama_questions_answered
                (Report.llama_session asked (Llama.__init__ model_name))
            ≤ Z.of_nat (length asked)).
Proof.
  split; [|split; [|split]].
  - intros chat rt self query.
    destruct (phi3_ask_question_cases chat rt self query) as [[text ->]| ->].
    + eexists _, _. split; [reflexivity|]. left. apply phi3_update_counts_one.
    + eexists _, _. split; [reflexivity|]. by right.
  - intros asked name. split; [reflexivity|].
    pose proof (phi3_session_bound asked (Phi3.__init__ name)) as H.
    change (Report.phi3_questions_answered (Phi3.__init__ name)) with 0 in H. lia.
  - intros chat rt now self query.
    destruct (llama_ask_question_cases chat rt now self query) as [[text ->]| ->].
    + eexists _, _. split; [reflexivity|]. left. apply llama_update_counts_one.
    + eexists _, _. split; [reflexivity|]. by right.
  - intros asked name. split; [reflexivity|].
    pose proof (llama_session_bound asked (Llama.__init__ name)) as H.
    change (Report.llama_questions_answered (Llama.__init__ name)) with 0 in H. lia.
Qed.

(** ** What a session leaves in the analytics *)

Section session_invariants.
Import Py.

Lemma first_topic_in_tags (topics : list (string * list string)) (text : string) :
  Topics.first_topic topics text ∈ Report.tags topics.
Proof.
  unfold Report.tags. induction topics as [|[topic keywords] rest IH]; cbn.
  - apply list_elem_of_here.
  - destruct (Topics.any_keyword keywords text).
    + apply list_elem_of_here.
    + by apply list_elem_of_further.
Qed.

Lemma assess_complexity_tiers (query : string) :
  Llama._assess_complexity query ∈ ["basic"; "intermediate"; "advanced"].
Proof.
  unfold Llama._assess_complexity. cbv zeta.
  repeat match goal with |- context [if ?c then _ else _] => destruct c end;
    set_solver.
Qed.

Lemma llama_update_keeps_entries_ok (self : Llama.LlamaCCNATutor) (query : string)
    (rt now : Q) :
  map_Forall Report.llama_entry_ok (Llama.topic_performance (Llama.stats self)) →
  map_Forall Report.llama_entry_ok
    (Llama.topic_performance
       (Llama.stats (Llama._update_learning_analytics self query rt now))).
Proof.
  intros Hinv. unfold Llama._update_learning_analytics.
  cbn [Llama.stats Llama.topic_performance].
  set (topic := Llama._extract_topic query).
  set (m := Llama.topic_performance (Llama.stats self)) in *.
  assert (topic ∈ Report.tags Llama.topics) as Htag by apply first_topic_in_tags.
  intros t entry Hentry. destruct (decide (topic = t)) as [<-|Hne].
  - rewrite lookup_alter_eq in Hentry. destruct (m !! topic) as [x|] eqn:Hx.
    + rewrite Hx in Hentry. cbn in Hentry. injection Hentry as <-.
      destruct (Hinv _ _ Hx) as (_ & Hone & _). repeat split; cbn; [done|lia|].
      apply assess_complexity_tiers.
    + rewrite lookup_insert_eq in Hentry. cbn in Hentry. injection Hentry as <-.
      repeat split; cbn; [done|lia|]. apply assess_complexity_tiers.
  - rewrite lookup_alter_ne in Hentry by done.
    destruct (m !! topic) eqn:Hx; [by apply (Hinv t)|].
    rewrite lookup_insert_ne in Hentry by done. by apply (Hinv t).
Qed.

Lemma phi3_update_keeps_entries_ok (self : Phi3.Phi3CCNATutor) (query : string) (rt : Q) :
  map_Forall Report.phi3_entry_ok (Phi3.topic_performance (Phi3.stats self)) →
  map_Forall Report.phi3_entry_ok
    (Phi3.topic_performance (Phi3.stats (Phi3._update_learning_analytics self query rt))).
Proof.
  intros Hinv. unfold Phi3._update_learning_analytics.
  cbn [Phi3.stats Phi3.topic_performance].
  set (topic := Phi3._extract_topic query).
  set (m := Phi3.topic_performance (Phi3.stats self)) in *.
  assert (topic ∈ Report.tags Phi3.topics) as Htag by apply first_topic_in_tags.
  intros t entry Hentry. destruct (decide (topic = t)) as [<-|Hne].
  - rewrite lookup_alter_eq in Hentry. destruct (m !! topic) as [x|] eqn:Hx.
    + rewrite Hx in Hentry. cbn in Hentry. injection Hentry as <-.
      destruct (Hinv _ _ Hx) as (_ & Hone & Hlevel). repeat split; cbn; [done|lia|done].
    + rewrite lookup_insert_eq in Hentry. cbn in Hentry. injection Hentry as <-.
      repeat split; cbn; [done|lia].
  - rewrite lookup_alter_ne in Hentry by done.
    destruct (m !! topic) eqn:Hx; [by apply (Hinv t)|].
    rewrite lookup_insert_ne in Hentry by done. by apply (Hinv t).
Qed.

Lemma llama_session_entries_ok (asked : list (Ollama.chat_service * Q * Q * string))
    (self : Llama.LlamaCCNATutor) :
  map_Forall Report.llama_entry_ok (Llama.topic_performance (Llama.stats self)) →
  map_Forall Report.llama_entry_ok
    (Llama.topic_performance (Llama.stats (Report.llama_session asked self))).
Proof.
  revert self. induction asked as [|[[[chat rt] now] query] rest IH]; intros self Hinv;
    cbn; [done|].
  destruct (llama_ask_question_cases chat rt now self query) as [[text ->]| ->].
  - by apply IH, llama_update_keeps_entries_ok.
  - by apply IH.
Qed.

Lemma phi3_session_entries_ok (asked : list (Ollama.chat_service * Q * string))
    (self : Phi3.Phi3CCNATutor) :
  map_Forall Report.phi3_entry_ok (Phi3.topic_performance (Phi3.stats self)) →
  map_Forall Report.phi3_entry_ok
    (Phi3.topic_performance (Phi3.stats (Report.phi3_session asked self))).
Proof.
  revert self. induction asked as [|[[chat rt] query] rest IH]; intros self Hinv;
    cbn; [done|].
  destruct (phi3_ask_question_cases chat rt self query) as [[text ->]| ->].
  - by apply IH, phi3_update_keeps_entries_ok.
  - by apply IH.
Qed.

(** Three exclusive levels split a list of entries. *)
Lemma three_levels_partition {A : Type} (level : A → string) (l : list A) :
  Forall (λ t, level t ∈ ["basic"; "intermediate"; "advanced"]) l →
  (length (filter (λ t, level t = "basic") l)
   + length (filter (λ t, level t = "intermediate") l)
   + length (filter (λ t, level t = "advanced") l))%nat
  = length l.
Proof.
  induction 1 as [|t l Ht Hl IH]; [done|].
  rewrite !filter_cons.
  assert (level t = "basic" ∨ level t = "intermediate" ∨ level t = "advanced")
    as [Hb|[Hi|Ha]].
  { repeat (apply elem_of_cons in Ht as [Ht|Ht]; [by eauto|]). by apply elem_of_nil in Ht. }
  - rewrite Hb. repeat (destruct (decide _); try done). cbn. lia.
  - rewrite Hi. repeat (destruct (decide _); try done). cbn. lia.
  - rewrite Ha. repeat (destruct (decide _); try done). cbn. lia.
Qed.

Lemma map_Forall_values {A : Type} (P : string → A → Prop) (Q : A → Prop)
    (m : gmap string A) :
  (∀ k x, P k x → Q x) → map_Forall P m → Forall Q (snd <$> map_to_list m).
Proof.
  intros HPQ Hm. apply Forall_fmap, Forall_forall. intros [k x] Hin.
  apply elem_of_map_to_list in Hin. cbn. by apply (HPQ k), Hm.
Qed.

Lemma filter_all {A : Type} (P : A → Prop) `{∀ x, Decision (P x)} (l : list A) :
  Forall P l → filter P l = l.
Proof.
  induction 1 as [|x l Hx Hl IH]; [done|].
  rewrite filter_cons. destruct (decide (P x)); [by rewrite IH|done].
Qed.

Lemma size_keys_bound {A : Type} (m : gmap string A) (keys : list string) :
  NoDup keys → (∀ k x, m !! k = Some x → k ∈ keys) → (size m ≤ length keys)%nat.
Proof.
  intros Hnd Hkeys. rewrite <- size_dom, <- (size_list_to_set (C := gset string) keys Hnd).
  apply subseteq_size. intros k Hk. apply elem_of_dom in Hk as [x Hx].
  apply elem_of_list_to_set. by apply (Hkeys k x).
Qed.

End session_invariants.

(** X8. Whatever questions a session asks and whatever the daemon does,
    the analytics of a tutor created by [__init__] stay well formed. Every
    topic recorded is a key of the tutor's table or [general], so at most 11
    topics for the Llama tutor and 8 for the Phi3 tutor; every entry has been
    asked at least once. For the Llama tutor every entry's complexity level
    is one of the three tiers, so the three counts of
    [complexity_distribution] add up to the number of topics covered. For
    the Phi3 tutor the filter [questions_asked > 0] in [get_stats] removes
    nothing: the average is taken over the number of topics. *)
Theorem session_keeps_analytics_well_formed :
  (∀ (asked : list (Ollama.chat_service * Q * Q * string)) (model_name : string),
      let tutor := Report.llama_session asked (Llama.__init__ model_name) in
      map_Forall Report.llama_entry_ok (Llama.topic_performance (Llama.stats tutor))
      ∧ (Report.llama_complexity_count "basic" tutor
         + Report.llama_complexity_count "intermediate" tutor
         + Report.llama_complexity_count "advanced" tutor)%nat
        = Report.llama_topics_covered tutor
      ∧ (Report.llama_topics_covered tutor ≤ 11)%nat)
  ∧ (∀ (asked : list (Ollama.chat_service * Q * string)) (model_name : string),
        let tutor := Report.phi3_session asked (Phi3.__init__ model_name) in
        map_Forall Report.phi3_entry_ok (Phi3.topic_performance (Phi3.stats tutor))
        ∧ Report.phi3_active_topics tutor = Report.phi3_topics_covered tutor
        ∧ (Report.phi3_topics_covered tutor ≤ 8)%nat).
Proof.
  split.
  - intros asked name tutor.
    assert (map_Forall Report.llama_entry_ok (Llama.topic_performance (Llama.stats tutor))) as Hok.
    { apply llama_session_entries_ok. cbn. apply map_Forall_empty. }
    split; [done|split].
    + unfold Report.llama_complexity_count, Report.llama_topics_covered.
      rewrite three_levels_partition.
      * by rewrite length_fmap, length_map_to_list.
      * apply (map_Forall_values Report.llama_entry_ok); [|done]. by intros k x (_ & _ & ?).
    + apply (size_keys_bound _ (Report.tags Llama.topics)).
      * apply (bool_decide_unpack (NoDup (Report.tags Llama.topics))). by vm_compute.
      * intros k x Hx. by destruct (Hok k x Hx).
  - intros asked name tutor.
    assert (map_Forall Report.phi3_entry_ok (Phi3.topic_performance (Phi3.stats tutor))) as Hok.
    { apply phi3_session_entries_ok. cbn. apply map_Forall_empty. }
    split; [done|split].
    + unfold Report.phi3_active_topics, Report.phi3_topics_covered.
      rewrite <- length_map_to_list, <- (length_fmap snd). f_equal.
      apply filter_all.
      apply (map_Forall_values Report.phi3_entry_ok); [|done]. intros k x (_ & ? & _). lia.
    + apply (size_keys_bound _ (Report.tags Phi3.topics)).
      * apply (bool_decide_unpack (NoDup (Report.tags Phi3.topics))). by vm_compute.
      * intros k x Hx. by destruct (Hok k x Hx).
Qed.

(** ** The server over any sequence of requests *)

Section server_runs.
Import Py Server Endpoints ServerInvariant.

Lemma gemini_grows_refl (o : option Gemini.Globals) : gemini_grows o o.
Proof. by destruct o. Qed.
Lemma qwen2_grows_refl (o : option Qwen2.Globals) : qwen2_grows o o.
Proof. by destruct o. Qed.
Lemma phi3_same_refl (o : option Phi3.Phi3CCNATutor) : phi3_same_but_stats o o.
Proof. by destruct o. Qed.
Lemma llama_same_refl (o : option Llama.LlamaCCNATutor) : llama_same_but_stats o o.
Proof. by destruct o. Qed.

Lemma evolves_refl (g : Globals) : evolves g g.
Proof.
  repeat split; auto using gemini_grows_refl, qwen2_grows_refl, phi3_same_refl,
    llama_same_refl.
Qed.

Lemma evolves_stores (g g' : Globals) : stores g' = stores g → evolves g g'.
Proof.
  unfold stores. intros H. injection H as Hg Hq Hp Hl. unfold evolves.
  rewrite Hg, Hq, Hp, Hl. apply evolves_refl.
Qed.

Lemma evolves_trans (g1 g2 g3 : Globals) : evolves g1 g2 → evolves g2 g3 → evolves g1 g3.
Proof.
  unfold evolves, gemini_grows, qwen2_grows, phi3_same_but_stats, llama_same_but_stats.
  intros (Hg & Hq & Hp & Hl) (Hg' & Hq' & Hp' & Hl').
  repeat split.
  - destruct (gemini_tutor g1), (gemini_tutor g2), (gemini_tutor g3); try done.
    destruct Hg as (? & ? & ?), Hg' as (? & ? & ?). repeat split; try congruence.
    by etrans.
  - destruct (qwen2_tutor g1), (qwen2_tutor g2), (qwen2_tutor g3); try done.
    destruct Hq as (? & ? & ?), Hq' as (? & ? & ?). repeat split; try congruence.
    by etrans.
  - destruct (phi3_tutor g1), (phi3_tutor g2), (phi3_tutor g3); try done.
    destruct Hp as (? & ? & ? & ? & ?), Hp' as (? & ? & ? & ? & ?).
    repeat split; congruence.
  - destruct (llama_tutor g1), (llama_tutor g2), (llama_tutor g3); try done.
    destruct Hl as (? & ? & ? & ? & ?), Hl' as (? & ? & ? & ? & ?).
    repeat split; congruence.
Qed.

(** A call through a tutor object returns, and changes that object's
    statistics at most. *)
Lemma current_ask_question_evolves (w : World) (r : tutor_ref) (query : string)
    (g : Globals) (call : result (string * Globals)) :
  current_ask_question w r query g = Some call →
  ∃ answer g',
    call = Return (answer, g')
    ∧ evolves g g'
    ∧ current_tutor g' = current_tutor g ∧ current_model g' = current_model g.
Proof.
  unfold current_ask_question. destruct r.
  - destruct (phi3_tutor g) as [tutor|] eqn:Hp; cbn; [|done]. intros [= <-].
    destruct (phi3_ask_question_cases (ollama_chat w) (response_time w) tutor query)
      as [[text ->]| ->]; cbn; eexists _, _; (split; [reflexivity|]);
      (split; [|done]); unfold evolves; cbn; rewrite Hp;
      (split; [apply gemini_grows_refl|split; [apply qwen2_grows_refl|
        split; [by cbn|apply llama_same_refl]]]).
  - destruct (llama_tutor g) as [tutor|] eqn:Hl; cbn; [|done]. intros [= <-].
    destruct (llama_ask_question_cases (ollama_chat w) (response_time w) (now w) tutor query)
      as [[text ->]| ->]; cbn; eexists _, _; (split; [reflexivity|]);
      (split; [|done]); unfold evolves; cbn; rewrite Hl;
      (split; [apply gemini_grows_refl|split; [apply qwen2_grows_refl|
        split; [apply phi3_same_refl|by cbn]]]).
Qed.

Lemma call_gemini_evolves (w : World) (gm : Gemini.Globals) (query answer : string)
    (g g' : Globals) :
  gemini_tutor g = Some gm →
  call_gemini w gm query g = Return (answer, g') →
  evolves g g'
  ∧ current_tutor g' = current_tutor g ∧ current_model g' = current_model g.
Proof.
  intros Hgm. unfold call_gemini, Gemini.personalized_tutor, mret, result_ret.
  destruct (Gemini.assemble _ _ _ _ _) as [prompt|e]; cbn; [|done].
  destruct (Gemini.generate_answer _ prompt) as [text|e]; cbn; [|done].
  intros [= <- <-]. split; [|done]. unfold evolves. cbn. rewrite Hgm.
  split; [|split; [apply qwen2_grows_refl|split;
    [apply phi3_same_refl|apply llama_same_refl]]].
  cbn. repeat split. by apply prefix_app_r.
Qed.

Lemma call_qwen2_evolves (w : World) (qw qw' : Qwen2.Globals) (query mode answer : string)
    (top_k : Z) :
  Qwen2.personalized_tutor (encode w) (qwen2_index_search w) (requests_post w)
    qw query mode top_k = Return (answer, qw') →
  qwen2_grows (Some qw) (Some qw').
Proof.
  unfold Qwen2.personalized_tutor, mret, result_ret.
  destruct (Qwen2.assemble _ _ _ _ _ _) as [prompt|e]; cbn; [|done].
  destruct (Qwen2.generate_answer _ prompt) as [text|e]; cbn; [|done].
  intros [= <- <-]. cbn. repeat split. by apply prefix_app_r.
Qed.

Lemma selection_ok_evolves (g g' : Globals) :
  evolves g g' →
  current_tutor g' = current_tutor g → current_model g' = current_model g →
  selection_ok g → selection_ok g'.
Proof.
  unfold selection_ok, evolves, phi3_same_but_stats, llama_same_but_stats.
  intros (_ & _ & Hp & Hl) -> -> [Hsel Hname]. split; [|done].
  destruct (current_tutor g) as [[|]|];
    destruct (phi3_tutor g), (phi3_tutor g'), (llama_tutor g), (llama_tutor g');
    try done; try by destruct Hsel as [??]; try by destruct Hsel.
Qed.

Lemma set_current_selection_ok (r : tutor_ref) (name : string) (g : Globals) :
  match r with
  | RefPhi3 => truthy (phi3_tutor g) = true
  | RefLlama => truthy (llama_tutor g) = true
  end →
  name ∈ ["phi3"; "llama"; "gemini"] →
  selection_ok (set_current (Some r) name g).
Proof.
  unfold selection_ok. cbn. intros Hr Hname. split; [|done].
  destruct r; [destruct (phi3_tutor g)|destruct (llama_tutor g)]; by eauto.
Qed.

Lemma switch_model_selection_ok (request_model : string) (g g' : Globals) (d : dict) :
  selection_ok g → switch_model request_model g = Return (d, g') → selection_ok g'.
Proof.
  intros Hok. unfold switch_model, try_except, mret, result_ret.
  destruct (String.eqb (PyStr.lower request_model) "phi3" && truthy (phi3_tutor g)) eqn:H1.
  { intros [= <- <-]. apply andb_true_iff in H1 as [_ H1].
    apply (set_current_selection_ok RefPhi3); [done|set_solver]. }
  destruct (String.eqb (PyStr.lower request_model) "llama" && truthy (llama_tutor g)) eqn:H2.
  { intros [= <- <-]. apply andb_true_iff in H2 as [_ H2].
    apply (set_current_selection_ok RefLlama); [done|set_solver]. }
  destruct (String.eqb (PyStr.lower request_model) "gemini" && truthy (gemini_tutor g)) eqn:H3.
  { intros [= <- <-]. destruct Hok as [Hsel _]. split; [exact Hsel|]. cbn. set_solver. }
  by intros [= <- <-].
Qed.

Lemma chat_select_selection_ok (request : ChatRequest) (g : Globals) :
  selection_ok g → selection_ok (chat_select request g).
Proof.
  intros Hok. unfold chat_select. destruct (model request) as [m|]; [|done].
  destruct (negb (String.eqb m "") && negb (String.eqb m (current_model g))); [|done].
  destruct (String.eqb (PyStr.lower m) "phi3" && truthy (phi3_tutor g)) eqn:H1.
  { apply andb_true_iff in H1 as [_ H1].
    apply (set_current_selection_ok RefPhi3); [done|set_solver]. }
  destruct (String.eqb (PyStr.lower m) "llama" && truthy (llama_tutor g)) eqn:H2; [|done].
  apply andb_true_iff in H2 as [_ H2].
  apply (set_current_selection_ok RefLlama); [done|set_solver].
Qed.

Lemma handled_same (shape : dict → Prop) (g : Globals) (d : dict) :
  shape d → handled shape g (Return (d, g)).
Proof.
  intros Hd. exists d, g. split; [done|]. split; [done|]. split; [apply evolves_refl|done].
Qed.

Lemma handled_reading (shape : dict → Prop) (g : Globals) (body : result dict) :
  (∃ d, body = Return d ∧ shape d) → handled shape g (reading body g).
Proof. intros (d & -> & Hd). by apply handled_same. Qed.

(** A handler that asks the tutor a call reaches, or else does [otherwise]. *)
Lemma handled_call (shape : dict → Prop) (g0 g : Globals)
    (ocall : option (result (string * Globals)))
    (body : string → Globals → dict) (otherwise : result (dict * Globals))
    (failed : exn → dict) :
  evolves g0 g → (selection_ok g0 → selection_ok g) →
  (∀ call, ocall = Some call →
     ∃ answer g', call = Return (answer, g') ∧ evolves g g'
       ∧ current_tutor g' = current_tutor g ∧ current_model g' = current_model g) →
  (∀ answer g', shape (body answer g')) →
  (ocall = None → handled shape g (try_except otherwise (λ e, mret (failed e, g)))) →
  handled shape g0
    (try_except
       (match ocall with
        | Some call => '(answer, g1) ← call; mret (body answer g1, g1)
        | None => otherwise
        end)
       (λ e, mret (failed e, g))).
Proof.
  intros Hev Hsel Hcall Hbody Hother. destruct ocall as [call|].
  - destruct (Hcall call eq_refl) as (answer & g' & -> & Hev' & Hct & Hcm). cbn.
    eexists _, g'. split; [reflexivity|]. split; [apply Hbody|].
    split; [by eapply evolves_trans|].
    intros Hok. by apply (selection_ok_evolves g g'), Hsel.
  - destruct (Hother eq_refl) as (d & g' & Heq & Hd & Hev' & Hsel').
    exists d, g'. split; [done|]. split; [done|]. split; [by eapply evolves_trans|]. auto.
Qed.

(** The same for the handlers that fall through to the Gemini tutor. *)
Lemma handled_gemini (shape : dict → Prop) (w : World) (g : Globals) (query : string)
    (body : string → Globals → dict) (missing : dict) (failed : exn → dict) :
  (∀ answer g', shape (body answer g')) → shape missing → (∀ e, shape (failed e)) →
  handled shape g
    (try_except
       (match gemini_tutor g with
        | Some gm =>
            '(answer, g1) ← call_gemini w gm query g; mret (body answer g1, g1)
        | None => mret (missing, g)
        end)
       (λ e, mret (failed e, g))).
Proof.
  intros Hbody Hmissing Hfailed.
  destruct (gemini_tutor g) as [gm|] eqn:Hgm; [|by apply handled_same].
  destruct (call_gemini w gm query g) as [[answer g']|e] eqn:Hcall; cbn;
    [|by apply handled_same].
  destruct (call_gemini_evolves w gm query answer g g' Hgm Hcall) as (Hev & Hct & Hcm).
  eexists _, g'. split; [reflexivity|]. split; [apply Hbody|]. split; [done|].
  by apply selection_ok_evolves.
Qed.

Lemma current_call_evolves (w : World) (query : string) (g : Globals)
    (call : result (string * Globals)) :
  (current_tutor g ≫= λ r, current_ask_question w r query g) = Some call →
  ∃ answer g',
    call = Return (answer, g') ∧ evolves g g'
    ∧ current_tutor g' = current_tutor g ∧ current_model g' = current_model g.
Proof.
  destruct (current_tutor g) as [r|] eqn:Hr; cbn; [|done].
  intros H. rewrite <- Hr. by apply (current_ask_question_evolves w r query).
Qed.

Lemma chat_endpoint_handled (w : World) (request : ChatRequest) (g : Globals) :
  handled chat_body g (chat_endpoint w request g).
Proof.
  unfold chat_endpoint. cbv zeta.
  apply (handled_call chat_body g (chat_select request g) _
           (λ answer g1,
              [ ("response", PStr answer);
                ("model_used",
                  PStr (if String.eqb (current_model g1) "phi3" then "phi3:mini"
                        else "llama3.1:8b"));
                ("model_type", PStr (current_model g1));
                ("subject", PStr "ccna");
                ("gpu_accelerated", PBool true);
                ("status", PStr "success") ])).
  - apply evolves_stores, chat_select_stores.
  - apply chat_select_selection_ok.
  - apply current_call_evolves.
  - intros answer g'. left. cbn. eauto.
  - intros _. apply handled_gemini.
    + intros answer g'. left. cbn. eauto.
    + right. cbn. eauto.
    + intros e. right. cbn. eauto.
Qed.

Lemma chat_phi3_handled (w : World) (request : ChatRequest) (g : Globals) :
  handled chat_body g (chat_phi3_endpoint w request g).
Proof.
  unfold chat_phi3_endpoint.
  apply (handled_call chat_body g g _
           (λ answer g1,
              [ ("response", PStr answer);
                ("model_used", PStr "phi3:mini");
                ("model_type", PStr "logic");
                ("subject", PStr "ccna");
                ("gpu_accelerated", PBool true);
                ("response_time", PStr "1-2s");
                ("status", PStr "success") ])).
  - apply evolves_refl.
  - done.
  - apply current_ask_question_evolves.
  - intros answer g'. left. cbn. eauto.
  - intros _. apply handled_same. right. cbn. eauto.
Qed.

Lemma chat_llama_handled (w : World) (request : ChatRequest) (g : Globals) :
  handled chat_body g (chat_llama_endpoint w request g).
Proof.
  unfold chat_llama_endpoint.
  apply (handled_call chat_body g g _
           (λ answer g1,
              [ ("response", PStr answer);
                ("model_used", PStr "llama3.1:8b");
                ("model_type", PStr "comprehensive");
                ("subject", PStr "ccna");
                ("gpu_accelerated", PBool true);
                ("response_time", PStr "3-5s");
                ("status", PStr "success") ])).
  - apply evolves_refl.
  - done.
  - apply current_ask_question_evolves.
  - intros answer g'. left. cbn. eauto.
  - intros _. apply handled_same. right. cbn. eauto.
Qed.

Lemma chat_gemini_handled (w : World) (request : ChatRequest) (g : Globals) :
  handled chat_body g (chat_gemini_endpoint w request g).
Proof.
  unfold chat_gemini_endpoint. apply handled_gemini.
  - intros answer g'. left. cbn. eauto.
  - right. cbn. eauto.
  - intros e. right. cbn. eauto.
Qed.

Lemma ask_tutor_handled (w : World) (question : string) (g : Globals) :
  handled (route_shape (PostAsk question)) g (ask_tutor w question g).
Proof.
  unfold ask_tutor.
  apply (handled_call _ g g _ (λ answer g1, [ ("answer", PStr answer) ])).
  - apply evolves_refl.
  - done.
  - apply current_call_evolves.
  - intros answer g'. left. eauto.
  - intros _. apply handled_gemini.
    + intros answer g'. left. eauto.
    + right. eauto.
    + intros e. right. eauto.
Qed.

Lemma chat_qwen2_handled (w : World) (request : ChatRequest) (g : Globals) :
  handled chat_body g (chat_qwen2_endpoint w request g).
Proof.
  unfold chat_qwen2_endpoint, try_except, mret, result_ret. cbv zeta.
  destruct (qwen2_tutor g) as [qw|] eqn:Hqw; [|apply handled_same; right; cbn; eauto].
  match goal with |- context [Qwen2.personalized_tutor ?a ?b ?c ?d ?e ?f ?k] =>
    destruct (Qwen2.personalized_tutor a b c d e f k) as [[answer qw']|e0] eqn:Hcall end;
    cbn; [|apply handled_same; right; cbn; eauto].
  eexists _, _. split; [reflexivity|]. split; [left; cbn; eauto|].
  apply call_qwen2_evolves in Hcall.
  assert (evolves g
            {| gemini_tutor := gemini_tutor g; qwen2_tutor := Some qw';
               phi3_tutor := phi3_tutor g; llama_tutor := llama_tutor g;
               current_tutor := current_tutor g; current_model := current_model g |}) as Hev.
  { unfold evolves. cbn. rewrite Hqw.
    split; [apply gemini_grows_refl|split; [done|split;
      [apply phi3_same_refl|apply llama_same_refl]]]. }
  split; [done|]. by apply selection_ok_evolves.
Qed.

Lemma switch_model_handled (request_model : string) (g : Globals) :
  handled (route_shape (PostSwitchModel request_model)) g (switch_model request_model g).
Proof.
  destruct (switch_model_stores request_model g) as (d & g' & Heq & Hst).
  exists d, g'. split; [done|]. split; [|split].
  - revert Heq. unfold switch_model, try_except, mret, result_ret.
    repeat (match goal with |- context [if ?c then _ else _] => destruct c end);
      intros [= <- <-]; cbn; eauto.
  - by apply evolves_stores.
  - intros Hok. by apply (switch_model_selection_ok request_model g g' d).
Qed.

(** Every request is answered with a body of its route's shape, and leaves
    the module's names evolved and the selection sound. *)
Lemma handle_handled (w : World) (req : Request) (g : Globals) :
  handled (route_shape req) g (handle w req g).
Proof.
  destruct req; cbn [handle route_shape].
  - by apply handled_reading; eexists.
  - apply switch_model_handled.
  - apply chat_endpoint_handled.
  - apply chat_phi3_handled.
  - apply chat_llama_handled.
  - apply chat_gemini_handled.
  - apply ask_tutor_handled.
  - apply handled_reading. unfold get_random_question. rewrite load_ccna_tutor.
    eexists. split; [reflexivity|]. cbn. eauto.
  - apply handled_reading. unfold check_answer. rewrite load_ccna_tutor.
    eexists. split; [reflexivity|]. cbn. eauto.
  - apply handled_reading. unfold get_topics. rewrite load_ccna_tutor.
    eexists. split; [reflexivity|]. cbn. eauto.
  - by apply handled_reading; eexists.
  - apply handled_reading. eexists. split; [reflexivity|]. cbn.
    destruct (0 <? _); eauto.
  - apply chat_qwen2_handled.
Qed.

Lemma serve_evolves (requests : list (World * Request)) (g : Globals) :
  evolves g (serve requests g) ∧ (selection_ok g → selection_ok (serve requests g)).
Proof.
  revert g. induction requests as [|[w req] rest IH]; intros g; cbn.
  - split; [apply evolves_refl|done].
  - destruct (handle_handled w req g) as (d & g' & -> & _ & Hev & Hsel).
    destruct (IH g') as [Hev' Hsel']. split; [by eapply evolves_trans|auto].
Qed.

Lemma startup_selection_ok (gemini : option Gemini.Globals) (qwen2 : option Qwen2.Globals)
    (phi3_imported llama_imported : bool) :
  selection_ok (startup gemini qwen2 phi3_imported llama_imported).
Proof.
  unfold selection_ok, startup. cbn.
  split; [|set_solver]. by destruct phi3_imported, llama_imported; cbn; eauto.
Qed.

Lemma evolves_phi3_present (g g' : Globals) :
  evolves g g' → (is_Some (phi3_tutor g') ↔ is_Some (phi3_tutor g)).
Proof.
  intros (_ & _ & H & _). unfold phi3_same_but_stats in H.
  destruct (phi3_tutor g), (phi3_tutor g'); try done; by split; eauto.
Qed.

Lemma evolves_llama_present (g g' : Globals) :
  evolves g g' → (is_Some (llama_tutor g') ↔ is_Some (llama_tutor g)).
Proof.
  intros (_ & _ & _ & H). unfold llama_same_but_stats in H.
  destruct (llama_tutor g), (llama_tutor g'); try done; by split; eauto.
Qed.

(** With a sound selection and an Ollama tutor, the selected tutor's
    [ask_question] is what [/chat] calls. *)
Lemma selected_tutor_answers (w : World) (query : string) (g : Globals) :
  selection_ok g → is_Some (phi3_tutor g) ∨ is_Some (llama_tutor g) →
  is_Some (current_tutor g ≫= λ r, current_ask_question w r query g).
Proof.
  intros [Hsel _] Hex. unfold current_ask_question.
  destruct (current_tutor g) as [[]|]; cbn.
  - destruct Hsel as [t Ht]. rewrite Ht. by eexists.
  - destruct Hsel as [t Ht]. rewrite Ht. by eexists.
  - destruct Hsel as [Hp Hl]. rewrite Hp, Hl in Hex. by destruct Hex as [[? ?]|[? ?]].
Qed.

Lemma current_call_keeps_gemini (w : World) (query answer : string) (g g' : Globals) :
  (current_tutor g ≫= λ r, current_ask_question w r query g)
  = Some (Return (answer, g')) →
  gemini_tutor g' = gemini_tutor g ∧ qwen2_tutor g' = qwen2_tutor g.
Proof.
  unfold current_ask_question, mret, result_ret.
  destruct (current_tutor g) as [[]|]; cbn; [| |done].
  - destruct (phi3_tutor g) as [t|]; cbn; [|done].
    destruct (Phi3.ask_question _ _ _ _) as [[a t']|e]; cbn; [|done].
    by intros [= <- <-].
  - destruct (llama_tutor g) as [t|]; cbn; [|done].
    destruct (Llama.ask_question _ _ _ _ _) as [[a t']|e]; cbn; [|done].
    by intros [= <- <-].
Qed.

Lemma startup_tutors (gemini : option Gemini.Globals) (qwen2 : option Qwen2.Globals)
    (phi3_imported llama_imported : bool) :
  let g := startup gemini qwen2 phi3_imported llama_imported in
  (is_Some (phi3_tutor g) ↔ phi3_imported = true)
  ∧ (is_Some (llama_tutor g) ↔ llama_imported = true)
  ∧ (∀ t, phi3_tutor g = Some t →
          Phi3.conversation_history t = [] ∧ Phi3.dataset t = [])
  ∧ (∀ t, llama_tutor g = Some t →
          Llama.conversation_history t = [] ∧ Llama.dataset t = [])
  ∧ gemini_tutor g = gemini ∧ qwen2_tutor g = qwen2.
Proof.
  unfold startup. cbn.
  assert (∀ A (x : A), is_Some (Some x) ↔ true = true) as Hsome by (by split; eauto).
  assert (∀ A, is_Some (@None A) ↔ false = true) as Hnone
    by (by split; [intros [? ?]|]).
  destruct phi3_imported, llama_imported; cbn;
    (split; [by auto|split; [by auto|split; [by intros ? [= <-]|
       split; [by intros ? [= <-]|done]]]]).
Qed.

End server_runs.

(** X9. Once an Ollama tutor was created at start-up, [/chat] always
    succeeds through an Ollama tutor, whatever requests were served before
    and whatever the request names as model: it never reaches the Gemini
    tutor (not even after a successful switch to [gemini]), and its
    [model_used] is one of the two Ollama model names. *)
Theorem chat_never_falls_back_to_gemini (gemini : option Gemini.Globals)
    (qwen2 : option Qwen2.Globals) (phi3_imported llama_imported : bool)
    (requests : list (Server.World * Endpoints.Request)) (w : Server.World)
    (request : Server.ChatRequest) :
  phi3_imported || llama_imported = true →
  let g := Endpoints.serve requests
             (Server.startup gemini qwen2 phi3_imported llama_imported) in
  ∃ answer name g',
    Server.chat_endpoint w request g
    = Py.Return ([ ("response", Py.PStr answer);
                   ("model_used", Py.PStr name);
                   ("model_type", Py.PStr (Server.current_model g'));
                   ("subject", Py.PStr "ccna");
                   ("gpu_accelerated", Py.PBool true);
                   ("status", Py.PStr "success") ], g')
    ∧ name ∈ ["phi3:mini"; "llama3.1:8b"]
    ∧ Server.gemini_tutor g' = Server.gemini_tutor g.
Proof.
  intros Himp g.
  pose proof (startup_selection_ok gemini qwen2 phi3_imported llama_imported) as Hok0.
  pose proof (startup_tutors gemini qwen2 phi3_imported llama_imported)
    as (Hp & Hl & _).
  destruct (serve_evolves requests
              (Server.startup gemini qwen2 phi3_imported llama_imported))
    as [Hev Hsel].
  fold g in Hev, Hsel. specialize (Hsel Hok0).
  assert (is_Some (Server.phi3_tutor g) ∨ is_Some (Server.llama_tutor g)) as Hex.
  { apply orb_true_iff in Himp as [H|H].
    - left. by apply (evolves_phi3_present _ _ Hev), Hp.
    - right. by apply (evolves_llama_present _ _ Hev), Hl. }
  pose proof (chat_select_stores request g) as Hst.
  pose proof (chat_select_selection_ok request g Hsel) as Hsel1.
  assert (is_Some (Server.phi3_tutor (Server.chat_select request g))
          ∨ is_Some (Server.llama_tutor (Server.chat_select request g))) as Hex1.
  { pose proof (evolves_stores _ _ Hst) as Hev1.
    destruct Hex as [H|H];
      [left; by apply (evolves_phi3_present _ _ Hev1)
      |right; by apply (evolves_llama_present _ _ Hev1)]. }
  destruct (selected_tutor_answers w (Server.message request) _ Hsel1 Hex1)
    as [call Hcall].
  destruct (current_call_evolves w (Server.message request) _ call Hcall)
    as (answer & g' & -> & Hev' & Hct & Hcm).
  unfold Server.chat_endpoint. cbv zeta. rewrite Hcall. cbn.
  eexists answer, _, g'. split; [reflexivity|]. split.
  - destruct (String.eqb _ _); repeat constructor.
  - destruct (current_call_keeps_gemini w _ _ _ _ Hcall) as [-> _].
    by apply (f_equal (λ s, s.1.1.1)) in Hst.
Qed.

Lemma chat_never_falls_back_to_gemini_witness :
  true || true = true
  ∧ ∃ answer name g',
      Server.chat_endpoint Scenario.world Scenario.request
        (Endpoints.serve [(Scenario.world, Endpoints.PostSwitchModel "Gemini")]
           Scenario.started)
      = Py.Return ([ ("response", Py.PStr answer);
                     ("model_used", Py.PStr name);
                     ("model_type", Py.PStr (Server.current_model g'));
                     ("subject", Py.PStr "ccna");
                     ("gpu_accelerated", Py.PBool true);
                     ("status", Py.PStr "success") ], g')
      ∧ name ∈ ["phi3:mini"; "llama3.1:8b"]
      ∧ Server.gemini_tutor g'
        = Server.gemini_tutor
            (Endpoints.serve [(Scenario.world, Endpoints.PostSwitchModel "Gemini")]
               Scenario.started).
Proof.
  split; [reflexivity|].
  apply (chat_never_falls_back_to_gemini _ None true true
           [(Scenario.world, Endpoints.PostSwitchModel "Gemini")]
           Scenario.world Scenario.request).
  reflexivity.
Defined.

(** After a switch to [gemini] the selection names Gemini while [/chat]
    still answers through the Phi3 tutor and reports the Llama model. *)
Example chat_after_switch_to_gemini :
  let g := Endpoints.serve [(Scenario.world, Endpoints.PostSwitchModel "Gemini")]
             Scenario.started in
  Server.current_model g = "gemini"
  ∧ Server.current_tutor g = Some Server.RefPhi3
  ∧ Scenario.observe (Server.chat_endpoint Scenario.world Scenario.request g)
    = (Some (Py.PStr "llama3.1:8b"),
       Some ["Q: What is a VLAN?" +:+ PyStr.nl +:+ "A: A broadcast domain."]).
Proof. vm_compute. done. Qed.

(** X10. Whatever requests the server has served since start-up: the
    selection is sound; the corpus of the Gemini and Qwen2 tutors is the
    one loaded at start-up and their conversation memory has only grown
    (the earlier entries are a prefix); each Ollama tutor is the object
    created at start-up up to its statistics, so its own
    [conversation_history] and [dataset] are still empty. *)
Theorem served_state_keeps_corpus_and_memory (gemini : option Gemini.Globals)
    (qwen2 : option Qwen2.Globals) (phi3_imported llama_imported : bool)
    (requests : list (Server.World * Endpoints.Request)) :
  let g0 := Server.startup gemini qwen2 phi3_imported llama_imported in
  let g := Endpoints.serve requests g0 in
  ServerInvariant.selection_ok g
  ∧ ServerInvariant.evolves g0 g
  ∧ (is_Some (Server.phi3_tutor g) ↔ phi3_imported = true)
  ∧ (is_Some (Server.llama_tutor g) ↔ llama_imported = true)
  ∧ (∀ t, Server.phi3_tutor g = Some t →
          Phi3.conversation_history t = [] ∧ Phi3.dataset t = [])
  ∧ (∀ t, Server.llama_tutor g = Some t →
          Llama.conversation_history t = [] ∧ Llama.dataset t = []).
Proof.
  intros g0 g.
  pose proof (startup_selection_ok gemini qwen2 phi3_imported llama_imported) as Hok0.
  pose proof (startup_tutors gemini qwen2 phi3_imported llama_imported)
    as (Hp & Hl & Hp0 & Hl0 & _).
  fold g0 in Hok0, Hp, Hl, Hp0, Hl0.
  destruct (serve_evolves requests g0) as [Hev Hsel]. fold g in Hev, Hsel.
  split; [by apply Hsel|]. split; [done|].
  split; [by rewrite (evolves_phi3_present _ _ Hev)|].
  split; [by rewrite (evolves_llama_present _ _ Hev)|].
  destruct Hev as (_ & _ & Hphi & Hllama). split.
  - intros t Ht. unfold ServerInvariant.phi3_same_but_stats in Hphi.
    rewrite Ht in Hphi. destruct (Server.phi3_tutor g0) as [t0|]; [|done].
    destruct Hphi as (_ & -> & -> & _). destruct (Hp0 t0 eq_refl). done.
  - intros t Ht. unfold ServerInvariant.llama_same_but_stats in Hllama.
    rewrite Ht in Hllama. destruct (Server.llama_tutor g0) as [t0|]; [|done].
    destruct Hllama as (_ & -> & -> & _). destruct (Hl0 t0 eq_refl). done.
Qed.

(** X11. No handler lets an exception out: every route returns a body,
    whatever the world does and whatever the module's names hold. The chat
    routes answer with [status] success, a [response] text and [model_used],
    or with [status] error, an [error] message and no [response];
    [/switch-model] answers with a [status] and a [message]; the three
    question-bank routes always answer with an error; [/ask] answers with
    the single key [answer] or the single key [error]. *)
Theorem every_route_returns_its_body (w : Server.World) (req : Endpoints.Request)
    (g : Server.Globals) :
  ∃ d g', Endpoints.handle w req g = Py.Return (d, g')
          ∧ ServerInvariant.route_shape req d.
Proof.
  destruct (handle_handled w req g) as (d & g' & Heq & Hshape & _). eauto.
Qed.

(** ** Health report and chat availability *)

Section health.
Import Py Server Endpoints ServerInvariant.

Lemma health_degraded (g : Globals) :
  assoc "status" (health_check g) = Some (PStr "degraded")
  ↔ phi3_tutor g = None ∧ llama_tutor g = None ∧ gemini_tutor g = None.
Proof.
  unfold health_check, ready_models.
  destruct (phi3_tutor g), (llama_tutor g), (gemini_tutor g); cbn;
    (split; [by intros ?|by intros (? & ? & ?)]).
Qed.

Lemma models_counted_alike (g : Globals) :
  assoc "total_models_ready" (health_check g)
  = assoc "total_models" (get_available_models g).
Proof.
  unfold health_check, get_available_models, ready_models, available_models.
  by destruct (phi3_tutor g), (llama_tutor g), (gemini_tutor g).
Qed.

Lemma chat_endpoint_no_model (w : World) (request : ChatRequest) (g : Globals) :
  selection_ok g →
  (∃ g', chat_endpoint w request g = Return (no_model, g'))
  ↔ phi3_tutor g = None ∧ llama_tutor g = None ∧ gemini_tutor g = None.
Proof.
  intros Hok. pose proof (chat_select_stores request g) as Hst.
  apply (chat_select_selection_ok request) in Hok.
  unfold chat_endpoint. cbv zeta. revert Hst Hok.
  generalize (chat_select request g). intros g1 [= Hgm _ Hp Hl] [Hsel _].
  rewrite <- Hgm, <- Hp, <- Hl. clear Hgm Hp Hl.
  unfold current_ask_question, call_gemini, try_except, mret, result_ret, no_model.
  destruct (current_tutor g1) as [[]|]; cbn.
  - destruct Hsel as [t Ht]. rewrite Ht. cbn.
    destruct (Phi3.ask_question _ _ _ _) as [[a t']|e]; cbn;
      (split; [by intros [g' [=]]|by intros (? & _)]).
  - destruct Hsel as [t Ht]. rewrite Ht. cbn.
    destruct (Llama.ask_question _ _ _ _ _) as [[a t']|e]; cbn;
      (split; [by intros [g' [=]]|by intros (_ & ? & _)]).
  - destruct Hsel as [-> ->]. destruct (gemini_tutor g1) as [gm|]; cbn.
    + destruct (Gemini.personalized_tutor _ _ _ _ _ _) as [[a gm']|e]; cbn;
        (split; [by intros [g' [=]]|by intros (_ & _ & ?)]).
    + split; [done|]. intros _. by eexists.
Qed.

End health.

(** X12. [/health] and [/chat] agree, whatever requests were served
    before: [/health] reports [degraded] exactly when [/chat] answers
    "No AI model available", that is, when neither Ollama tutor was created
    and there is no Gemini tutor. The Qwen2 tutor is not counted, although it
    has a route of its own. [/health] and [/models] count the same models. *)
Theorem health_degraded_iff_chat_has_no_model (gemini : option Gemini.Globals)
    (qwen2 : option Qwen2.Globals) (phi3_imported llama_imported : bool)
    (requests : list (Server.World * Endpoints.Request)) (w : Server.World)
    (request : Server.ChatRequest) :
  let g := Endpoints.serve requests
             (Server.startup gemini qwen2 phi3_imported llama_imported) in
  (Py.assoc "status" (Endpoints.health_check g) = Some (Py.PStr "degraded")
   ↔ ∃ g', Server.chat_endpoint w request g
           = Py.Return ([ ("error", Py.PStr "No AI model available");
                          ("status", Py.PStr "error") ], g'))
  ∧ (Py.assoc "status" (Endpoints.health_check g) = Some (Py.PStr "degraded")
     ↔ phi3_imported = false ∧ llama_imported = false ∧ gemini = None)
  ∧ Py.assoc "total_models_ready" (Endpoints.health_check g)
    = Py.assoc "total_models" (Endpoints.get_available_models g).
Proof.
  intros g.
  pose proof (startup_selection_ok gemini qwen2 phi3_imported llama_imported) as Hok0.
  pose proof (startup_tutors gemini qwen2 phi3_imported llama_imported)
    as (Hp & Hl & _ & _ & Hg & _).
  destruct (serve_evolves requests
              (Server.startup gemini qwen2 phi3_imported llama_imported))
    as [Hev Hsel].
  fold g in Hev, Hsel. specialize (Hsel Hok0).
  split; [|split].
  - rewrite health_degraded. symmetry. by apply (chat_endpoint_no_model w request g).
  - rewrite health_degraded.
    rewrite <- (evolves_phi3_present _ _ Hev) in Hp.
    rewrite <- (evolves_llama_present _ _ Hev) in Hl.
    destruct Hev as (Hgem & _). unfold ServerInvariant.gemini_grows in Hgem.
    rewrite Hg in Hgem. clear Hg.
    assert (∀ A (o : option A), o = None ↔ ¬ is_Some o) as Hnone.
    { intros A [x|]; split.
      - by intros [=].
      - intros H. exfalso. apply H. by eexists.
      - by intros _ [? [=]].
      - done. }
    rewrite !Hnone, Hp, Hl.
    destruct phi3_imported, llama_imported, gemini as [a|],
      (Server.gemini_tutor g) as [b|]; try done;
      (split; intros (H1 & H2 & H3); try done;
       try (by destruct H3; eauto); try (by destruct H1); try (by destruct H2)).
  - apply models_counted_alike.
Qed.

(** ** Switching the model *)

(** X13. [/switch-model] compares the requested name in lower case. When
    the named model is one of phi3, llama and gemini and its tutor is there,
    the switch succeeds: [current_model] becomes that name, no tutor object
    changes, a switch to gemini leaves [current_tutor] as it was, and the
    same request again gives the same answer and the same state. Otherwise
    the answer is the error naming the model as it was written, and nothing
    changes. *)
Theorem switch_model_succeeds_iff_model_present (request_model : string)
    (g : Server.Globals) :
  ∃ d g',
    Server.switch_model request_model g = Py.Return (d, g')
    ∧ (ServerInvariant.model_present (PyStr.lower request_model) g →
         Py.assoc "status" d = Some (Py.PStr "success")
         ∧ Server.current_model g' = PyStr.lower request_model
         ∧ Server.stores g' = Server.stores g
         ∧ (PyStr.lower request_model = "gemini" →
              Server.current_tutor g' = Server.current_tutor g)
         ∧ Server.switch_model request_model g' = Py.Return (d, g'))
    ∧ (¬ ServerInvariant.model_present (PyStr.lower request_model) g →
         d = [ ("status", Py.PStr "error");
               ("message",
                 Py.PStr ("Model '" +:+ request_model +:+ "' not available")) ]
         ∧ g' = g).
Proof.
  unfold Server.switch_model, Py.try_except, mret, Py.result_ret, ServerInvariant.model_present.
  destruct (String.eqb (PyStr.lower request_model) "phi3"
            && Py.truthy (Server.phi3_tutor g)) eqn:H1.
  { apply guard_spec in H1 as [Hn Hp]. eexists _, _. split; [reflexivity|].
    split; [|intros []; eauto]. intros _. cbn.
    rewrite Hn. cbn. apply truthy_is_Some in Hp. rewrite Hp. cbn.
    split; [done|]. split; [done|]. split; [done|]. split; done. }
  destruct (String.eqb (PyStr.lower request_model) "llama"
            && Py.truthy (Server.llama_tutor g)) eqn:H2.
  { apply guard_spec in H2 as [Hn Hp]. eexists _, _. split; [reflexivity|].
    split; [|intros []; eauto]. intros _. cbn.
    rewrite Hn. cbn. apply truthy_is_Some in Hp. rewrite Hp. cbn.
    split; [done|]. split; [done|]. split; [done|]. split; done. }
  destruct (String.eqb (PyStr.lower request_model) "gemini"
            && Py.truthy (Server.gemini_tutor g)) eqn:H3.
  { apply guard_spec in H3 as [Hn Hp]. eexists _, _. split; [reflexivity|].
    split; [|intros []; eauto]. intros _. cbn.
    rewrite Hn. cbn. apply truthy_is_Some in Hp. rewrite Hp. cbn.
    split; [done|]. split; [done|]. split; [done|]. split; done. }
  eexists _, _. split; [reflexivity|]. split; [|done].
  intros [H|[H|H]]; apply guard_spec in H; congruence.
Qed.

(** ** Loading the question file *)

Section dataset_loading.
Import Py Dataset.

Lemma has_key_assoc (key : string) (item : record) :
  has_key key item = true → ∃ v, assoc key item = Some v.
Proof. unfold has_key. destruct (assoc key item); [by eauto|done]. Qed.

(** The loop over the two lists: on success it has appended one question
    and one text per complete record; it fails only at a complete record
    whose [choices[correct_answer]] fails. *)
Lemma load_spec (data : list record) (questions correct_texts : list pyval) :
  match load data questions correct_texts with
  | Return (questions', correct_texts') =>
      ∃ new_questions new_texts,
        questions' = questions ++ new_questions
        ∧ correct_texts' = correct_texts ++ new_texts
        ∧ Forall2 question_of (List.filter complete data) new_questions
        ∧ Forall2 text_of (List.filter complete data) new_texts
  | Raise e => Exists (fails_with e) (List.filter complete data)
  end.
Proof.
  revert questions correct_texts.
  induction data as [|item rest IH]; intros questions correct_texts; cbn.
  { exists [], []. by rewrite !app_nil_r. }
  destruct (complete item) eqn:Hc; [|apply IH].
  unfold complete in Hc. apply andb_true_iff in Hc as [Hc Ha].
  apply andb_true_iff in Hc as [Hq Hch].
  apply has_key_assoc in Hq as [q Hq]. apply has_key_assoc in Hch as [c Hch].
  apply has_key_assoc in Ha as [a Ha].
  unfold field, subscript. rewrite Hq, Hch, Ha. cbn.
  destruct (index_value c a) as [text|e] eqn:Hi; cbn.
  - specialize (IH (questions ++ [q]) (correct_texts ++ [text])).
    destruct (load rest _ _) as [[qs cs]|e]; [|by apply Exists_cons_tl].
    destruct IH as (nq & nc & -> & -> & Hnq & Hnc).
    exists (q :: nq), (text :: nc). rewrite <- !app_assoc. cbn.
    split; [done|]. split; [done|]. split.
    + by constructor.
    + constructor; [|done]. unfold text_of. eauto.
  - apply Exists_cons_hd. unfold fails_with. eauto.
Qed.

End dataset_loading.

(** X14. The module body that loads the question file keeps exactly the
    records that have the three keys, in their order: when it succeeds
    there is at least one such record, and the two lists hold the question
    and the text [choices[correct_answer]] of each. A record lacking a key
    is skipped; a record with the three keys whose [choices[correct_answer]]
    fails is not skipped, its exception ends the start-up; and a file
    without any complete record ends the start-up with an [IndexError] at
    [questions[0]]. *)
Theorem load_dataset_keeps_complete_records (data : list Dataset.record) :
  let kept := List.filter Dataset.complete data in
  match Dataset.load_dataset data with
  | Py.Return (questions, correct_texts) =>
      kept ≠ []
      ∧ Forall2 Dataset.question_of kept questions
      ∧ Forall2 Dataset.text_of kept correct_texts
  | Py.Raise e =>
      (kept = [] ∧ e = Py.Exn Py.IndexError "list index out of range")
      ∨ Exists (Dataset.fails_with e) kept
  end.
Proof.
  intros kept. unfold Dataset.load_dataset.
  pose proof (load_spec data [] []) as H.
  destruct (Dataset.load data [] []) as [[questions correct_texts]|e]; cbn;
    [|by right].
  destruct H as (nq & nc & -> & -> & Hq & Hc). cbn. fold kept in Hq, Hc.
  destruct Hq as [|item q kept' nq' Hq Hqs].
  { left. split; [done|]. by inversion Hc. }
  inversion Hc as [|? text ? nc' Ht Hts]; subst. cbn.
  split; [done|]. split; by constructor.
Qed.

(** An empty file, and a file whose only complete record points past its
    choices, both end the start-up. *)
Example load_dataset_failures :
  Dataset.load_dataset [] = Py.Raise (Py.Exn Py.IndexError "list index out of range")
  ∧ Dataset.load_dataset
      [ [ ("question", Py.PStr "What is OSPF?") ];
        [ ("question", Py.PStr "What is OSPF?");
          ("choices", Py.PList [Py.PStr "A link-state protocol"]);
          ("correct_answer", Py.PInt 1) ] ]
    = Py.Raise (Py.Exn Py.IndexError "list index out of range")
  ∧ Dataset.load_dataset
      [ [ ("question", Py.PStr "What is OSPF?") ];
        [ ("question", Py.PStr "What is OSPF?");
          ("choices", Py.PList [Py.PStr "A link-state protocol";
                                Py.PStr "A distance-vector protocol"]);
          ("correct_answer", Py.PInt 0) ] ]
    = Py.Return ([Py.PStr "What is OSPF?"], [Py.PStr "A link-state protocol"]).
Proof. by vm_compute. Qed.

(** ** The mode of the Qwen2 route *)

Section qwen2_route.
Import Py Server.

Lemma any_keyword_spec (keywords : list string) (text : string) :
  forallb (λ kw, String.eqb (PyStr.lower kw) kw) keywords = true →
  (Topics.any_keyword keywords (PyStr.lower text) = true
   → TopicSpec.matches keywords text)
  ∧ (Topics.any_keyword keywords (PyStr.lower text) = false
     → ¬ TopicSpec.matches keywords text).
Proof.
  intros Hlow. pose proof (any_keyword_matches keywords text Hlow) as H.
  split; [by apply H|]. intros Hf Hm. apply H in Hm. congruence.
Qed.

End qwen2_route.

(** X15. With the Qwen2 tutor there, [/chat-qwen2] reports as [mode] the
    first keyword group (configuration, troubleshooting, concepts) one of
    whose words occurs in the message in any letter case, and [practice]
    when none does. The mode is a label only: the answer and the tutor's
    memory are those of the call made with mode [practice], and
    [model_type] is [practice] whatever the mode. A tutor call that raises
    gives the error body and leaves the module's names as they were. *)
Theorem chat_qwen2_mode_is_first_matching_group (w : Server.World)
    (request : Server.ChatRequest) (g : Server.Globals) (qw : Qwen2.Globals) :
  Server.qwen2_tutor g = Some qw →
  ∃ mode,
    ServerInvariant.qwen2_mode (Server.message request) mode
    ∧ match Qwen2.personalized_tutor (Server.encode w) (Server.qwen2_index_search w)
              (Server.requests_post w) qw (Server.message request) "practice"
              Qwen2.default_top_k with
      | Py.Return (answer, qw') =>
          Server.chat_qwen2_endpoint w request g
          = Py.Return ([ ("response", Py.PStr answer);
                         ("model_used", Py.PStr "qwen2:0.5b");
                         ("model_type", Py.PStr "practice");
                         ("mode", Py.PStr mode);
                         ("gpu_accelerated", Py.PBool true);
                         ("response_time", Py.PStr "<1s");
                         ("status", Py.PStr "success") ],
                       {| Server.gemini_tutor := Server.gemini_tutor g;
                          Server.qwen2_tutor := Some qw';
                          Server.phi3_tutor := Server.phi3_tutor g;
                          Server.llama_tutor := Server.llama_tutor g;
                          Server.current_tutor := Server.current_tutor g;
                          Server.current_model := Server.current_model g |})
      | Py.Raise e =>
          Server.chat_qwen2_endpoint w request g
          = Py.Return ([ ("error",
                           Py.PStr ("Error generating response: " +:+ Py.str_of e));
                         ("status", Py.PStr "error") ], g)
      end.
Proof.
  intros Hqw. unfold Server.chat_qwen2_endpoint. rewrite Hqw. cbv zeta.
  destruct (any_keyword_spec ["configure"; "setup"; "command"; "cli"]
              (Server.message request) eq_refl) as [Hc1 Hc0].
  destruct (any_keyword_spec ["troubleshoot"; "problem"; "issue"; "error"]
              (Server.message request) eq_refl) as [Ht1 Ht0].
  destruct (any_keyword_spec ["what"; "explain"; "define"]
              (Server.message request) eq_refl) as [He1 He0].
  unfold ServerInvariant.qwen2_mode. cbv zeta.
  destruct (Topics.any_keyword ["configure"; "setup"; "command"; "cli"] _);
    [exists "configuration"; split; [by left; auto|]|
     destruct (Topics.any_keyword ["troubleshoot"; "problem"; "issue"; "error"] _);
       [exists "troubleshooting"; split; [by right; left; auto|]|
        destruct (Topics.any_keyword ["what"; "explain"; "define"] _);
          [exists "concepts"; split; [by right; right; left; auto|]|
           exists "practice"; split; [by right; right; right; auto|]]]];
    unfold Qwen2.personalized_tutor, Qwen2.assemble;
    match goal with |- match ?c with _ => _ end => destruct c as [[answer qw']|e] end;
    reflexivity.
Qed.

Lemma chat_qwen2_mode_is_first_matching_group_witness :
  let qw := {| Qwen2.questions := ["What is OSPF?"];
               Qwen2.correct_texts := ["A link-state protocol"];
               Qwen2.conversation_history := [] |} in
  let g := Server.startup None (Some qw) true true in
  let request := {| Server.message := "Explain the CLI error";
                    Server.conversation_history := [];
                    Server.model := None |} in
  Server.qwen2_tutor g = Some qw
  ∧ ∃ mode,
      ServerInvariant.qwen2_mode (Server.message request) mode
      ∧ match Qwen2.personalized_tutor (Server.encode Scenario.world)
                (Server.qwen2_index_search Scenario.world)
                (Server.requests_post Scenario.world) qw (Server.message request)
                "practice" Qwen2.default_top_k with
        | Py.Return (answer, qw') =>
            Server.chat_qwen2_endpoint Scenario.world request g
            = Py.Return ([ ("response", Py.PStr answer);
                           ("model_used", Py.PStr "qwen2:0.5b");
                           ("model_type", Py.PStr "practice");
                           ("mode", Py.PStr mode);
                           ("gpu_accelerated", Py.PBool true);
                           ("response_time", Py.PStr "<1s");
                           ("status", Py.PStr "success") ],
                         {| Server.gemini_tutor := Server.gemini_tutor g;
                            Server.qwen2_tutor := Some qw';
                            Server.phi3_tutor := Server.phi3_tutor g;
                            Server.llama_tutor := Server.llama_tutor g;
                            Server.current_tutor := Server.current_tutor g;
                            Server.current_model := Server.current_model g |})
        | Py.Raise e =>
            Server.chat_qwen2_endpoint Scenario.world request g
            = Py.Return ([ ("error",
                             Py.PStr ("Error generating response: " +:+ Py.str_of e));
                           ("status", Py.PStr "error") ], g)
        end.
Proof.
  cbv zeta. split; [reflexivity|].
  exact (chat_qwen2_mode_is_first_matching_group Scenario.world
           {| Server.message := "Explain the CLI error";
              Server.conversation_history := [];
              Server.model := None |}
           (Server.startup None
              (Some {| Qwen2.questions := ["What is OSPF?"];
                       Qwen2.correct_texts := ["A link-state protocol"];
                       Qwen2.conversation_history := [] |}) true true)
           {| Qwen2.questions := ["What is OSPF?"];
              Qwen2.correct_texts := ["A link-state protocol"];
              Qwen2.conversation_history := [] |} eq_refl).
Defined.

(** A message with a word of two groups takes the mode of the first. *)
Example chat_qwen2_mode_of_cli_error :
  Py.assoc "mode"
    (match Server.chat_qwen2_endpoint Scenario.world
             {| Server.message := "Explain the CLI error";
                Server.conversation_history := [];
                Server.model := None |}
             (Server.startup None
                (Some {| Qwen2.questions := ["What is OSPF?"];
                         Qwen2.correct_texts := ["A link-state protocol"];
                         Qwen2.conversation_history := [] |}) true true) with
     | Py.Return (d, _) => d
     | Py.Raise _ => []
     end)
  = Some (Py.PStr "configuration").
Proof. by vm_compute. Qed.

(** ** The Ollama tutors keep no memory *)

Section no_memory.
Import Py.

Lemma phi3_session_same_setup (asked : list (Ollama.chat_service * Q * string))
    (self : Phi3.Phi3CCNATutor) :
  Report.phi3_same_setup self (Report.phi3_session asked self).
Proof.
  revert self. induction asked as [|[[chat rt] query] rest IH]; intros self; cbn; [done|].
  destruct (phi3_ask_question_cases chat rt self query) as [[text ->]| ->]; [|apply IH].
  destruct (IH (Phi3._update_learning_analytics self query rt)) as (Hm & Hp & Ho).
  unfold Report.phi3_same_setup. by rewrite Hm, Hp, Ho.
Qed.

Lemma llama_session_same_setup (asked : list (Ollama.chat_service * Q * Q * string))
    (self : Llama.LlamaCCNATutor) :
  Report.llama_same_setup self (Report.llama_session asked self).
Proof.
  revert self. induction asked as [|[[[chat rt] now] query] rest IH]; intros self; cbn;
    [done|].
  destruct (llama_ask_question_cases chat rt now self query) as [[text ->]| ->];
    [|apply IH].
  destruct (IH (Llama._update_learning_analytics self query rt now)) as (Hm & Hp & Ho).
  unfold Report.llama_same_setup. by rewrite Hm, Hp, Ho.
Qed.

Lemma phi3_answer_of_call (chat : Ollama.chat_service) (rt : Q)
    (self : Phi3.Phi3CCNATutor) (query : string) :
  Report.answer (Phi3.ask_question chat rt self query)
  = Some match (response ← chat (Report.phi3_call self query);
                message ← subscript response "message";
                answer ← subscript message "content";
                Phi3._enhance_response answer query) with
         | Return text => text
         | Raise _ =>
             "I apologize, but I encountered an issue. Please ensure Ollama is running with the "
             +:+ Phi3.model self +:+ " model loaded."
         end.
Proof.
  unfold Phi3.ask_question, Report.phi3_call, try_except, mret, result_ret. cbv zeta.
  destruct (chat _) as [response|e]; cbn -[Phi3._build_expert_system_prompt]; [|done].
  destruct (subscript response "message") as [message|e]; cbn; [|done].
  destruct (subscript message "content") as [answer|e]; cbn; [|done].
  by destruct (Phi3._enhance_response answer query) as [enhanced|e].
Qed.

Lemma llama_answer_of_call (chat : Ollama.chat_service) (rt now : Q)
    (self : Llama.LlamaCCNATutor) (query : string) :
  Report.answer (Llama.ask_question chat rt now self query)
  = Some match (response ← chat (Report.llama_call self query);
                message ← subscript response "message";
                answer ← subscript message "content";
                Llama._enhance_comprehensive_response answer query) with
         | Return text => text
         | Raise _ =>
             "I apologize, but I encountered an issue. Please ensure Ollama is running with the "
             +:+ Llama.model self +:+ " model loaded."
         end.
Proof.
  unfold Llama.ask_question, Report.llama_call, try_except, mret, result_ret. cbv zeta.
  destruct (chat _) as [response|e]; cbn -[Llama._build_comprehensive_system_prompt];
    [|done].
  destruct (subscript response "message") as [message|e]; cbn; [|done].
  destruct (subscript message "content") as [answer|e]; cbn; [|done].
  by destruct (Llama._enhance_comprehensive_response answer query) as [enhanced|e].
Qed.

Lemma phi3_call_same_setup (a b : Phi3.Phi3CCNATutor) (query : string) :
  Report.phi3_same_setup a b → Report.phi3_call b query = Report.phi3_call a query.
Proof.
  intros (Hm & Hp & Ho). unfold Report.phi3_call, Phi3._build_expert_system_prompt.
  by rewrite Hm, Hp, Ho.
Qed.

Lemma llama_call_same_setup (a b : Llama.LlamaCCNATutor) (query : string) :
  Report.llama_same_setup a b → Report.llama_call b query = Report.llama_call a query.
Proof.
  intros (Hm & Hp & Ho).
  unfold Report.llama_call, Llama._build_comprehensive_system_prompt.
  by rewrite Hm, Hp, Ho.
Qed.

End no_memory.

(** X16. The Ollama tutors keep no memory of the conversation. The text
    [ask_question] hands back is decided by the daemon's reply to one call
    (the tutor's model, system prompt and options, and the query in its
    frame) and by the query: it is the same after any number of earlier
    questions, whatever the clock reads, and for any two daemons that give
    this call the same reply. *)
Theorem ollama_tutors_answer_without_memory
    (asked_phi3 : list (Ollama.chat_service * Q * string))
    (asked_llama : list (Ollama.chat_service * Q * Q * string))
    (chat chat' : Ollama.chat_service) (rt rt' now now' : Q)
    (phi3 : Phi3.Phi3CCNATutor) (llama : Llama.LlamaCCNATutor) (query : string) :
  chat' (Report.phi3_call phi3 query) = chat (Report.phi3_call phi3 query) →
  chat' (Report.llama_call llama query) = chat (Report.llama_call llama query) →
  Report.answer (Phi3.ask_question chat' rt' (Report.phi3_session asked_phi3 phi3) query)
  = Report.answer (Phi3.ask_question chat rt phi3 query)
  ∧ Report.answer
      (Llama.ask_question chat' rt' now' (Report.llama_session asked_llama llama) query)
    = Report.answer (Llama.ask_question chat rt now llama query).
Proof.
  intros Hp Hl. split.
  - pose proof (phi3_session_same_setup asked_phi3 phi3) as Hs.
    rewrite !phi3_answer_of_call, (phi3_call_same_setup _ _ query Hs), Hp.
    by destruct Hs as (-> & _).
  - pose proof (llama_session_same_setup asked_llama llama) as Hs.
    rewrite !llama_answer_of_call, (llama_call_same_setup _ _ query Hs), Hl.
    by destruct Hs as (-> & _).
Qed.

Lemma ollama_tutors_answer_without_memory_witness :
  let chat := Server.ollama_chat Scenario.world in
  let failing : Ollama.chat_service :=
    λ _, Py.Raise (Py.Exn Py.ConnectionError "connection refused") in
  let phi3 := Phi3.__init__ "phi3:mini" in
  let llama := Llama.__init__ "llama3.1:8b" in
  (chat (Report.phi3_call phi3 "Explain OSPF")
   = chat (Report.phi3_call phi3 "Explain OSPF")
   ∧ chat (Report.llama_call llama "Explain OSPF")
     = chat (Report.llama_call llama "Explain OSPF"))
  ∧ Report.answer
      (Phi3.ask_question chat 5%Q
         (Report.phi3_session [(chat, 1%Q, "What is a VLAN?");
                               (failing, 1%Q, "Explain OSPF")] phi3)
         "Explain OSPF")
    = Report.answer (Phi3.ask_question chat 1%Q phi3 "Explain OSPF")
  ∧ Report.answer
      (Llama.ask_question chat 5%Q 9%Q
         (Report.llama_session [(chat, 1%Q, 2%Q, "What is a VLAN?");
                                (failing, 1%Q, 3%Q, "Explain OSPF")] llama)
         "Explain OSPF")
    = Report.answer (Llama.ask_question chat 1%Q 2%Q llama "Explain OSPF").
Proof.
  cbv zeta. split; [by split|].
  exact (ollama_tutors_answer_without_memory
           [(Server.ollama_chat Scenario.world, 1%Q, "What is a VLAN?");
            (λ _, Py.Raise (Py.Exn Py.ConnectionError "connection refused"), 1%Q,
             "Explain OSPF")]
           [(Server.ollama_chat Scenario.world, 1%Q, 2%Q, "What is a VLAN?");
            (λ _, Py.Raise (Py.Exn Py.ConnectionError "connection refused"), 1%Q, 3%Q,
             "Explain OSPF")]
           (Server.ollama_chat Scenario.world) (Server.ollama_chat Scenario.world)
           1%Q 5%Q 2%Q 9%Q (Phi3.__init__ "phi3:mini") (Llama.__init__ "llama3.1:8b")
           "Explain OSPF" eq_refl eq_refl).
Defined.

(** ** The command loops of the Ollama tutors *)

Section command_loops.
Import Py Repl.

Lemma lower_empty (s : string) : PyStr.lower s = "" ↔ s = "".
Proof. by destruct s. Qed.

Lemma eqb_lower_empty (s : string) :
  String.eqb (PyStr.lower s) "" = String.eqb s "".
Proof. by destruct s. Qed.

Lemma phi3_questions_app (before after : list event) :
  phi3_questions (before ++ after) = phi3_questions before ++ phi3_questions after.
Proof.
  induction before as [|[s w|] rest IH]; [done| |done].
  cbn [phi3_questions llama_questions app]. cbv zeta.
  destruct (in_list _ _); [done|]. by rewrite IH.
Qed.

(** A turn on an event that does not end the loop: the loop goes on, the
    tutor having answered the event's question if it is one. *)
Lemma phi3_turn_goes_on (ev : event) (rest : list event) (t : Phi3.Phi3CCNATutor) :
  leaves ev = false →
  phi3_turn (State (ev :: rest) t)
  = Again (State rest (Report.phi3_session (phi3_questions [ev]) t)).
Proof.
  destruct ev as [s w|]; [|done]. unfold leaves, phi3_turn. cbn [inputs tutor].
  cbv zeta. intros Hq. rewrite Hq.
  cbn [phi3_questions in_list existsb] in *. rewrite !orb_false_r in *.
  apply orb_false_iff in Hq as [H1 Hq]. apply orb_false_iff in Hq as [H2 H3].
  rewrite H1, H2, H3. cbn [orb]. rewrite eqb_lower_empty.
  destruct (String.eqb (PyStr.lower (PyStr.strip s)) "stats"); [done|].
  destruct (String.eqb (PyStr.strip s) ""); [done|]. cbn.
  by destruct (Phi3.ask_question _ _ _ _) as [[answer t']|e].
Qed.

Lemma llama_turn_goes_on (ev : event) (rest : list event) (t : Llama.LlamaCCNATutor) :
  leaves ev = false →
  llama_turn (State (ev :: rest) t)
  = Again (State rest (Report.llama_session (llama_questions [ev]) t)).
Proof.
  destruct ev as [s w|]; [|done]. unfold leaves, llama_turn. cbn [inputs tutor].
  cbv zeta. intros Hq. rewrite Hq.
  cbn [llama_questions in_list existsb] in *. rewrite !orb_false_r in *.
  apply orb_false_iff in Hq as [H1 Hq]. apply orb_false_iff in Hq as [H2 H3].
  rewrite H1, H2, H3. cbn [orb]. rewrite eqb_lower_empty.
  destruct (String.eqb (PyStr.lower (PyStr.strip s)) "stats"); [done|].
  destruct (String.eqb (PyStr.lower (PyStr.strip s)) "plan"); [done|].
  destruct (String.eqb (PyStr.strip s) ""); [done|]. cbn.
  by destruct (Llama.ask_question _ _ _ _ _) as [[answer t']|e].
Qed.

Lemma phi3_turn_leaves (ev : event) (rest : list event) (t : Phi3.Phi3CCNATutor) :
  leaves ev = true → phi3_turn (State (ev :: rest) t) = Break (State rest t).
Proof.
  destruct ev as [s w|]; [|done]. unfold leaves, phi3_turn. cbn [inputs tutor].
  cbv zeta. by intros ->.
Qed.

Lemma llama_turn_leaves (ev : event) (rest : list event) (t : Llama.LlamaCCNATutor) :
  leaves ev = true → llama_turn (State (ev :: rest) t) = Break (State rest t).
Proof.
  destruct ev as [s w|]; [|done]. unfold leaves, llama_turn. cbn [inputs tutor].
  cbv zeta. by intros ->.
Qed.

Lemma phi3_session_app (a b : list (Ollama.chat_service * Q * string))
    (t : Phi3.Phi3CCNATutor) :
  Report.phi3_session (a ++ b) t = Report.phi3_session b (Report.phi3_session a t).
Proof.
  revert t. induction a as [|[[chat rt] query] rest IH]; intros t; cbn; [done|].
  by destruct (Phi3.ask_question _ _ _ _) as [[answer t']|e].
Qed.

Lemma llama_session_app (a b : list (Ollama.chat_service * Q * Q * string))
    (t : Llama.LlamaCCNATutor) :
  Report.llama_session (a ++ b) t = Report.llama_session b (Report.llama_session a t).
Proof.
  revert t. induction a as [|[[[chat rt] now] query] rest IH]; intros t; cbn; [done|].
  by destruct (Llama.ask_question _ _ _ _ _) as [[answer t']|e].
Qed.

Lemma llama_questions_app (before after : list event) :
  llama_questions (before ++ after) = llama_questions before ++ llama_questions after.
Proof.
  induction before as [|[s w|] rest IH]; [done| |done].
  cbn [phi3_questions llama_questions app]. cbv zeta.
  destruct (in_list _ _); [done|]. by rewrite IH.
Qed.

Lemma phi3_loop_through (before after : list event) (t : Phi3.Phi3CCNATutor)
    (more : nat) :
  forallb (λ ev, negb (leaves ev)) before = true →
  loop phi3_turn (length before + more) (State (before ++ after) t)
  = loop phi3_turn more
      (State after (Report.phi3_session (phi3_questions before) t)).
Proof.
  revert t. induction before as [|ev rest IH]; intros t Hb; [done|].
  cbn [forallb] in Hb. apply andb_true_iff in Hb as [Hev Hb].
  apply negb_true_iff in Hev.
  change (ev :: rest) with ([ev] ++ rest) at 3.
  rewrite phi3_questions_app, phi3_session_app.
  cbn [length Nat.add app loop]. rewrite (phi3_turn_goes_on ev _ t Hev). by apply IH.
Qed.

Lemma llama_loop_through (before after : list event) (t : Llama.LlamaCCNATutor)
    (more : nat) :
  forallb (λ ev, negb (leaves ev)) before = true →
  loop llama_turn (length before + more) (State (before ++ after) t)
  = loop llama_turn more
      (State after (Report.llama_session (llama_questions before) t)).
Proof.
  revert t. induction before as [|ev rest IH]; intros t Hb; [done|].
  cbn [forallb] in Hb. apply andb_true_iff in Hb as [Hev Hb].
  apply negb_true_iff in Hev.
  change (ev :: rest) with ([ev] ++ rest) at 3.
  rewrite llama_questions_app, llama_session_app.
  cbn [length Nat.add app loop]. rewrite (llama_turn_goes_on ev _ t Hev). by apply IH.
Qed.

(** At the end of the input a turn changes nothing, so the loop goes on. *)
Lemma loop_at_end_of_input {T : Type} (body : state T → turn T) (t : T) (turns : nat) :
  body (State [] t) = Again (State [] t) → loop body turns (State [] t) = None.
Proof. intros Hb. induction turns as [|n IH]; cbn; [done|]. by rewrite Hb. Qed.

Lemma phi3_loop_never_leaves (events : list event) (t : Phi3.Phi3CCNATutor)
    (turns : nat) :
  forallb (λ ev, negb (leaves ev)) events = true →
  loop phi3_turn turns (State events t) = None.
Proof.
  revert t turns. induction events as [|ev rest IH]; intros t turns Hb.
  { by apply loop_at_end_of_input. }
  cbn [forallb] in Hb. apply andb_true_iff in Hb as [Hev Hb].
  apply negb_true_iff in Hev. destruct turns as [|turns]; [done|].
  cbn [loop]. rewrite (phi3_turn_goes_on ev _ t Hev). by apply IH.
Qed.

Lemma llama_loop_never_leaves (events : list event) (t : Llama.LlamaCCNATutor)
    (turns : nat) :
  forallb (λ ev, negb (leaves ev)) events = true →
  loop llama_turn turns (State events t) = None.
Proof.
  revert t turns. induction events as [|ev rest IH]; intros t turns Hb.
  { by apply loop_at_end_of_input. }
  cbn [forallb] in Hb. apply andb_true_iff in Hb as [Hev Hb].
  apply negb_true_iff in Hev. destruct turns as [|turns]; [done|].
  cbn [loop]. rewrite (llama_turn_goes_on ev _ t Hev). by apply IH.
Qed.

End command_loops.

(** X17. The command loops of the Phi3 and Llama tutors. After any lines
    that are neither [quit], [exit] nor [q] (in any letter case, blanks
    around them aside), the first such line or an interrupt ends the loop,
    one turn per line: nothing after it is read, and the tutor is the one
    that answered, in order, the lines before it that are neither blank nor
    a command ([stats], and [plan] for Llama), each without the blanks
    around it. Without such a line the loop never ends: at the end of the
    input [input] raises [EOFError], the loop prints it and asks again. *)
Theorem command_loop_ends_at_quit_only (before rest : list Repl.event)
    (stop : Repl.event) (phi3 : Phi3.Phi3CCNATutor) (llama : Llama.LlamaCCNATutor)
    (turns : nat) :
  forallb (λ ev, negb (Repl.leaves ev)) before = true →
  Repl.leaves stop = true →
  Repl.loop Repl.phi3_turn (length before + 1 + turns)
    (Repl.State (before ++ stop :: rest) phi3)
  = Some (Repl.State rest (Report.phi3_session (Repl.phi3_questions before) phi3))
  ∧ Repl.loop Repl.llama_turn (length before + 1 + turns)
      (Repl.State (before ++ stop :: rest) llama)
    = Some (Repl.State rest (Report.llama_session (Repl.llama_questions before) llama))
  ∧ Repl.loop Repl.phi3_turn turns (Repl.State before phi3) = None
  ∧ Repl.loop Repl.llama_turn turns (Repl.State before llama) = None.
Proof.
  intros Hb Hs. split; [|split; [|split]].
  - rewrite <- Nat.add_assoc, (phi3_loop_through before _ phi3 _ Hb). cbn [Nat.add Repl.loop].
    by rewrite (phi3_turn_leaves stop rest _ Hs).
  - rewrite <- Nat.add_assoc, (llama_loop_through before _ llama _ Hb).
    cbn [Nat.add Repl.loop]. by rewrite (llama_turn_leaves stop rest _ Hs).
  - by apply phi3_loop_never_leaves.
  - by apply llama_loop_never_leaves.
Qed.

Lemma command_loop_ends_at_quit_only_witness :
  let before := [ Repl.Line "  What is OSPF? " Scenario.world;
                  Repl.Line "" Scenario.world;
                  Repl.Line "STATS" Scenario.world ] in
  let stop := Repl.Line " Quit " Scenario.world in
  let rest := [ Repl.Line "Explain VLANs" Scenario.world ] in
  let phi3 := Phi3.__init__ "phi3:mini" in
  let llama := Llama.__init__ "llama3.1:8b" in
  (forallb (λ ev, negb (Repl.leaves ev)) before = true ∧ Repl.leaves stop = true)
  ∧ Repl.loop Repl.phi3_turn (length before + 1 + 2)
      (Repl.State (before ++ stop :: rest) phi3)
    = Some (Repl.State rest (Report.phi3_session (Repl.phi3_questions before) phi3))
  ∧ Repl.loop Repl.llama_turn (length before + 1 + 2)
      (Repl.State (before ++ stop :: rest) llama)
    = Some (Repl.State rest (Report.llama_session (Repl.llama_questions before) llama))
  ∧ Repl.loop Repl.phi3_turn 2 (Repl.State before phi3) = None
  ∧ Repl.loop Repl.llama_turn 2 (Repl.State before llama) = None.
Proof.
  cbv zeta. split; [by split; vm_compute|].
  exact (command_loop_ends_at_quit_only
           [ Repl.Line "  What is OSPF? " Scenario.world;
             Repl.Line "" Scenario.world;
             Repl.Line "STATS" Scenario.world ]
           [ Repl.Line "Explain VLANs" Scenario.world ]
           (Repl.Line " Quit " Scenario.world)
           (Phi3.__init__ "phi3:mini") (Llama.__init__ "llama3.1:8b") 2
           eq_refl eq_refl).
Defined.

(** One question was asked in that session, without the blanks around it. *)
Example command_loop_questions :
  Repl.phi3_questions
    [ Repl.Line "  What is OSPF? " Scenario.world;
      Repl.Line "" Scenario.world;
      Repl.Line "STATS" Scenario.world ]
  = [ (Server.ollama_chat Scenario.world, Server.response_time Scenario.world,
       "What is OSPF?") ].
Proof. reflexivity. Qed.

(** ** The test loop of the Gemini tutor *)

Section test_loop.
Import Py Repl.

Lemma gemini_loop_through (lines : list (string * Server.World)) (after : list event)
    (g : Gemini.Globals) (more : nat) :
  forallb (λ line, negb (is_exit line.1)) lines = true →
  gemini_loop (length lines + more) (State (as_events lines ++ after) g)
  = match gemini_session lines g with
    | Return g' => gemini_loop more (State after g')
    | Raise e => Some (Failed e)
    end.
Proof.
  revert g. induction lines as [|[user_query w] rest IH]; intros g Hb; [done|].
  cbn [forallb] in Hb. apply andb_true_iff in Hb as [Hq Hb].
  apply negb_true_iff in Hq. cbn [fst] in Hq.
  cbn [length Nat.add as_events fmap list_fmap app gemini_loop gemini_session].
  unfold gemini_turn. cbn [inputs tutor fst snd]. rewrite Hq.
  destruct (Gemini.personalized_tutor _ _ _ _ _ _) as [[answer g']|e]; cbn; [|done].
  by apply IH.
Qed.

(** A session that returns has appended one entry per line, in order. *)
Lemma gemini_session_entries (lines : list (string * Server.World))
    (g g' : Gemini.Globals) :
  gemini_session lines g = Return g' →
  Gemini.questions g' = Gemini.questions g
  ∧ Gemini.correct_texts g' = Gemini.correct_texts g
  ∧ ∃ answers,
      length answers = length lines
      ∧ Gemini.conversation_history g'
        = Gemini.conversation_history g ++ zip_with entry lines answers.
Proof.
  revert g. induction lines as [|[user_query w] rest IH]; intros g; cbn.
  { intros [= <-]. split; [done|]. split; [done|]. exists []. by rewrite app_nil_r. }
  unfold Gemini.personalized_tutor, mret, result_ret.
  destruct (Gemini.assemble _ _ _ _ _) as [prompt|e]; cbn; [|done].
  destruct (Gemini.generate_answer _ prompt) as [text|e]; cbn; [|done].
  intros H. apply IH in H as (Hq & Hc & answers & Hlen & Hh). cbn in Hq, Hc, Hh.
  split; [done|]. split; [done|]. exists (text :: answers). cbn.
  split; [by rewrite Hlen|]. by rewrite Hh, <- app_assoc.
Qed.

End test_loop.

(** X18. The test loop of the Gemini script. Only a line that reads
    [exit] (in any letter case, blanks around it aside) ends it by [break];
    every line before it, blank lines and [quit] included, is asked as
    typed. When the tutor answers each of them, the loop ends at the [exit]
    line with the corpus unchanged and one memory entry more per line, in
    order; without an [exit] line it ends with the [EOFError] of [input].
    An exception of the tutor ends the loop at once. *)
Theorem test_loop_asks_every_line_until_exit (lines : list (string * Server.World))
    (exit_line : string) (w : Server.World) (rest : list Repl.event)
    (g : Gemini.Globals) (turns : nat) :
  forallb (λ line, negb (Repl.is_exit line.1)) lines = true →
  Repl.is_exit exit_line = true →
  let events := (λ line, Repl.Line line.1 line.2) <$> lines in
  match Repl.gemini_session lines g with
  | Py.Return g' =>
      Repl.gemini_loop (length lines + 1 + turns)
        (Repl.State (events ++ Repl.Line exit_line w :: rest) g)
      = Some (Repl.Finished (Repl.State rest g'))
      ∧ Repl.gemini_loop (length lines + 1 + turns) (Repl.State events g)
        = Some (Repl.Failed Repl.EOFError)
      ∧ Gemini.questions g' = Gemini.questions g
      ∧ Gemini.correct_texts g' = Gemini.correct_texts g
      ∧ ∃ answers,
          length answers = length lines
          ∧ Gemini.conversation_history g'
            = Gemini.conversation_history g ++ zip_with Repl.entry lines answers
  | Py.Raise e =>
      Repl.gemini_loop (length lines + 1 + turns)
        (Repl.State (events ++ Repl.Line exit_line w :: rest) g)
      = Some (Repl.Failed e)
      ∧ Repl.gemini_loop (length lines + 1 + turns) (Repl.State events g)
        = Some (Repl.Failed e)
  end.
Proof.
  intros Hb Hexit events.
  pose proof (gemini_loop_through lines (Repl.Line exit_line w :: rest) g (1 + turns) Hb)
    as Hstop.
  pose proof (gemini_loop_through lines [] g (1 + turns) Hb) as Hend.
  rewrite app_nil_r in Hend. rewrite Nat.add_assoc in Hstop, Hend.
  fold events in Hstop, Hend. unfold Repl.as_events in Hstop, Hend. fold events in Hstop, Hend.
  destruct (Repl.gemini_session lines g) as [g'|e] eqn:Hs; [|done].
  split; [|split].
  - rewrite Hstop. cbn. unfold Repl.gemini_turn. cbn. by rewrite Hexit.
  - by rewrite Hend.
  - by apply gemini_session_entries.
Qed.

Lemma test_loop_asks_every_line_until_exit_witness :
  let lines := [("quit", Scenario.world); ("", Scenario.world)] in
  let g := {| Gemini.questions := ["What is OSPF?"];
              Gemini.correct_texts := ["A link-state protocol"];
              Gemini.conversation_history := [] |} in
  let events := (λ line, Repl.Line line.1 line.2) <$> lines in
  (forallb (λ line : string * Server.World, negb (Repl.is_exit line.1)) lines = true
   ∧ Repl.is_exit " Exit " = true)
  ∧ match Repl.gemini_session lines g with
    | Py.Return g' =>
        Repl.gemini_loop (length lines + 1 + 0)
          (Repl.State (events ++ Repl.Line " Exit " Scenario.world :: [Repl.Interrupt]) g)
        = Some (Repl.Finished (Repl.State [Repl.Interrupt] g'))
        ∧ Repl.gemini_loop (length lines + 1 + 0) (Repl.State events g)
          = Some (Repl.Failed Repl.EOFError)
        ∧ Gemini.questions g' = Gemini.questions g
        ∧ Gemini.correct_texts g' = Gemini.correct_texts g
        ∧ ∃ answers,
            length answers = length lines
            ∧ Gemini.conversation_history g'
              = Gemini.conversation_history g ++ zip_with Repl.entry lines answers
    | Py.Raise e =>
        Repl.gemini_loop (length lines + 1 + 0)
          (Repl.State (events ++ Repl.Line " Exit " Scenario.world :: [Repl.Interrupt]) g)
        = Some (Repl.Failed e)
        ∧ Repl.gemini_loop (length lines + 1 + 0) (Repl.State events g)
          = Some (Repl.Failed e)
    end.
Proof.
  cbv zeta. split; [by split; vm_compute|].
  exact (test_loop_asks_every_line_until_exit
           [("quit", Scenario.world); ("", Scenario.world)] " Exit "
           Scenario.world [Repl.Interrupt]
           {| Gemini.questions := ["What is OSPF?"];
              Gemini.correct_texts := ["A link-state protocol"];
              Gemini.conversation_history := [] |} 0 eq_refl eq_refl).
Defined.

(** In that session [quit] and the blank line were asked as questions. *)
Example test_loop_asks_quit :
  match Repl.gemini_session [("quit", Scenario.world); ("", Scenario.world)]
          {| Gemini.questions := ["What is OSPF?"];
             Gemini.correct_texts := ["A link-state protocol"];
             Gemini.conversation_history := [] |} with
  | Py.Return g' =>
      Gemini.conversation_history g'
      = [ "Q: quit" +:+ PyStr.nl +:+ "A: Use router ospf 1.";
          "Q: " +:+ PyStr.nl +:+ "A: Use router ospf 1." ]
  | Py.Raise _ => False
  end.
Proof. by vm_compute. Qed.
